(** * InterviewReader: OAuth login, tokens and session lifecycle

    A shallow embedding of the server-side authentication code of the
    InterviewReader repository (Express + Mongoose + jsonwebtoken):

    - [utils/Token.js]            token issuing and verification
    - [models/User.model.js]      the user document and its methods
    - [models/Session.model.js]   the session document and its statics
    - [Shared/LoginOrCreateUser.js], [Shared/LogoutUser.js]
    - [services/sessionService.js], [controllers/userControllers.js]
    - [middlewares/auth.middlewares.js], [utils/sessionCleanup.js]
    - the check of [process.env] at start-up ([validateEnvironment])

    The two MongoDB collections are lists of documents in natural
    (insertion) order; every handler is a computation in a state-and-
    exception monad over that store.  Wall-clock time is an explicit
    argument ([now], milliseconds since the epoch), one reading per
    handler call. *)

From Stdlib Require Import ZArith Lia.
From stdpp Require Import base tactics option list sorting strings gmap.

Local Open Scope string_scope.
Local Open Scope Z_scope.
Local Open Scope list_scope.

(** ** JavaScript values and exceptions *)

Definition ObjectId := nat.
Definition Date := Z.

Inductive JsValue :=
  | JUndefined
  | JNull
  | JBool (b : bool)
  | JNum (z : Z)
  | JStr (s : string)
  | JOid (o : ObjectId).

Global Instance JsValue_eq_dec : EqDecision JsValue.
Proof. solve_decision. Defined.

(** [!v] is [negb (truthy v)]. *)
Definition truthy (v : JsValue) : bool :=
  match v with
  | JUndefined | JNull => false
  | JBool b => b
  | JNum z => negb (z =? 0)
  | JStr s => negb (String.eqb s "")
  | JOid _ => true
  end.

(** A thrown value.  [JsErr] is an [Error] (or a subclass picked out by its
    [name], or a driver error picked out by its [code]); [ApiErr] is the
    repository's [ApiError] class, recognised with [instanceof]. *)
Inductive Exn :=
  | JsErr (name message : string) (code : option Z)
  | ApiErr (statusCode : Z) (message : string) (errors : list (string * string)).

Global Instance Exn_eq_dec : EqDecision Exn.
Proof. solve_decision. Defined.

Definition exn_name (e : Exn) : string :=
  match e with JsErr n _ _ => n | ApiErr _ _ _ => "Error" end.
Definition exn_message (e : Exn) : string :=
  match e with JsErr _ m _ => m | ApiErr _ m _ => m end.
Definition exn_code (e : Exn) : option Z :=
  match e with JsErr _ _ c => c | ApiErr _ _ _ => None end.

(** [new Error(msg)] *)
Definition Error (msg : string) : Exn := JsErr "Error" msg None.

(** Outcome of a synchronous computation that may throw. *)
Inductive Outcome (A : Type) :=
  | Return (a : A)
  | Throw (e : Exn).
Arguments Return {A} a.
Arguments Throw {A} e.

(** ** JavaScript strings

    Text is a [string] of ASCII characters; on it [toLowerCase] maps the
    letters [A]-[Z] and [trim] strips the white space and line terminators
    of ASCII (tab, line feed, vertical tab, form feed, carriage return and
    space) from both ends. *)

Definition lower_ascii (a : Ascii.ascii) : Ascii.ascii :=
  let n := Ascii.nat_of_ascii a in
  if ((65 <=? n) && (n <=? 90))%nat then Ascii.ascii_of_nat (n + 32) else a.

(** [String.prototype.toLowerCase] *)
Fixpoint toLowerCase (s : string) : string :=
  match s with
  | EmptyString => EmptyString
  | String a s' => String (lower_ascii a) (toLowerCase s')
  end.

Definition white_space (a : Ascii.ascii) : bool :=
  let n := Ascii.nat_of_ascii a in
  ((9 <=? n) && (n <=? 13) || (n =? 32))%nat.

(** [String.prototype.trimStart] *)
Fixpoint trimStart (s : string) : string :=
  match s with
  | EmptyString => EmptyString
  | String a s' => if white_space a then trimStart s' else s
  end.

(** [String.prototype.trimEnd] *)
Fixpoint trimEnd (s : string) : string :=
  match s with
  | EmptyString => EmptyString
  | String a s' =>
      let r := trimEnd s' in
      if white_space a && String.eqb r "" then EmptyString else String a r
  end.

(** [String.prototype.trim] *)
Definition trim (s : string) : string := trimEnd (trimStart s).

(** ** jsonwebtoken

    The signing library is external to the repository.  A compact JWT is
    kept symbolically: the algorithm of its header, the claims of its body
    and the secret its HMAC was computed with; a string that does not parse
    as a JWT is [Malformed].  A signature checks exactly when the verifying
    secret is the signing secret. *)

Record Jwt := mkJwt {
  jwt_alg : string;
  jwt_claims : gmap string JsValue;
  jwt_key : string
}.

Global Instance Jwt_eq_dec : EqDecision Jwt.
Proof. solve_decision. Defined.

Inductive Token :=
  | Signed (j : Jwt)
  | Malformed (s : string).

Global Instance Token_eq_dec : EqDecision Token.
Proof. solve_decision. Defined.

(** A cookie or header value in a boolean context: only the empty string is
    falsy. *)
Definition token_truthy (t : Token) : bool :=
  match t with
  | Signed _ => true
  | Malformed s => negb (String.eqb s "")
  end.

Module jwt.

Record SignOptions := {
  expiresIn : Z;          (* seconds *)
  algorithm : string;
  issuer : string;
  audience : string
}.

Record VerifyOptions := {
  algorithms : list string;
  v_issuer : option string;
  v_audience : option string
}.

Definition noOptions : VerifyOptions :=
  {| algorithms := ["HS256"; "HS384"; "HS512"]; v_issuer := None; v_audience := None |}.

Definition is_number (v : JsValue) : bool :=
  match v with JNum _ => true | _ => false end.

(** Clock reading of the library: whole seconds. *)
Definition seconds (now : Date) : Z := now / 1000.

(** [jwt.sign(payload, secret, options)] for an object payload.  The
    registered claims [iat], [exp], [nbf] must be numbers when the payload
    carries them; [exp], [iss] and [aud] may not be given both in the
    payload and in the options. *)
Definition sign (payload : gmap string JsValue) (secret : string)
    (o : SignOptions) (now : Date) : Outcome Token :=
  if negb (forallb (fun k => match payload !! k with
                             | Some v => is_number v
                             | None => true
                             end) ["iat"; "exp"; "nbf"])
  then Throw (Error "registered claim should be a number of seconds")
  else if bool_decide (is_Some (payload !! "exp"))
  then Throw (Error "Bad options.expiresIn option the payload already has an exp property.")
  else
    let timestamp :=
      match payload !! "iat" with
      | Some (JNum z) => if z =? 0 then seconds now else z
      | _ => seconds now
      end in
    if bool_decide (is_Some (payload !! "aud"))
    then Throw (Error "Bad options.audience option. The payload already has an aud property.")
    else if bool_decide (is_Some (payload !! "iss"))
    then Throw (Error "Bad options.issuer option. The payload already has an iss property.")
    else
      Return (Signed
        {| jwt_alg := algorithm o;
           jwt_claims :=
             <["iss" := JStr (issuer o)]>
               (<["aud" := JStr (audience o)]>
                  (<["exp" := JNum (timestamp + expiresIn o)]>
                     (<["iat" := JNum timestamp]> payload)));
           jwt_key := secret |}).

Definition JsonWebTokenError (msg : string) : Exn := JsErr "JsonWebTokenError" msg None.
Definition TokenExpiredError : Exn := JsErr "TokenExpiredError" "jwt expired" None.
Definition NotBeforeError : Exn := JsErr "NotBeforeError" "jwt not active" None.

(** The claim checks of [jwt.verify], each giving the error it raises. *)
Definition check_nbf (c : gmap string JsValue) (now : Date) : option Exn :=
  match c !! "nbf" with
  | None => None
  | Some (JNum nbf) => if seconds now <? nbf then Some NotBeforeError else None
  | Some _ => Some (JsonWebTokenError "invalid nbf value")
  end.

Definition check_exp (c : gmap string JsValue) (now : Date) : option Exn :=
  match c !! "exp" with
  | None => None
  | Some (JNum exp) => if exp <=? seconds now then Some TokenExpiredError else None
  | Some _ => Some (JsonWebTokenError "invalid exp value")
  end.

Definition check_claim (c : gmap string JsValue) (k : string)
    (expected : option string) (msg : string) : option Exn :=
  match expected with
  | None => None
  | Some e =>
      if bool_decide (c !! k = Some (JStr e)) then None
      else Some (JsonWebTokenError msg)
  end.

(** [jwt.verify(token, secret, options)]: algorithm, signature, [nbf],
    [exp], audience and issuer are checked in this order; the decoded
    claims are returned. *)
Definition verify (token : option Token) (secret : string)
    (o : VerifyOptions) (now : Date) : Outcome (gmap string JsValue) :=
  match token with
  | None => Throw (JsonWebTokenError "jwt must be provided")
  | Some (Malformed _) => Throw (JsonWebTokenError "jwt malformed")
  | Some (Signed j) =>
      let c := jwt_claims j in
      if negb (bool_decide (jwt_alg j ∈ algorithms o))
      then Throw (JsonWebTokenError "invalid algorithm")
      else if negb (bool_decide (jwt_key j = secret))
      then Throw (JsonWebTokenError "invalid signature")
      else match check_nbf c now with Some e => Throw e | None =>
           match check_exp c now with Some e => Throw e | None =>
           match check_claim c "aud" (v_audience o) "jwt audience invalid" with
           | Some e => Throw e | None =>
           match check_claim c "iss" (v_issuer o) "jwt issuer invalid" with
           | Some e => Throw e | None => Return c
           end end end end
  end.

End jwt.

(** ** Process environment ([process.env]) *)

Record Env := {
  ACCESS_TOKEN_SECRET : string;
  REFRESH_TOKEN_SECRET : string;
  (** The expiry variables hold a time span; [None] is an unset or empty
      variable, a set one is given in seconds. *)
  ACCESS_TOKEN_EXPIRY : option Z;
  REFRESH_TOKEN_EXPIRY : option Z;
  CLIENT_URL : option string;
  NODE_ENV : option string
}.

Definition SECONDS_PER_DAY : Z := 24 * 60 * 60.
Definition MS_PER_DAY : Z := SECONDS_PER_DAY * 1000.

(** ** utils/Token.js *)

Module TokenConfig.
Record t := { ALGORITHM : string; ISSUER : string; AUDIENCE : string }.
End TokenConfig.

Definition TOKEN_CONFIG_ACCESS_TOKEN : TokenConfig.t :=
  {| TokenConfig.ALGORITHM := "HS256";
     TokenConfig.ISSUER := "InterviewReader";
     TokenConfig.AUDIENCE := "InterviewReader-Users" |}.

Definition TOKEN_CONFIG_REFRESH_TOKEN : TokenConfig.t :=
  {| TokenConfig.ALGORITHM := "HS256";
     TokenConfig.ISSUER := "InterviewReader";
     TokenConfig.AUDIENCE := "InterviewReader-Users" |}.

(** [{ _id: userId, type: kind, ...additionalPayload }]: the properties of
    the spread object are copied last and win over [_id] and [type]. *)
Definition token_payload (userId : JsValue) (kind : string)
    (additionalPayload : gmap string JsValue) : gmap string JsValue :=
  additionalPayload ∪ <["type" := JStr kind]> (<["_id" := userId]> ∅).

Definition generateAccessToken (env : Env) (userId : JsValue)
    (additionalPayload : gmap string JsValue) (now : Date) : Outcome Token :=
  if negb (truthy userId)
  then Throw (Error "User ID is required for token generation")
  else
    let payload := token_payload userId "access" additionalPayload in
    let options :=
      {| jwt.expiresIn := default (1 * SECONDS_PER_DAY) (ACCESS_TOKEN_EXPIRY env);
         jwt.algorithm := TokenConfig.ALGORITHM TOKEN_CONFIG_ACCESS_TOKEN;
         jwt.issuer := TokenConfig.ISSUER TOKEN_CONFIG_ACCESS_TOKEN;
         jwt.audience := TokenConfig.AUDIENCE TOKEN_CONFIG_ACCESS_TOKEN |} in
    jwt.sign payload (ACCESS_TOKEN_SECRET env) options now.

Definition generateRefreshToken (env : Env) (userId : JsValue)
    (additionalPayload : gmap string JsValue) (now : Date) : Outcome Token :=
  if negb (truthy userId)
  then Throw (Error "User ID is required for token generation")
  else
    let payload := token_payload userId "refresh" additionalPayload in
    let options :=
      {| jwt.expiresIn := default (10 * SECONDS_PER_DAY) (REFRESH_TOKEN_EXPIRY env);
         jwt.algorithm := TokenConfig.ALGORITHM TOKEN_CONFIG_REFRESH_TOKEN;
         jwt.issuer := TokenConfig.ISSUER TOKEN_CONFIG_REFRESH_TOKEN;
         jwt.audience := TokenConfig.AUDIENCE TOKEN_CONFIG_REFRESH_TOKEN |} in
    jwt.sign payload (REFRESH_TOKEN_SECRET env) options now.

Record TokenPair := { tp_accessToken : Token; tp_refreshToken : Token }.

Definition generateTokens (env : Env) (userId : JsValue)
    (additionalPayload : gmap string JsValue) (now : Date) : Outcome TokenPair :=
  match generateAccessToken env userId additionalPayload now with
  | Throw _ => Throw (Error "Failed to generate authentication tokens")
  | Return accessToken =>
      match generateRefreshToken env userId additionalPayload now with
      | Throw _ => Throw (Error "Failed to generate authentication tokens")
      | Return refreshToken =>
          Return {| tp_accessToken := accessToken; tp_refreshToken := refreshToken |}
      end
  end.

Definition verifyAccessToken (env : Env) (token : option Token) (now : Date)
    : Outcome (gmap string JsValue) :=
  let options :=
    {| jwt.algorithms := [TokenConfig.ALGORITHM TOKEN_CONFIG_ACCESS_TOKEN];
       jwt.v_issuer := Some (TokenConfig.ISSUER TOKEN_CONFIG_ACCESS_TOKEN);
       jwt.v_audience := Some (TokenConfig.AUDIENCE TOKEN_CONFIG_ACCESS_TOKEN) |} in
  let attempt :=
    match jwt.verify token (ACCESS_TOKEN_SECRET env) options now with
    | Throw e => Throw e
    | Return decoded =>
        if negb (bool_decide (decoded !! "type" = Some (JStr "access")))
        then Throw (Error "Invalid token type")
        else Return decoded
    end in
  match attempt with
  | Return decoded => Return decoded
  | Throw error =>
      Throw (if String.eqb (exn_name error) "TokenExpiredError"
             then Error "Access token has expired"
             else if String.eqb (exn_name error) "JsonWebTokenError"
             then Error "Invalid access token"
             else Error ("Token verification failed: " +:+ exn_message error))
  end.

Definition verifyRefreshToken (env : Env) (token : option Token) (now : Date)
    : Outcome (gmap string JsValue) :=
  let options :=
    {| jwt.algorithms := [TokenConfig.ALGORITHM TOKEN_CONFIG_REFRESH_TOKEN];
       jwt.v_issuer := Some (TokenConfig.ISSUER TOKEN_CONFIG_REFRESH_TOKEN);
       jwt.v_audience := Some (TokenConfig.AUDIENCE TOKEN_CONFIG_REFRESH_TOKEN) |} in
  let attempt :=
    match jwt.verify token (REFRESH_TOKEN_SECRET env) options now with
    | Throw e => Throw e
    | Return decoded =>
        if negb (bool_decide (decoded !! "type" = Some (JStr "refresh")))
        then Throw (Error "Invalid token type")
        else Return decoded
    end in
  match attempt with
  | Return decoded => Return decoded
  | Throw error =>
      Throw (if String.eqb (exn_name error) "TokenExpiredError"
             then Error "Refresh token has expired"
             else if String.eqb (exn_name error) "JsonWebTokenError"
             then Error "Invalid refresh token"
             else Error ("Token verification failed: " +:+ exn_message error))
  end.

(** The [Authorization] header: text that starts with ['Bearer '] followed
    by a token, or any other text. *)
Inductive AuthHeader :=
  | Bearer (t : Token)
  | OtherHeader (s : string).

(** [null] unless the header is present and starts with ['Bearer ']; then
    [authHeader.substring(7)]. *)
Definition extractTokenFromHeader (authHeader : option AuthHeader) : option Token :=
  match authHeader with
  | Some (Bearer t) => Some t
  | _ => None
  end.

(** ** utils/Token.js: the helpers that read a token without verifying it *)

(** [jwt.decode(token)]: the payload, no signature or claim is checked;
    [null] for text that is not a JWT. *)
Definition jwt_decode (token : option Token) : option (gmap string JsValue) :=
  match token with
  | Some (Signed j) => Some (jwt_claims j)
  | _ => None
  end.

(** [decoded?.exp || null] *)
Definition getTokenExpiry (token : option Token) : JsValue :=
  match jwt_decode token with
  | Some decoded =>
      let exp := default JUndefined (decoded !! "exp") in
      if truthy exp then exp else JNull
  | None => JNull
  end.

Section TokenClock.
(** The conversion of a value to a number that [expiry * 1000] applies;
    [None] is [NaN].  It is the language's and enters as it is; the
    statements below need it on numbers only. *)
Variable ToNumber : JsValue -> option Z.

(** [Date.now() >= expiry * 1000]: a comparison with [NaN] is false. *)
Definition isTokenExpired (token : option Token) (now : Date) : bool :=
  let expiry := getTokenExpiry token in
  if negb (truthy expiry) then true
  else match ToNumber expiry with
       | Some e => e * 1000 <=? now
       | None => false
       end.

(** [Math.max(0, expiry * 1000 - Date.now())]; [None] is [NaN]. *)
Definition getTimeUntilExpiry (token : option Token) (now : Date) : option Z :=
  let expiry := getTokenExpiry token in
  if negb (truthy expiry) then Some 0
  else match ToNumber expiry with
       | Some e => Some (Z.max 0 (e * 1000 - now))
       | None => None
       end.
End TokenClock.

(** [extractTokenFromHeader] on the text of the header: [null] unless the
    header is there and starts with ['Bearer '], then what follows the
    seventh character. *)
Module HeaderText.
Definition extractTokenFromHeader (authHeader : option string) : option string :=
  match authHeader with
  | Some h =>
      if String.eqb h "" || negb (String.prefix "Bearer " h) then None
      else Some (String.substring 7 (String.length h - 7) h)
  | None => None
  end.
End HeaderText.

(** ** The document store

    Documents carry the fields the authentication code reads or writes.
    String fields hold values as stored, that is after the schema's
    [lowercase] and [trim] setters.  The store changes where the code
    writes to it; the TTL index on [expiresAt], by which the server may
    drop an expired session on its own, is not part of the model. *)

Inductive Provider := google | github | linkedin.

Global Instance Provider_eq_dec : EqDecision Provider.
Proof. solve_decision. Defined.

Definition provider_name (p : Provider) : string :=
  match p with
  | google => "google"
  | github => "github"
  | linkedin => "linkedin"
  end.

Module User.
Record t := mk {
  _id : ObjectId;
  email : string;
  name : string;
  avatar : string;
  googleId : option string;
  githubId : option string;
  linkedinId : option string;
  isActive : bool;
  lastLoginAt : Date;
  loginCount : Z
}.

Global Instance eq_dec : EqDecision t.
Proof. solve_decision. Defined.

(** [user[`${provider}Id`]] *)
Definition providerId (p : Provider) (u : t) : option string :=
  match p with
  | google => googleId u
  | github => githubId u
  | linkedin => linkedinId u
  end.

(** [user[`${provider}Id`] = id] *)
Definition set_providerId (p : Provider) (id : string) (u : t) : t :=
  match p with
  | google =>
      mk (_id u) (email u) (name u) (avatar u) (Some id) (githubId u)
         (linkedinId u) (isActive u) (lastLoginAt u) (loginCount u)
  | github =>
      mk (_id u) (email u) (name u) (avatar u) (googleId u) (Some id)
         (linkedinId u) (isActive u) (lastLoginAt u) (loginCount u)
  | linkedin =>
      mk (_id u) (email u) (name u) (avatar u) (googleId u) (githubId u)
         (Some id) (isActive u) (lastLoginAt u) (loginCount u)
  end.

Definition set_loginCount (n : Z) (u : t) : t :=
  mk (_id u) (email u) (name u) (avatar u) (googleId u) (githubId u)
     (linkedinId u) (isActive u) (lastLoginAt u) n.

Definition set_lastLoginAt (d : Date) (u : t) : t :=
  mk (_id u) (email u) (name u) (avatar u) (googleId u) (githubId u)
     (linkedinId u) (isActive u) d (loginCount u).
End User.

Module Session.
Record DeviceInfo := { userAgent : string; ip : string }.

Global Instance DeviceInfo_eq_dec : EqDecision DeviceInfo.
Proof. solve_decision. Defined.

Record t := mk {
  _id : ObjectId;
  userId : ObjectId;
  refreshToken : Token;
  accessToken : Token;
  provider : Provider;
  deviceInfo : DeviceInfo;
  isActive : bool;
  lastUsed : Date;
  expiresAt : Date
}.

Global Instance eq_dec : EqDecision t.
Proof. solve_decision. Defined.

Definition set_isActive (b : bool) (s : t) : t :=
  mk (_id s) (userId s) (refreshToken s) (accessToken s) (provider s)
     (deviceInfo s) b (lastUsed s) (expiresAt s).

Definition set_lastUsed (d : Date) (s : t) : t :=
  mk (_id s) (userId s) (refreshToken s) (accessToken s) (provider s)
     (deviceInfo s) (isActive s) d (expiresAt s).
End Session.

Record Db := mkDb {
  users : list User.t;
  sessions : list Session.t;
  nextId : ObjectId
}.

Definition set_users (us : list User.t) (db : Db) : Db :=
  mkDb us (sessions db) (nextId db).
Definition set_sessions (ss : list Session.t) (db : Db) : Db :=
  mkDb (users db) ss (nextId db).

(** ** Computations over the store that may throw *)

Definition M (A : Type) : Type := Db -> Outcome A * Db.

Definition ret {A} (a : A) : M A := fun db => (Return a, db).
Definition throw {A} (e : Exn) : M A := fun db => (Throw e, db).
Definition lift {A} (o : Outcome A) : M A := fun db => (o, db).
Definition bind {A B} (m : M A) (k : A -> M B) : M B :=
  fun db =>
    match m db with
    | (Return a, db') => k a db'
    | (Throw e, db') => (Throw e, db')
    end.
(** [try { m } catch (error) { h error }]: writes made before the throw stay. *)
Definition try_catch {A} (m : M A) (h : Exn -> M A) : M A :=
  fun db =>
    match m db with
    | (Return a, db') => (Return a, db')
    | (Throw e, db') => h e db'
    end.
Definition gets {A} (f : Db -> A) : M A := fun db => (Return (f db), db).
Definition modify (f : Db -> Db) : M unit := fun db => (Return tt, f db).

Notation "x <- m ;; k" := (bind m (fun x => k))
  (at level 100, m at next level, right associativity).
Notation "m ;;; k" := (bind m (fun _ => k))
  (at level 100, right associativity).

(** ** Collections

    The query operations of a Mongoose model over a collection kept in
    natural order.  A filter is a decidable predicate on documents. *)

Module Collection.
Section Ops.
Context {D : Type} (P : D -> Prop) `{!forall d, Decision (P d)}.

Definition find (c : list D) : list D := filter P c.

Definition findOne (c : list D) : option D := head (filter P c).

Definition countDocuments (c : list D) : Z := Z.of_nat (length (filter P c)).

(** Rest of the collection and [deletedCount]. *)
Definition deleteMany (c : list D) : list D * Z :=
  (filter (fun d => ~ P d) c, Z.of_nat (length (filter P c))).

(** Deletes the first match only. *)
Fixpoint deleteOne (c : list D) : list D * Z :=
  match c with
  | [] => ([], 0)
  | d :: c' =>
      if decide (P d) then (c', 1)
      else let '(r, n) := deleteOne c' in (d :: r, n)
  end.

(** Updated collection and [modifiedCount].  Both session updates of
    the code write a new [updatedAt] stamp (the schema has
    [timestamps]), so every matched document counts as modified. *)
Definition updateMany (f : D -> D) (c : list D) : list D * Z :=
  (map (fun d => if decide (P d) then f d else d) c,
   Z.of_nat (length (filter P c))).

(** [findOneAndUpdate(filter, update, { new: true })]: the first match is
    updated and returned as updated. *)
Fixpoint findOneAndUpdate (f : D -> D) (c : list D) : option D * list D :=
  match c with
  | [] => (None, [])
  | d :: c' =>
      if decide (P d) then (Some (f d), f d :: c')
      else let '(r, c'') := findOneAndUpdate f c' in (r, d :: c'')
  end.
End Ops.

(** [doc.save()] of a document read from the collection: the stored
    document with the same [_id] is replaced. *)
Definition save {D : Type} (id : D -> ObjectId) (doc : D) (c : list D) : list D :=
  map (fun d => if decide (id d = id doc) then doc else d) c.
End Collection.

(** [Array.prototype.slice(start)] *)
Definition slice {A} (start : Z) (l : list A) : list A :=
  if start <? 0
  then drop (Z.to_nat (Z.max (Z.of_nat (length l) + start) 0)) l
  else drop (Z.to_nat start) l.

(** A value used where Mongoose expects an ObjectId: an ObjectId is taken
    as it is, [undefined] and [null] match no document, anything else is a
    cast failure.  [JOid] stands for an ObjectId and for its 24-digit
    hexadecimal string alike (the form a user id has inside a token);
    [JStr] is any other string. *)
Definition castObjectId (v : JsValue) : Outcome (option ObjectId) :=
  match v with
  | JOid o => Return (Some o)
  | JUndefined | JNull => Return None
  | _ => Throw (JsErr "CastError" "Cast to ObjectId failed" None)
  end.

Definition ValidationError (msg : string) : Exn := JsErr "ValidationError" msg None.
Definition DuplicateKeyError : Exn :=
  JsErr "MongoServerError" "E11000 duplicate key error" (Some 11000).

(** ** models/User.model.js *)

Module UserModel.

(** The schema's [match] pattern for [email] is a regular expression; it
    enters as the predicate it decides. *)
Record Schema := { emailPattern : string -> bool }.

Definition line_terminator (a : Ascii.ascii) : bool :=
  bool_decide (a = Ascii.ascii_of_nat 10) || bool_decide (a = Ascii.ascii_of_nat 13).

(** [/^https?:\/\/.+/.test(v)] *)
Definition url_like (v : string) : bool :=
  let after (p : string) :=
    String.prefix p v &&
    match String.get (String.length p) v with
    | Some a => negb (line_terminator a)
    | None => false
    end in
  after "http://" || after "https://".

(** [!v || /^https?:\/\/.+/.test(v)] *)
Definition avatar_validator (v : string) : bool :=
  String.eqb v "" || url_like v.

(** Schema validation of the modelled paths, in schema order. *)
Definition validate (sch : Schema) (u : User.t) : option Exn :=
  if String.eqb (User.email u) "" then Some (ValidationError "Email is required")
  else if negb (emailPattern sch (User.email u))
  then Some (ValidationError "Please enter a valid email address")
  else if String.eqb (User.name u) "" then Some (ValidationError "Name is required")
  else if (String.length (User.name u) <? 2)%nat
  then Some (ValidationError "Name must be at least 2 characters long")
  else if (50 <? String.length (User.name u))%nat
  then Some (ValidationError "Name cannot exceed 50 characters")
  else if negb (avatar_validator (User.avatar u))
  then Some (ValidationError "Avatar must be a valid URL")
  else if User.loginCount u <? 0
  then Some (ValidationError "Login count cannot be negative")
  else None.

Definition findOne (P : User.t -> Prop) `{!forall u, Decision (P u)} : M (option User.t) :=
  gets (fun db => Collection.findOne P (users db)).

Definition findById (id : JsValue) : M (option User.t) :=
  o <- lift (castObjectId id) ;;
  match o with
  | None => ret None
  | Some i => findOne (fun u => User._id u = i)
  end.

(** The setters of the schema: [email] has [lowercase: true, trim: true],
    [name] has [trim: true].  Mongoose runs them on every value assigned to
    the path of a document, and on the value given for the path in a query
    filter. *)
Definition set_email (v : string) : string := trim (toLowerCase v).
Definition set_name (v : string) : string := trim v.

(** [userSchema.pre('save')], the hook that normalises [email]; it acts
    when the path is modified, as it is on a new document. *)
Definition pre_save_email (this : User.t) : User.t :=
  User.mk (User._id this) (trim (toLowerCase (User.email this))) (User.name this)
    (User.avatar this) (User.googleId this) (User.githubId this) (User.linkedinId this)
    (User.isActive this) (User.lastLoginAt this) (User.loginCount this).

(** [User.create(userData)]: the document is built with the schema's
    setters and defaults, validated, passed through the pre-save hook and
    inserted, where the unique index on [email] may refuse it. *)
Definition create (sch : Schema) (provider : Provider) (id email name avatar : string)
    (now : Date) : M User.t :=
  fun db =>
    let blank :=
      User.mk (nextId db) (set_email email) (set_name name) avatar None None None
        true now 0 in
    let doc := User.set_providerId provider id blank in
    match validate sch doc with
    | Some e => (Throw e, db)
    | None =>
        let doc := pre_save_email doc in
        if bool_decide (Exists (fun u => User.email u = User.email doc) (users db))
        then (Throw DuplicateKeyError, db)
        else (Return doc, mkDb (users db ++ [doc]) (sessions db) (S (nextId db)))
    end.

(** [user.save()].  The whole document is validated; Mongoose validates
    the modified and the required paths, which decides the same for a
    document whose stored state is valid. *)
Definition save (sch : Schema) (u : User.t) : M User.t :=
  match validate sch u with
  | Some e => throw e
  | None =>
      modify (fun db => set_users (Collection.save User._id u (users db)) db) ;;;
      ret u
  end.

(** [userSchema.methods.updateLoginInfo] *)
Definition updateLoginInfo (sch : Schema) (this : User.t) (now : Date) : M User.t :=
  let this := User.set_lastLoginAt now this in
  let this := User.set_loginCount (User.loginCount this + 1) this in
  save sch this.

(** [userSchema.methods.decrementLoginCount] *)
Definition decrementLoginCount (sch : Schema) (this : User.t) : M User.t :=
  let this :=
    if 0 <? User.loginCount this
    then User.set_loginCount (User.loginCount this - 1) this
    else this in
  save sch this.

(** [userSchema.methods.hasProvider] *)
Definition hasProvider (this : User.t) (provider : Provider) : bool :=
  match User.providerId provider this with
  | Some s => negb (String.eqb s "")
  | None => false
  end.

End UserModel.

(** ** models/Session.model.js *)

Module SessionModel.

Definition find (P : Session.t -> Prop) `{!forall s, Decision (P s)} : M (list Session.t) :=
  gets (fun db => Collection.find P (sessions db)).

Definition findOne (P : Session.t -> Prop) `{!forall s, Decision (P s)} : M (option Session.t) :=
  gets (fun db => Collection.findOne P (sessions db)).

Definition deleteMany (P : Session.t -> Prop) `{!forall s, Decision (P s)} : M Z :=
  fun db =>
    let '(rest, deletedCount) := Collection.deleteMany P (sessions db) in
    (Return deletedCount, set_sessions rest db).

Definition deleteOne (P : Session.t -> Prop) `{!forall s, Decision (P s)} : M Z :=
  fun db =>
    let '(rest, deletedCount) := Collection.deleteOne P (sessions db) in
    (Return deletedCount, set_sessions rest db).

Definition updateMany (P : Session.t -> Prop) `{!forall s, Decision (P s)}
    (f : Session.t -> Session.t) : M Z :=
  fun db =>
    let '(updated, modifiedCount) := Collection.updateMany P f (sessions db) in
    (Return modifiedCount, set_sessions updated db).

(** [session.save()] *)
Definition save (s : Session.t) : M unit :=
  modify (fun db => set_sessions (Collection.save Session._id s (sessions db)) db).

(** [Session.create(sessionData)]: the unique index on [refreshToken]
    rejects a second document with the same value. *)
Definition create (userId : ObjectId) (refreshToken accessToken : Token)
    (provider : Provider) (deviceInfo : Session.DeviceInfo)
    (expiresAt : Date) (isActive : bool) (lastUsed : Date) : M Session.t :=
  fun db =>
    if bool_decide (Exists (fun s => Session.refreshToken s = refreshToken) (sessions db))
    then (Throw DuplicateKeyError, db)
    else
      let doc := Session.mk (nextId db) userId refreshToken accessToken provider
                   deviceInfo isActive lastUsed expiresAt in
      (Return doc, mkDb (users db) (sessions db ++ [doc]) (S (nextId db))).

(** The filter of [cleanExpiredSessions]:
    [{ $or: [ { expiresAt: { $lt: now } }, { isActive: false } ] }] *)
Definition expired_or_inactive (now : Date) (s : Session.t) : Prop :=
  Session.expiresAt s < now \/ Session.isActive s = false.

Global Instance expired_or_inactive_dec now s : Decision (expired_or_inactive now s).
Proof. unfold expired_or_inactive. apply _. Defined.

(** [sessionSchema.statics.cleanExpiredSessions]; the result is
    [result.deletedCount]. *)
Definition cleanExpiredSessions (now : Date) : M Z :=
  deleteMany (expired_or_inactive now).

(** More recently used first: the order of [.sort({ lastUsed: -1 })]. *)
Definition by_lastUsed_desc (a b : Session.t) : Prop :=
  Session.lastUsed b <= Session.lastUsed a.

Global Instance by_lastUsed_desc_dec a b : Decision (by_lastUsed_desc a b).
Proof. unfold by_lastUsed_desc. apply _. Defined.

Definition active_unexpired (userId : ObjectId) (now : Date) (s : Session.t) : Prop :=
  Session.userId s = userId /\ Session.isActive s = true /\ now < Session.expiresAt s.

Global Instance active_unexpired_dec userId now s : Decision (active_unexpired userId now s).
Proof. unfold active_unexpired. apply _. Defined.

(** [sessionSchema.statics.getActiveSessions] *)
Definition getActiveSessions (userId : ObjectId) (now : Date) : M (list Session.t) :=
  found <- find (active_unexpired userId now) ;;
  ret (merge_sort by_lastUsed_desc found).

(** [sessionSchema.statics.deactivateOldSessions] *)
Definition deactivateOldSessions (userId : ObjectId) (maxSessions : Z) (now : Date) : M unit :=
  sessions <- getActiveSessions userId now ;;
  if maxSessions <=? Z.of_nat (length sessions)
  then
    let sessionsToDeactivate := slice (maxSessions - 1) sessions in
    let ids := map Session._id sessionsToDeactivate in
    updateMany (fun s => Session._id s ∈ ids) (Session.set_isActive false) ;;;
    ret tt
  else ret tt.

(** The result of [getSessionStats]. *)
Record Stats := {
  totalSessions : Z;
  activeSessions : Z;
  expiredSessions : Z;
  inactiveSessions : Z
}.

(** [sessionSchema.statics.getSessionStats]: one [$group] over the whole
    collection; on an empty collection the pipeline yields nothing and the
    zeros after [||] are returned. *)
Definition getSessionStats (now : Date) : M Stats :=
  gets (fun db =>
    match sessions db with
    | [] =>
        {| totalSessions := 0; activeSessions := 0;
           expiredSessions := 0; inactiveSessions := 0 |}
    | ss =>
        {| totalSessions := Z.of_nat (length ss);
           activeSessions :=
             Z.of_nat (length (filter (fun s => Session.isActive s = true
                                                /\ now < Session.expiresAt s) ss));
           expiredSessions :=
             Z.of_nat (length (filter (fun s => Session.expiresAt s < now) ss));
           inactiveSessions :=
             Z.of_nat (length (filter (fun s => Session.isActive s = false) ss)) |}
    end).

End SessionModel.

(** ** Requests and responses *)

(** A JSON body: an object whose properties are plain values or objects of
    plain values. *)
Inductive Json :=
  | JVal (v : JsValue)
  | JObject (fields : list (string * JsValue)).

Definition Body := list (string * Json).

(** [body[k]] *)
Fixpoint property (k : string) (b : Body) : option Json :=
  match b with
  | [] => None
  | (k', v) :: b' => if String.eqb k k' then Some v else property k b'
  end.

Record Request := {
  cookies_accessToken : option Token;
  cookies_refreshToken : option Token;
  headers_authorization : option AuthHeader;
  headers_user_agent : option string;
  req_ip : option string;
  connection_remoteAddress : option string
}.

Inductive CookieOp :=
  | SetCookie (name : string) (value : Token) (maxAge : Z)
  | ClearCookie (name : string).

Inductive Reply :=
  | Redirect (url : string)
  | SendJson (status : Z) (body : Body).

(** What a handler has done to the Express response object. *)
Record Res := {
  res_cookies : list CookieOp;
  res_reply : Reply
}.

(** ** Shared/LoginOrCreateUser.js *)

Module LoginOrCreateUser.

Record SessionConfig := {
  MAX_SESSIONS_PER_USER : Z;
  ACCESS_TOKEN_EXPIRY_DAYS : Z;
  REFRESH_TOKEN_EXPIRY_DAYS : Z;
  CLEANUP_EXPIRED_ON_LOGIN : bool
}.

Definition SESSION_CONFIG : SessionConfig :=
  {| MAX_SESSIONS_PER_USER := 3;
     ACCESS_TOKEN_EXPIRY_DAYS := 1;
     REFRESH_TOKEN_EXPIRY_DAYS := 10;
     CLEANUP_EXPIRED_ON_LOGIN := true |}.

Definition client_url (env : Env) : string :=
  match CLIENT_URL env with
  | Some u => if String.eqb u "" then "http://localhost:3000" else u
  | None => "http://localhost:3000"
  end.

(** The filter is cast by the schema: [email] goes through its setters,
    the provider id is plain text. *)
Definition findExistingUser (provider : Provider) (id email : string) : M (option User.t) :=
  UserModel.findOne
    (fun u => User.providerId provider u = Some id
              \/ User.email u = UserModel.set_email email).

Definition createNewUser (sch : UserModel.Schema) (provider : Provider)
    (id email name avatar : string) (now : Date) : M User.t :=
  UserModel.create sch provider id email name avatar now.

Definition updateUserProviderData (sch : UserModel.Schema) (user : User.t)
    (provider : Provider) (id : string) : M User.t :=
  if negb (UserModel.hasProvider user provider)
  then UserModel.save sch (User.set_providerId provider id user)
  else ret user.

Definition performSessionCleanup (cfg : SessionConfig) (userId : ObjectId) (now : Date) : M unit :=
  (if CLEANUP_EXPIRED_ON_LOGIN cfg
   then SessionModel.cleanExpiredSessions now ;;; ret tt
   else ret tt) ;;;
  SessionModel.deactivateOldSessions userId (MAX_SESSIONS_PER_USER cfg) now.

(** [setDate(getDate() + days)], in a time zone without clock changes. *)
Definition calculateExpiryDate (days : Z) (now : Date) : Date :=
  now + days * MS_PER_DAY.

Definition createUserSession (cfg : SessionConfig) (userId : ObjectId)
    (accessToken refreshToken : Token) (provider : Provider)
    (deviceInfo : Session.DeviceInfo) (now : Date) : M Session.t :=
  SessionModel.create userId refreshToken accessToken provider deviceInfo
    (calculateExpiryDate (REFRESH_TOKEN_EXPIRY_DAYS cfg) now) true now.

Definition or_unknown (o : option string) (alt : string) : string :=
  match o with
  | Some s => if String.eqb s "" then alt else s
  | None => alt
  end.

Definition extractDeviceInfo (req : Request) : Session.DeviceInfo :=
  {| Session.userAgent := or_unknown (headers_user_agent req) "Unknown";
     Session.ip := or_unknown (req_ip req)
                     (or_unknown (connection_remoteAddress req) "Unknown") |}.

Definition setSecureCookies (cfg : SessionConfig) (accessToken refreshToken : Token)
    : list CookieOp :=
  [ SetCookie "accessToken" accessToken
      (ACCESS_TOKEN_EXPIRY_DAYS cfg * 24 * 60 * 60 * 1000);
    SetCookie "refreshToken" refreshToken
      (REFRESH_TOKEN_EXPIRY_DAYS cfg * 24 * 60 * 60 * 1000) ].

Definition handleSuccessRedirect (env : Env) (provider : Provider) : Reply :=
  Redirect (client_url env +:+ "/dashboard?login=success&provider=" +:+ provider_name provider).

Definition handleErrorRedirect (env : Env) (errorType : string) (provider : Provider) : Reply :=
  Redirect (client_url env +:+ "?error=" +:+ errorType +:+ "&provider=" +:+ provider_name provider).

Record Params := {
  provider : Provider;
  id : string;
  email : string;
  name : string;
  avatar : string;
  req : Request
}.

Definition loginOrCreateUser (env : Env) (sch : UserModel.Schema) (cfg : SessionConfig)
    (p : Params) (now : Date) : M Res :=
  try_catch
    (if String.eqb (id p) "" || String.eqb (email p) ""
     then ret {| res_cookies := [];
                 res_reply := handleErrorRedirect env "invalid_input" (provider p) |}
     else
       found <- findExistingUser (provider p) (id p) (email p) ;;
       user <- match found with
               | None => createNewUser sch (provider p) (id p) (email p) (name p) (avatar p) now
               | Some user => updateUserProviderData sch user (provider p) (id p)
               end ;;
       user <- UserModel.updateLoginInfo sch user now ;;
       performSessionCleanup cfg (User._id user) now ;;;
       tokens <- lift (generateTokens env (JOid (User._id user)) ∅ now) ;;
       let deviceInfo := extractDeviceInfo (req p) in
       createUserSession cfg (User._id user) (tp_accessToken tokens)
         (tp_refreshToken tokens) (provider p) deviceInfo now ;;;
       ret {| res_cookies := setSecureCookies cfg (tp_accessToken tokens) (tp_refreshToken tokens);
              res_reply := handleSuccessRedirect env (provider p) |})
    (fun error =>
       if bool_decide (exn_code error = Some 11000)
       then ret {| res_cookies := [];
                   res_reply := handleErrorRedirect env "email_exists" (provider p) |}
       else if String.eqb (exn_name error) "ValidationError"
       then ret {| res_cookies := [];
                   res_reply := handleErrorRedirect env "validation_failed" (provider p) |}
       else ret {| res_cookies := [];
                   res_reply := handleErrorRedirect env "login_failed" (provider p) |}).

End LoginOrCreateUser.

(** ** Shared/LogoutUser.js *)

Module LogoutUser.

Definition clearAuthCookies : list CookieOp :=
  [ClearCookie "accessToken"; ClearCookie "refreshToken"].

(** [decoded._id] of a token that verifies under the access secret,
    [null] otherwise. *)
Definition getUserIdFromToken (env : Env) (accessToken : option Token) (now : Date) : JsValue :=
  match jwt.verify accessToken (ACCESS_TOKEN_SECRET env) jwt.noOptions now with
  | Return decoded => default JUndefined (decoded !! "_id")
  | Throw _ => JNull
  end.

Definition deleteSessionAndUpdateCount (sch : UserModel.Schema)
    (refreshToken : Token) (userId : JsValue) : M Z :=
  try_catch
    (deletedCount <- SessionModel.deleteOne
       (fun s => Session.refreshToken s = refreshToken /\ Session.isActive s = true) ;;
     (if (0 <? deletedCount) && truthy userId
      then
        user <- UserModel.findById userId ;;
        match user with
        | Some user => UserModel.decrementLoginCount sch user ;;; ret tt
        | None => ret tt
        end
      else ret tt) ;;;
     ret deletedCount)
    (fun error => ret 0).

Definition cleanupExpiredSessions (userId : JsValue) (now : Date) : M Z :=
  try_catch
    (o <- lift (castObjectId userId) ;;
     SessionModel.deleteMany
       (fun s => Some (Session.userId s) = o /\ SessionModel.expired_or_inactive now s))
    (fun error => ret 0).

Definition logout (env : Env) (sch : UserModel.Schema) (req : Request) (now : Date) : M Res :=
  try_catch
    (let refreshToken := cookies_refreshToken req in
     let accessToken := cookies_accessToken req in
     let userId := getUserIdFromToken env accessToken now in
     deletedSessions <-
       match refreshToken with
       | Some rt =>
           if token_truthy rt
           then deleteSessionAndUpdateCount sch rt userId
           else ret 0
       | None => ret 0
       end ;;
     (if truthy userId
      then cleanupExpiredSessions userId now ;;; ret tt
      else ret tt) ;;;
     ret {| res_cookies := clearAuthCookies;
            res_reply :=
              SendJson 200
                [("message", JVal (JStr "Logged out successfully"));
                 ("sessionsDeleted", JVal (JNum deletedSessions));
                 ("cleanupPerformed", JVal (JBool (truthy userId)))] |})
    (fun error =>
       ret {| res_cookies := clearAuthCookies ++ clearAuthCookies;
              res_reply :=
                SendJson 200
                  [("message", JVal (JStr "Logged out (with cleanup errors)"));
                   ("error", JVal (JStr "Some sessions could not be deleted, but cookies cleared"))] |}).

(** The inner [try] of [logoutAllDevices] assigns [deletedCount] before it
    looks the user up, so a later throw keeps the assigned value: the
    block is split at that assignment. *)
Definition logoutAllDevices (env : Env) (sch : UserModel.Schema) (req : Request) (now : Date) : M Res :=
  try_catch
    (let refreshToken := cookies_refreshToken req in
     let accessToken := cookies_accessToken req in
     fromSession <-
       match refreshToken with
       | Some rt =>
           if token_truthy rt
           then
             try_catch
               (session <- SessionModel.findOne (fun s => Session.refreshToken s = rt) ;;
                ret (from_option (fun s => JOid (Session.userId s)) JUndefined session))
               (fun error => ret JNull)
           else ret JNull
       | None => ret JNull
       end ;;
     let userId :=
       if negb (truthy fromSession) && from_option token_truthy false accessToken
       then getUserIdFromToken env accessToken now
       else fromSession in
     deletedCount <-
       (if truthy userId
        then
          deleted <- try_catch
            (o <- lift (castObjectId userId) ;;
             n <- SessionModel.deleteMany (fun s => Some (Session.userId s) = o) ;;
             ret (Some n))
            (fun error => ret None) ;;
          match deleted with
          | None => ret 0
          | Some n =>
              try_catch
                (if 0 <? n
                 then
                   user <- UserModel.findById userId ;;
                   match user with
                   | Some user =>
                       UserModel.save sch (User.set_loginCount 0 user) ;;; ret tt
                   | None => ret tt
                   end
                 else ret tt)
                (fun error => ret tt) ;;;
              ret n
          end
        else ret 0) ;;
     ret {| res_cookies := clearAuthCookies;
            res_reply :=
              SendJson 200
                [("message", JVal (JStr "Logged out from all devices"));
                 ("sessionsDeleted", JVal (JNum deletedCount))] |})
    (fun error =>
       ret {| res_cookies := clearAuthCookies;
              res_reply :=
                SendJson 500
                  [("message", JVal (JStr "Error during logout, but cookies cleared"));
                   ("error", JVal (JStr (exn_message error)))] |}).

End LogoutUser.

(** ** services/sessionService.js *)

Module SessionService.

Record Invalidated := {
  invalidatedSessions : Z;
  currentSessionPreserved : bool
}.

Definition invalidateAllOtherSessions (sch : UserModel.Schema) (userId : ObjectId)
    (currentAccessToken : Token) : M Invalidated :=
  modifiedCount <- SessionModel.updateMany
    (fun s => Session.userId s = userId /\ Session.isActive s = true /\
              Session.accessToken s <> currentAccessToken)
    (Session.set_isActive false) ;;
  (if 0 <? modifiedCount
   then
     user <- UserModel.findById (JOid userId) ;;
     match user with
     | Some user => UserModel.save sch (User.set_loginCount 1 user) ;;; ret tt
     | None => ret tt
     end
   else ret tt) ;;;
  ret {| invalidatedSessions := modifiedCount; currentSessionPreserved := true |}.

Record InvalidatedOne := {
  sessionId : JsValue;
  invalidatedAt : JsValue
}.

(** [invalidateSession(userId, sessionId)].  The update document names
    [loggedOutAt], which is not a path of the session schema: the strict
    schema drops it from the update, and it is [undefined] on the document
    that comes back. *)
Definition invalidateSession (userId sessionId : JsValue) : M InvalidatedOne :=
  sid <- lift (castObjectId sessionId) ;;
  uid <- lift (castObjectId userId) ;;
  session <- (fun db =>
    let '(found, updated) :=
      Collection.findOneAndUpdate
        (fun s => Some (Session._id s) = sid /\ Some (Session.userId s) = uid)
        (Session.set_isActive false) (sessions db) in
    (Return found, set_sessions updated db)) ;;
  match session with
  | None => throw (ApiErr 404 "Session not found" [])
  | Some session => ret {| sessionId := sessionId; invalidatedAt := JUndefined |}
  end.

End SessionService.

(** ** middlewares/auth.middlewares.js *)

Module AuthMiddleware.

Record AuthConfig := {
  SESSION_VALIDATION : bool;
  UPDATE_LAST_USED : bool
}.

Definition AUTH_CONFIG : AuthConfig :=
  {| SESSION_VALIDATION := true; UPDATE_LAST_USED := true |}.

Definition extractAccessToken (req : Request) : option Token :=
  let token := cookies_accessToken req in
  let token :=
    if negb (from_option token_truthy false token)
    then match headers_authorization req with
         | Some (OtherHeader "") | None => token
         | Some h => extractTokenFromHeader (Some h)
         end
    else token in
  match token with
  | Some t => if token_truthy t then Some t else None
  | None => None
  end.

Definition validateUserSession (userId : ObjectId) (accessToken : Token) (now : Date) : M bool :=
  if negb (SESSION_VALIDATION AUTH_CONFIG) then ret true
  else
    try_catch
      (session <- SessionModel.findOne
         (fun s => Session.userId s = userId /\ Session.accessToken s = accessToken /\
                   Session.isActive s = true /\ now < Session.expiresAt s) ;;
       match session with
       | None => ret false
       | Some session =>
           (if UPDATE_LAST_USED AUTH_CONFIG
            then SessionModel.save (Session.set_lastUsed now session)
            else ret tt) ;;;
           ret true
       end)
      (fun error => ret false).

(** [errorMap[error.name] || { ...default }], for the errors
    [verifyAccessToken] throws. *)
Definition handleAuthError (error : Exn) : Exn :=
  if String.eqb (exn_name error) "TokenExpiredError"
  then ApiErr 401 "Access token has expired" [("auth", "Token expired")]
  else if String.eqb (exn_name error) "JsonWebTokenError"
  then ApiErr 401 "Invalid access token" [("auth", "Invalid token format")]
  else if String.eqb (exn_name error) "NotBeforeError"
  then ApiErr 401 "Token not active yet" [("auth", "Token not yet valid")]
  else ApiErr 401 "Authentication failed" [("auth", exn_message error)].

Record TokenInfo := {
  ti_accessToken : Token;
  ti_userId : JsValue;
  ti_tokenType : JsValue;
  ti_issuedAt : JsValue;
  ti_expiresAt : JsValue
}.

(** What the middleware hands on: [next()] with [req.user] and
    [req.tokenInfo] set, or [next(error)]. *)
Inductive Next :=
  | Proceed (user : User.t) (tokenInfo : TokenInfo)
  | NextError (error : Exn).

Definition is_ApiError (e : Exn) : bool :=
  match e with ApiErr _ _ _ => true | JsErr _ _ _ => false end.

Definition verifyJwtToken (env : Env) (req : Request) (now : Date) : M Next :=
  try_catch
    (match extractAccessToken req with
     | None =>
         throw (ApiErr 401 "Access token required"
                  [("auth", "No access token provided in cookies or headers")])
     | Some accessToken =>
         decodedToken <-
           match verifyAccessToken env (Some accessToken) now with
           | Return decoded => ret decoded
           | Throw tokenError => throw (handleAuthError tokenError)
           end ;;
         user <- UserModel.findById (default JUndefined (decodedToken !! "_id")) ;;
         match user with
         | None =>
             throw (ApiErr 401 "User not found"
                      [("auth", "User associated with token does not exist")])
         | Some user =>
             if negb (User.isActive user)
             then throw (ApiErr 401 "Account is deactivated"
                           [("auth", "User account has been deactivated")])
             else
               sessionValid <- validateUserSession (User._id user) accessToken now ;;
               if negb sessionValid
               then throw (ApiErr 401 "Invalid session"
                             [("auth", "Session has expired or is invalid")])
               else
                 ret (Proceed user
                        {| ti_accessToken := accessToken;
                           ti_userId := default JUndefined (decodedToken !! "_id");
                           ti_tokenType := default JUndefined (decodedToken !! "type");
                           ti_issuedAt := default JUndefined (decodedToken !! "iat");
                           ti_expiresAt := default JUndefined (decodedToken !! "exp") |})
         end
     end)
    (fun error =>
       if negb (is_ApiError error)
       then ret (NextError (ApiErr 401 "Authentication failed"
                              [("auth", "Internal authentication error")]))
       else ret (NextError error)).

(** [optionalAuth]: what it hands on is [next()] in every case, with
    [req.user] and [req.tokenInfo] set or not. *)
Definition optionalAuth (env : Env) (req : Request) (now : Date)
    : M (option (User.t * TokenInfo)) :=
  try_catch
    (match extractAccessToken req with
     | None => ret None
     | Some accessToken =>
         decodedToken <- lift (verifyAccessToken env (Some accessToken) now) ;;
         user <- UserModel.findById (default JUndefined (decodedToken !! "_id")) ;;
         match user with
         | Some user =>
             if User.isActive user
             then
               sessionValid <- validateUserSession (User._id user) accessToken now ;;
               if sessionValid
               then ret (Some (user,
                          {| ti_accessToken := accessToken;
                             ti_userId := default JUndefined (decodedToken !! "_id");
                             ti_tokenType := default JUndefined (decodedToken !! "type");
                             ti_issuedAt := default JUndefined (decodedToken !! "iat");
                             ti_expiresAt := default JUndefined (decodedToken !! "exp") |}))
               else ret None
             else ret None
         | None => ret None
         end
     end)
    (fun error => ret None).

(** [allowedRoles.join(', ')] *)
Fixpoint join (sep : string) (l : list string) : string :=
  match l with
  | [] => ""
  | [x] => x
  | x :: l' => x +:+ sep +:+ join sep l'
  end.

(** [req.user.roles || ['user']]: the user schema has no [roles] path, so
    the property is [undefined] on every user document. *)
Definition userRoles (user : User.t) : list string := ["user"].

(** The middleware [requireRoles(allowedRoles)] returns; [Throw] is the
    error [asyncHandler] passes to [next]. *)
Definition requireRoles (allowedRoles : list string) (user : option User.t) : Outcome unit :=
  match user with
  | None =>
      Throw (ApiErr 401 "Authentication required"
               [("auth", "Must be authenticated to access this resource")])
  | Some user =>
      let hasRequiredRole :=
        existsb (fun role => bool_decide (role ∈ userRoles user)) allowedRoles in
      if negb hasRequiredRole
      then Throw (ApiErr 403 "Insufficient permissions"
                    [("auth", "Requires one of: " +:+ join ", " allowedRoles)])
      else Return tt
  end.

End AuthMiddleware.

(** ** middlewares/ErrorHandler.middlewares.js *)

Definition ErrorHandler (err : Exn) : Res :=
  let status := match err with ApiErr s _ _ => if s =? 0 then 500 else s | JsErr _ _ _ => 500 end in
  {| res_cookies := [];
     res_reply :=
       SendJson status
         [("success", JVal (JBool false));
          ("status", JVal (JNum status));
          ("message", JVal (JStr (if String.eqb (exn_message err) ""
                                  then "Something went wrong" else exn_message err)));
          ("errors", JObject (match err with
                              | ApiErr _ _ errors => map (fun '(k, v) => (k, JStr v)) errors
                              | JsErr _ _ _ => []
                              end))] |}.

(** ** controllers/userControllers.js and the protected routes *)

Module UserControllers.

(** [new ApiResponse(statusCode, message, data).response] as sent. *)
Definition ApiResponse (statusCode : Z) (message : string) (data : Json) : Body :=
  [("statusCode", JVal (JNum statusCode));
   ("data", data);
   ("message", JVal (JStr message));
   ("success", JVal (JBool ((200 <=? statusCode) && (statusCode <? 300))))].

Definition logoutAllOtherDevices (sch : UserModel.Schema)
    (user : User.t) (tokenInfo : AuthMiddleware.TokenInfo) : M Res :=
  let currentAccessToken := AuthMiddleware.ti_accessToken tokenInfo in
  result <- SessionService.invalidateAllOtherSessions sch (User._id user) currentAccessToken ;;
  ret {| res_cookies := [];
         res_reply :=
           SendJson 200
             (ApiResponse 200 "Logged out from all other devices successfully"
                (JObject
                   [("invalidatedSessions", JNum (SessionService.invalidatedSessions result));
                    ("currentSessionPreserved",
                     JBool (SessionService.currentSessionPreserved result))])) |}.

End UserControllers.

Module Routes.

(** A route behind [verifyJwtToken]: the handler runs on [next()], the
    error handler answers on [next(error)] and on a rejected handler
    promise ([asyncHandler]). *)
Definition protected (env : Env) (req : Request) (now : Date)
    (handler : User.t -> AuthMiddleware.TokenInfo -> M Res) : M Res :=
  n <- AuthMiddleware.verifyJwtToken env req now ;;
  match n with
  | AuthMiddleware.Proceed user tokenInfo =>
      try_catch (handler user tokenInfo) (fun error => ret (ErrorHandler error))
  | AuthMiddleware.NextError error => ret (ErrorHandler error)
  end.

(** [POST /api/v1/user/logout-all-others] *)
Definition post_logout_all_others (env : Env) (sch : UserModel.Schema)
    (req : Request) (now : Date) : M Res :=
  protected env req now (UserControllers.logoutAllOtherDevices sch).

(** [POST /auth/logout] *)
Definition post_logout (env : Env) (sch : UserModel.Schema) (req : Request) (now : Date) : M Res :=
  LogoutUser.logout env sch req now.

(** [POST /auth/logout-all] *)
Definition post_logout_all (env : Env) (sch : UserModel.Schema) (req : Request) (now : Date) : M Res :=
  protected env req now (fun _ _ => LogoutUser.logoutAllDevices env sch req now).

End Routes.

(** ** utils/sessionCleanup.js *)

Module SessionCleanup.

Record CleanupConfig := {
  INTERVAL_HOURS : Z;
  BATCH_SIZE : Z;
  LOG_RESULTS : bool;
  MAX_RETRY_ATTEMPTS : Z
}.

Definition CLEANUP_CONFIG : CleanupConfig :=
  {| INTERVAL_HOURS := 1; BATCH_SIZE := 1000; LOG_RESULTS := true; MAX_RETRY_ATTEMPTS := 3 |}.

(** [cleanupExpiredSessions(retryCount)] with [attempts] further calls
    allowed to the recursion. *)
Fixpoint cleanupExpiredSessions_rec (attempts : nat) (retryCount : Z) (now : Date) : M Z :=
  try_catch
    (SessionModel.cleanExpiredSessions now)
    (fun error =>
       if retryCount <? MAX_RETRY_ATTEMPTS CLEANUP_CONFIG
       then match attempts with
            | S attempts' => cleanupExpiredSessions_rec attempts' (retryCount + 1) now
            | O => ret 0
            end
       else ret 0).

(** The recursion stops once [retryCount] reaches [MAX_RETRY_ATTEMPTS]. *)
Definition cleanupExpiredSessions (retryCount : Z) (now : Date) : M Z :=
  cleanupExpiredSessions_rec
    (Z.to_nat (MAX_RETRY_ATTEMPTS CLEANUP_CONFIG - retryCount)) retryCount now.

(** [Array.prototype.slice(0, end)] *)
Definition slice_to {A} (end_ : Z) (l : list A) : list A :=
  if end_ <? 0
  then take (Z.to_nat (Z.max (Z.of_nat (length l) + end_) 0)) l
  else take (Z.to_nat end_) l.

(** Least recently used first: the order of
    [.sort((a, b) => a.lastUsed - b.lastUsed)]. *)
Definition by_lastUsed_asc (a b : Session.t) : Prop :=
  Session.lastUsed a <= Session.lastUsed b.

Global Instance by_lastUsed_asc_dec a b : Decision (by_lastUsed_asc a b).
Proof. unfold by_lastUsed_asc. apply _. Defined.
Global Typeclasses Opaque by_lastUsed_asc.

(** [cleanupUserSessions(userId, maxSessions)]; the result is
    [result.modifiedCount]. *)
Definition cleanupUserSessions (userId : ObjectId) (maxSessions : Z) (now : Date) : M Z :=
  try_catch
    (activeSessions <- SessionModel.getActiveSessions userId now ;;
     if Z.of_nat (length activeSessions) <=? maxSessions
     then ret 0
     else
       let sessionsToDeactivate :=
         slice_to (Z.of_nat (length activeSessions) - maxSessions)
           (merge_sort by_lastUsed_asc activeSessions) in
       let sessionIds := map Session._id sessionsToDeactivate in
       SessionModel.updateMany (fun s => Session._id s ∈ sessionIds)
         (Session.set_isActive false))
    (fun error => ret 0).

(** The counters of [batchCleanupSessions] ([stats]). *)
Record BatchStats := {
  totalProcessed : Z;
  totalDeleted : Z;
  batches : Z
}.

(** [.limit(n)] of a query: 0 is no limit, a negative number counts as
    its absolute value. *)
Definition limit {A} (n : Z) (l : list A) : list A :=
  if n =? 0 then l else take (Z.to_nat (Z.abs n)) l.

(** The [while (hasMore)] loop of [batchCleanupSessions].  The code reads
    the batch size from the constant [CLEANUP_CONFIG]; here the
    configuration is the argument [cfg].  [fuel] bounds the number of
    rounds, and [None] is a loop that has not ended within them.  All
    rounds see the clock reading [now]. *)
Fixpoint batchCleanupSessions_loop (fuel : nat) (cfg : CleanupConfig) (now : Date)
    (stats : BatchStats) : M (option BatchStats) :=
  match fuel with
  | O => ret None
  | S fuel' =>
      expiredSessions <-
        gets (fun db => limit (BATCH_SIZE cfg)
                          (Collection.find (SessionModel.expired_or_inactive now)
                             (sessions db))) ;;
      if Z.of_nat (length expiredSessions) =? 0
      then ret (Some stats)
      else
        let sessionIds := map Session._id expiredSessions in
        deletedCount <- SessionModel.deleteMany (fun s => Session._id s ∈ sessionIds) ;;
        let stats :=
          {| totalProcessed := totalProcessed stats + Z.of_nat (length expiredSessions);
             totalDeleted := totalDeleted stats + deletedCount;
             batches := batches stats + 1 |} in
        if Z.of_nat (length expiredSessions) <? BATCH_SIZE cfg
        then ret (Some stats)
        else batchCleanupSessions_loop fuel' cfg now stats
  end.

(** [batchCleanupSessions]: the counters of [stats]; [startTime] and
    [duration] only feed the log line.  Neither query of the loop throws
    on the store as it is kept here, so the [catch] branch is not
    reached. *)
Definition batchCleanupSessions (fuel : nat) (cfg : CleanupConfig) (now : Date)
    : M (option BatchStats) :=
  batchCleanupSessions_loop fuel cfg now
    {| totalProcessed := 0; totalDeleted := 0; batches := 0 |}.

End SessionCleanup.

(** ** The environment check at start-up ([validateEnvironment])

    Here [process.env] is taken as it is, a map from names to text. *)

Module EnvCheck.

Definition ProcessEnv := gmap string string.

Definition requiredEnvVars : list string :=
  [ "PORT";
    "MONGODB_URI";
    "CLIENT_URL";
    "ACCESS_TOKEN_SECRET";
    "ACCESS_TOKEN_EXPIRY";
    "REFRESH_TOKEN_SECRET";
    "REFRESH_TOKEN_EXPIRY";
    "GOOGLE_CLIENT_ID";
    "GOOGLE_CLIENT_SECRET";
    "GOOGLE_REDIRECT_URI";
    "GITHUB_CLIENT_ID";
    "GITHUB_CLIENT_SECRET";
    "GITHUB_REDIRECT_URI";
    "LINKEDIN_CLIENT_ID";
    "LINKEDIN_CLIENT_SECRET";
    "LINKEDIN_REDIRECT_URI" ].

(** [s.includes(sub)] *)
Fixpoint includes (sub s : string) : bool :=
  String.prefix sub s ||
  match s with
  | EmptyString => false
  | String _ s' => includes sub s'
  end.

(** One round of the [for] loop over [requiredEnvVars]. *)
Definition check (env : ProcessEnv) (acc : list string * list string) (envVar : string)
    : list string * list string :=
  let '(missingVars, invalidVars) := acc in
  match env !! envVar with
  | None => (missingVars ++ [envVar], invalidVars)
  | Some value =>
      if String.eqb value "" then (missingVars ++ [envVar], invalidVars)
      else if includes "your_" value || String.eqb value "your_google_client_id"
      then (missingVars, invalidVars ++ [envVar])
      else (missingVars, invalidVars)
  end.

(** The first of a row of calls that throws, with its message. *)
Fixpoint first_thrown (calls : list (option string)) : option string :=
  match calls with
  | [] => None
  | Some message :: _ => Some message
  | None :: calls' => first_thrown calls'
  end.

Definition urlVars : list string :=
  ["CLIENT_URL"; "GOOGLE_REDIRECT_URI"; "GITHUB_REDIRECT_URI"; "LINKEDIN_REDIRECT_URI"].

Section URL.
(** [new URL(text)] is the platform's: [URL_error text] is the message of
    the [TypeError] it throws, [None] where it parses. *)
Variable URL_error : string -> option string.

(** [new URL(process.env[k])]; an unset variable is passed as
    [undefined], which the constructor reads as text. *)
Definition new_URL (env : ProcessEnv) (k : string) : option string :=
  URL_error (default "undefined" (env !! k)).

(** [validateEnvironment]; texts are taken to be ASCII, so that [.length]
    is the number of characters kept here. *)
Definition validateEnvironment (env : ProcessEnv) : Outcome unit :=
  let '(missingVars, invalidVars) := foldl (check env) ([], []) requiredEnvVars in
  if (0 <? length missingVars)%nat
  then Throw (Error ("Missing required environment variables: "
                     +:+ AuthMiddleware.join ", " missingVars))
  else if (0 <? length invalidVars)%nat
  then Throw (Error ("Invalid placeholder values in environment variables: "
                     +:+ AuthMiddleware.join ", " invalidVars))
  else
    match env !! "ACCESS_TOKEN_SECRET" with
    | None =>
        Throw (JsErr "TypeError" "Cannot read properties of undefined (reading 'length')" None)
    | Some access =>
        if (String.length access <? 32)%nat
        then Throw (Error "ACCESS_TOKEN_SECRET must be at least 32 characters long")
        else
          match env !! "REFRESH_TOKEN_SECRET" with
          | None =>
              Throw (JsErr "TypeError"
                       "Cannot read properties of undefined (reading 'length')" None)
          | Some refresh =>
              if (String.length refresh <? 32)%nat
              then Throw (Error "REFRESH_TOKEN_SECRET must be at least 32 characters long")
              else
                match first_thrown (map (new_URL env) urlVars) with
                | Some message =>
                    Throw (Error ("Invalid URL format in environment variables: "
                                  +:+ message))
                | None => Return tt
                end
          end
    end.
End URL.

(** [getEnvironment], [isDevelopment] and [isProduction]. *)
Definition getEnvironment (env : ProcessEnv) : string :=
  match env !! "NODE_ENV" with
  | Some v => if String.eqb v "" then "development" else v
  | None => "development"
  end.

Definition isDevelopment (env : ProcessEnv) : bool :=
  String.eqb (getEnvironment env) "development".
Definition isProduction (env : ProcessEnv) : bool :=
  String.eqb (getEnvironment env) "production".

(** A variable the loop counts as missing, and one it counts as a
    placeholder. *)
Definition is_missing (env : ProcessEnv) (k : string) : Prop :=
  default "" (env !! k) = "".

Definition is_placeholder (env : ProcessEnv) (k : string) : Prop :=
  default "" (env !! k) <> "" /\ includes "your_" (default "" (env !! k)) = true.

Global Instance is_missing_dec env k : Decision (is_missing env k).
Proof. unfold is_missing. apply _. Defined.
Global Instance is_placeholder_dec env k : Decision (is_placeholder env k).
Proof. unfold is_placeholder. apply _. Defined.
Global Typeclasses Opaque is_missing is_placeholder.

End EnvCheck.

(** ** Views of a login

    [loginOrCreateUser] first settles the user document (find or create,
    link the provider, count the login), then works on sessions only.  The
    phases are named here to state what each does to the store. *)

Definition user_phase (sch : UserModel.Schema) (p : LoginOrCreateUser.Params)
    (now : Date) : M User.t :=
  found <- LoginOrCreateUser.findExistingUser (LoginOrCreateUser.provider p)
             (LoginOrCreateUser.id p) (LoginOrCreateUser.email p) ;;
  user <- match found with
          | None =>
              LoginOrCreateUser.createNewUser sch (LoginOrCreateUser.provider p)
                (LoginOrCreateUser.id p) (LoginOrCreateUser.email p)
                (LoginOrCreateUser.name p) (LoginOrCreateUser.avatar p) now
          | Some user =>
              LoginOrCreateUser.updateUserProviderData sch user
                (LoginOrCreateUser.provider p) (LoginOrCreateUser.id p)
          end ;;
  UserModel.updateLoginInfo sch user now.

Definition session_phase (env : Env) (cfg : LoginOrCreateUser.SessionConfig)
    (p : LoginOrCreateUser.Params) (user : User.t) (now : Date) : M Res :=
  LoginOrCreateUser.performSessionCleanup cfg (User._id user) now ;;;
  tokens <- lift (generateTokens env (JOid (User._id user)) ∅ now) ;;
  LoginOrCreateUser.createUserSession cfg (User._id user) (tp_accessToken tokens)
    (tp_refreshToken tokens) (LoginOrCreateUser.provider p)
    (LoginOrCreateUser.extractDeviceInfo (LoginOrCreateUser.req p)) now ;;;
  ret {| res_cookies :=
           LoginOrCreateUser.setSecureCookies cfg (tp_accessToken tokens)
             (tp_refreshToken tokens);
         res_reply :=
           LoginOrCreateUser.handleSuccessRedirect env (LoginOrCreateUser.provider p) |}.

Definition login_failure (env : Env) (p : LoginOrCreateUser.Params) (error : Exn) : Res :=
  {| res_cookies := [];
     res_reply :=
       LoginOrCreateUser.handleErrorRedirect env
         (if bool_decide (exn_code error = Some 11000) then "email_exists"
          else if String.eqb (exn_name error) "ValidationError" then "validation_failed"
          else "login_failed")
         (LoginOrCreateUser.provider p) |}.

(** The document [loginOrCreateUser] leaves for an existing user [u]. *)
Definition logged_in (p : LoginOrCreateUser.Params) (now : Date) (u : User.t) : User.t :=
  let u1 :=
    if UserModel.hasProvider u (LoginOrCreateUser.provider p) then u
    else User.set_providerId (LoginOrCreateUser.provider p) (LoginOrCreateUser.id p) u in
  User.set_loginCount (User.loginCount u1 + 1) (User.set_lastLoginAt now u1).

Definition cleaned (cfg : LoginOrCreateUser.SessionConfig) (now : Date)
    (ss : list Session.t) : list Session.t :=
  if LoginOrCreateUser.CLEANUP_EXPIRED_ON_LOGIN cfg
  then filter (fun s => ~ SessionModel.expired_or_inactive now s) ss
  else ss.

(** The result of [getActiveSessions]. *)
Definition ranked (userId : ObjectId) (now : Date) (ss : list Session.t) : list Session.t :=
  merge_sort SessionModel.by_lastUsed_desc
    (filter (SessionModel.active_unexpired userId now) ss).

Definition deactivated (userId : ObjectId) (maxSessions : Z) (now : Date)
    (ss : list Session.t) : list Session.t :=
  if maxSessions <=? Z.of_nat (length (ranked userId now ss))
  then map (fun s =>
              if decide (Session._id s ∈
                           map Session._id (slice (maxSessions - 1) (ranked userId now ss)))
              then Session.set_isActive false s else s) ss
  else ss.

(** The session document a login inserts. *)
Definition new_session (cfg : LoginOrCreateUser.SessionConfig)
    (p : LoginOrCreateUser.Params) (userId : ObjectId) (tokens : TokenPair)
    (now : Date) (id : ObjectId) : Session.t :=
  Session.mk id userId (tp_refreshToken tokens) (tp_accessToken tokens)
    (LoginOrCreateUser.provider p)
    (LoginOrCreateUser.extractDeviceInfo (LoginOrCreateUser.req p)) true now
    (LoginOrCreateUser.calculateExpiryDate
       (LoginOrCreateUser.REFRESH_TOKEN_EXPIRY_DAYS cfg) now).

Definition login_success (env : Env) (cfg : LoginOrCreateUser.SessionConfig)
    (p : LoginOrCreateUser.Params) (tokens : TokenPair) : Res :=
  {| res_cookies :=
       LoginOrCreateUser.setSecureCookies cfg (tp_accessToken tokens) (tp_refreshToken tokens);
     res_reply :=
       LoginOrCreateUser.handleSuccessRedirect env (LoginOrCreateUser.provider p) |}.

(** The counter write of [decrementLoginCount]. *)
Definition decremented (u : User.t) : User.t :=
  if 0 <? User.loginCount u
  then User.set_loginCount (User.loginCount u - 1) u
  else u.

(** The user collection after the counting step of
    [deleteSessionAndUpdateCount]. *)
Definition users_after_count (sch : UserModel.Schema) (deletedCount : Z)
    (userId : JsValue) (us : list User.t) : list User.t :=
  if (0 <? deletedCount) && truthy userId
  then match userId with
       | JOid uid =>
           match Collection.findOne (fun u => User._id u = uid) us with
           | Some u =>
               match UserModel.validate sch (decremented u) with
               | None => Collection.save User._id (decremented u) us
               | Some _ => us
               end
           | None => us
           end
       | _ => us
       end
  else us.

(** The filter of [validateUserSession]. *)
Definition valid_session (userId : ObjectId) (accessToken : Token) (now : Date)
    (s : Session.t) : Prop :=
  Session.userId s = userId /\ Session.accessToken s = accessToken /\
  Session.isActive s = true /\ now < Session.expiresAt s.

Global Instance valid_session_dec userId accessToken now s :
  Decision (valid_session userId accessToken now s).
Proof. unfold valid_session. apply _. Defined.

(** The filter of [invalidateAllOtherSessions]. *)
Definition other_active (userId : ObjectId) (currentAccessToken : Token)
    (s : Session.t) : Prop :=
  Session.userId s = userId /\ Session.isActive s = true /\
  Session.accessToken s <> currentAccessToken.

Global Instance other_active_dec userId tok s : Decision (other_active userId tok s).
Proof. unfold other_active. apply _. Defined.

(** N logins one after the other, with their replies. *)
Fixpoint logins (env : Env) (sch : UserModel.Schema)
    (cfg : LoginOrCreateUser.SessionConfig)
    (calls : list (LoginOrCreateUser.Params * Date)) : M (list Res) :=
  match calls with
  | [] => ret []
  | (p, now) :: rest =>
      r <- LoginOrCreateUser.loginOrCreateUser env sch cfg p now ;;
      rs <- logins env sch cfg rest ;;
      ret (r :: rs)
  end.

(** The subject of the access token a reply sets as cookie: the user a
    successful login was for. *)
Definition logged_in_as (r : Res) : option JsValue :=
  match res_cookies r with
  | SetCookie _ (Signed j) _ :: _ => jwt_claims j !! "_id"
  | _ => None
  end.

(** The user phase leaves sessions alone and never lowers [nextId]. *)
Definition sessions_kept (ss : list Session.t) (n : ObjectId) (db : Db) : Prop :=
  sessions db = ss /\ (n <= nextId db)%nat.


(** The document [User.create] builds for a login that matched no user,
    before and after [updateLoginInfo]. *)
Definition created (p : LoginOrCreateUser.Params) (now : Date) (id : ObjectId) : User.t :=
  User.set_providerId (LoginOrCreateUser.provider p) (LoginOrCreateUser.id p)
    (User.mk id (UserModel.set_email (LoginOrCreateUser.email p))
       (UserModel.set_name (LoginOrCreateUser.name p))
       (LoginOrCreateUser.avatar p) None None None true now 0).

Definition first_login (p : LoginOrCreateUser.Params) (now : Date) (id : ObjectId) : User.t :=
  User.set_loginCount 1 (User.set_lastLoginAt now (created p now id)).

(** The error redirects of [loginOrCreateUser]. *)
Definition login_error (env : Env) (p : LoginOrCreateUser.Params) (errorType : string) : Res :=
  {| res_cookies := [];
     res_reply := LoginOrCreateUser.handleErrorRedirect env errorType
                    (LoginOrCreateUser.provider p) |}.

(** ** Visits of a user

    What a user does over time: logins, and in between requests to a
    protected route whose handler only reads, like [getCurrentUser] behind
    GET /profile.  Such a request goes through [verifyJwtToken], which
    stamps [lastUsed] on the session of its token, and writes nothing
    else. *)








(** ** The calls that reach the store

    One constructor per entry point that reads or writes users and
    sessions: the OAuth callbacks end in [loginOrCreateUser], the three
    logout routes, and the cleanup timer. *)

Inductive Call :=
  | CallLogin (p : LoginOrCreateUser.Params)
  | CallLogout (req : Request)
  | CallLogoutAll (req : Request)
  | CallLogoutOthers (req : Request)
  | CallPeriodicCleanup.

Definition serve (env : Env) (sch : UserModel.Schema)
    (cfg : LoginOrCreateUser.SessionConfig) (c : Call) (now : Date) : M unit :=
  match c with
  | CallLogin p => LoginOrCreateUser.loginOrCreateUser env sch cfg p now ;;; ret tt
  | CallLogout req => Routes.post_logout env sch req now ;;; ret tt
  | CallLogoutAll req => Routes.post_logout_all env sch req now ;;; ret tt
  | CallLogoutOthers req => Routes.post_logout_all_others env sch req now ;;; ret tt
  | CallPeriodicCleanup => SessionCleanup.cleanupExpiredSessions 0 now ;;; ret tt
  end.

(** The store after a run of calls, each at its own time. *)
Fixpoint run (env : Env) (sch : UserModel.Schema)
    (cfg : LoginOrCreateUser.SessionConfig) (calls : list (Call * Date)) (db : Db) : Db :=
  match calls with
  | [] => db
  | (c, now) :: rest => run env sch cfg rest (serve env sch cfg c now db).2
  end.

(** The active-session counter of every user is at least zero. *)
Definition counters_nonneg (db : Db) : Prop :=
  Forall (fun u => 0 <= User.loginCount u) (users db).

(** ** Invariants of the store

    A computation preserves [I] when the store it leaves satisfies [I]
    whenever the store it starts from does, whether it returns or throws. *)

Definition preserves {A} (I : Db -> Prop) (m : M A) : Prop :=
  forall db, I db -> I (m db).2.

(** A computation that leaves the user collection as it is keeps every
    property of it. *)
Definition keeps_users {A} (m : M A) : Prop :=
  forall db, users (m db).2 = users db.

(** ** Stores the handlers produce

    The session documents of a store written by the handlers alone: ids
    are unique and below the id counter, refresh tokens are unique (the
    unique index), and the two tokens of a session are the pair one call
    of [generateTokens] has issued for the session's user. *)




(** ** Sample data

    A configuration, requests and stores on which the statements below are
    exercised. *)

Module Sample.

Definition env : Env :=
  {| ACCESS_TOKEN_SECRET := "access-secret-0123456789abcdef0123456789";
     REFRESH_TOKEN_SECRET := "refresh-secret-0123456789abcdef012345678";
     ACCESS_TOKEN_EXPIRY := None;
     REFRESH_TOKEN_EXPIRY := None;
     CLIENT_URL := None;
     NODE_ENV := None |}.

(** Passes [validateEnvironment]: both secrets are set, free of
    placeholders and 32 characters long; they happen to be equal. *)
Definition shared_secret_env : Env :=
  {| ACCESS_TOKEN_SECRET := "0123456789abcdef0123456789abcdef";
     REFRESH_TOKEN_SECRET := "0123456789abcdef0123456789abcdef";
     ACCESS_TOKEN_EXPIRY := None;
     REFRESH_TOKEN_EXPIRY := None;
     CLIENT_URL := None;
     NODE_ENV := None |}.

Fixpoint has_at (s : string) : bool :=
  match s with
  | EmptyString => false
  | String a s' => bool_decide (a = Ascii.ascii_of_nat 64) || has_at s'
  end.

Definition sch : UserModel.Schema := {| UserModel.emailPattern := has_at |}.

Definition bare_request : Request :=
  {| cookies_accessToken := None;
     cookies_refreshToken := None;
     headers_authorization := None;
     headers_user_agent := Some "Mozilla/5.0";
     req_ip := Some "203.0.113.7";
     connection_remoteAddress := None |}.

Definition with_cookies (accessToken refreshToken : option Token) : Request :=
  {| cookies_accessToken := accessToken;
     cookies_refreshToken := refreshToken;
     headers_authorization := None;
     headers_user_agent := Some "Mozilla/5.0";
     req_ip := Some "203.0.113.7";
     connection_remoteAddress := None |}.

Definition empty_db : Db := mkDb [] [] 0%nat.

(** The token of an [Outcome], for use in a request. *)
Definition issued (o : Outcome Token) : Token :=
  match o with
  | Return t => t
  | Throw _ => Malformed ""
  end.

(** Issued at time 0 with the default lifetime of one day. *)
Definition day_one_access_token : Token :=
  issued (generateAccessToken env (JOid 1%nat) ∅ 0).

Definition alice : User.t :=
  User.mk 0%nat "a@x.com" "Alice" "" (Some "g1") None None true 0 1.

Definition cfg : LoginOrCreateUser.SessionConfig := LoginOrCreateUser.SESSION_CONFIG.

Definition google_login : LoginOrCreateUser.Params :=
  {| LoginOrCreateUser.provider := google;
     LoginOrCreateUser.id := "g1";
     LoginOrCreateUser.email := "a@x.com";
     LoginOrCreateUser.name := "Alice";
     LoginOrCreateUser.avatar := "";
     LoginOrCreateUser.req := bare_request |}.

Definition github_login : LoginOrCreateUser.Params :=
  {| LoginOrCreateUser.provider := github;
     LoginOrCreateUser.id := "gh1";
     LoginOrCreateUser.email := "a@x.com";
     LoginOrCreateUser.name := "Alice";
     LoginOrCreateUser.avatar := "";
     LoginOrCreateUser.req := bare_request |}.

(** One login through Google into the empty store, at second 1. *)
Definition after_first_login : Db :=
  run env sch cfg [(CallLogin google_login, 1000)] empty_db.

Definition last_refreshToken (db : Db) : option Token :=
  Session.refreshToken <$> last (sessions db).
Definition last_accessToken (db : Db) : option Token :=
  Session.accessToken <$> last (sessions db).

Definition from_device (agent : string) (p : LoginOrCreateUser.Params) : LoginOrCreateUser.Params :=
  {| LoginOrCreateUser.provider := LoginOrCreateUser.provider p;
     LoginOrCreateUser.id := LoginOrCreateUser.id p;
     LoginOrCreateUser.email := LoginOrCreateUser.email p;
     LoginOrCreateUser.name := LoginOrCreateUser.name p;
     LoginOrCreateUser.avatar := LoginOrCreateUser.avatar p;
     LoginOrCreateUser.req :=
       {| cookies_accessToken := None;
          cookies_refreshToken := None;
          headers_authorization := None;
          headers_user_agent := Some agent;
          req_ip := Some "203.0.113.7";
          connection_remoteAddress := None |} |}.

Definition HOUR : Z := 60 * 60 * 1000.

(** Four logins of the same user from four devices, an hour apart. *)
Definition four_logins : list (LoginOrCreateUser.Params * Date) :=
  [ (from_device "laptop" google_login, 0);
    (from_device "phone" google_login, 1 * HOUR);
    (from_device "tablet" github_login, 2 * HOUR);
    (from_device "desktop" google_login, 3 * HOUR) ].

Definition replies (o : Outcome (list Res)) : list Res :=
  match o with
  | Return rs => rs
  | Throw _ => []
  end.

(** A Google login of the same email with another Google id. *)
Definition google_login_other_id : LoginOrCreateUser.Params :=
  {| LoginOrCreateUser.provider := google;
     LoginOrCreateUser.id := "g2";
     LoginOrCreateUser.email := "a@x.com";
     LoginOrCreateUser.name := "Alice";
     LoginOrCreateUser.avatar := "";
     LoginOrCreateUser.req := bare_request |}.

(** The user and the session the first login leaves. *)
Definition first_user : User.t :=
  default alice (head (users after_first_login)).

Definition no_session : Session.t :=
  Session.mk 0%nat 0%nat (Malformed "") (Malformed "") google
    {| Session.userAgent := ""; Session.ip := "" |} false 0 0.

Definition first_session : Session.t :=
  default no_session (last (sessions after_first_login)).

(** Two logins a few seconds apart: two active sessions. *)
Definition after_two_logins : Db :=
  run env sch cfg [(CallLogin google_login, 1000); (CallLogin google_login, 5000)] empty_db.


(** A request carrying the access token of the latest session of [db]. *)
Definition latest_caller (db : Db) : Request :=
  with_cookies (last_accessToken db) None.

Definition no_tokenInfo : AuthMiddleware.TokenInfo :=
  {| AuthMiddleware.ti_accessToken := Malformed "";
     AuthMiddleware.ti_userId := JUndefined;
     AuthMiddleware.ti_tokenType := JUndefined;
     AuthMiddleware.ti_issuedAt := JUndefined;
     AuthMiddleware.ti_expiresAt := JUndefined |}.

Definition admitted_user (o : Outcome AuthMiddleware.Next) : User.t :=
  match o with
  | Return (AuthMiddleware.Proceed u _) => u
  | _ => alice
  end.

Definition admitted_tokenInfo (o : Outcome AuthMiddleware.Next) : AuthMiddleware.TokenInfo :=
  match o with
  | Return (AuthMiddleware.Proceed _ ti) => ti
  | _ => no_tokenInfo
  end.

Definition reply_of (o : Outcome Res) : Res :=
  match o with
  | Return r => r
  | Throw e => ErrorHandler e
  end.

Definition body_of (r : Res) : Body :=
  match res_reply r with
  | SendJson _ b => b
  | Redirect _ => []
  end.

(** The store after the first three of [four_logins]. *)
Definition after_three_logins : Db :=
  (logins env sch cfg (take 3 four_logins) empty_db).2.

(** The GitHub login of Alice with the address as GitHub has it: in
    capitals, with a blank at either end. *)
Definition github_login_mixed_case : LoginOrCreateUser.Params :=
  {| LoginOrCreateUser.provider := github;
     LoginOrCreateUser.id := "gh1";
     LoginOrCreateUser.email := " A@X.COM ";
     LoginOrCreateUser.name := "Alice";
     LoginOrCreateUser.avatar := "";
     LoginOrCreateUser.req := bare_request |}.

(** A first login with an address in mixed case and a padded name. *)
Definition untidy_login : LoginOrCreateUser.Params :=
  {| LoginOrCreateUser.provider := google;
     LoginOrCreateUser.id := "g9";
     LoginOrCreateUser.email := " Bob@Example.COM";
     LoginOrCreateUser.name := "  Bob ";
     LoginOrCreateUser.avatar := "";
     LoginOrCreateUser.req := bare_request |}.

(** A login that carries no provider id. *)
Definition login_without_id : LoginOrCreateUser.Params :=
  {| LoginOrCreateUser.provider := google;
     LoginOrCreateUser.id := "";
     LoginOrCreateUser.email := "a@x.com";
     LoginOrCreateUser.name := "Alice";
     LoginOrCreateUser.avatar := "";
     LoginOrCreateUser.req := bare_request |}.

(** The pair of an [Outcome], for use in a statement. *)
Definition issued_tokens (o : Outcome TokenPair) : TokenPair :=
  match o with
  | Return tokens => tokens
  | Throw _ => {| tp_accessToken := Malformed ""; tp_refreshToken := Malformed "" |}
  end.

Definition latest_session (db : Db) : Session.t :=
  default no_session (last (sessions db)).

Definition earliest_session (db : Db) : Session.t :=
  default no_session (head (sessions db)).

(** A request carrying the access token of a session in the cookie. *)
Definition caller_of (s : Session.t) : Request :=
  with_cookies (Some (Session.accessToken s)) None.

(** Alice with her account deactivated, and a store that holds her only. *)
Definition alice_deactivated : User.t :=
  User.mk 0%nat "a@x.com" "Alice" "" (Some "g1") None None false 0 1.

Definition deactivated_db : Db := mkDb [alice_deactivated] [] 1%nat.

(** The store after all of [four_logins]. *)
Definition after_four_logins : Db :=
  (logins env sch cfg four_logins empty_db).2.

(** A cleanup configuration with batches of 3. *)
Definition batches_of_three : SessionCleanup.CleanupConfig :=
  {| SessionCleanup.INTERVAL_HOURS := 1;
     SessionCleanup.BATCH_SIZE := 3;
     SessionCleanup.LOG_RESULTS := true;
     SessionCleanup.MAX_RETRY_ATTEMPTS := 3 |}.

(** [Number(v)] on the values of a token's claims. *)
Definition ToNumber (v : JsValue) : option Z :=
  match v with
  | JNum z => Some z
  | JBool b => Some (if b then 1 else 0)
  | JNull => Some 0
  | _ => None
  end.

(** A [process.env] that passes the check at start-up. *)
Definition process_env : EnvCheck.ProcessEnv :=
  list_to_map
    [ ("PORT", "8000");
      ("MONGODB_URI", "mongodb://localhost:27017/interviewreader");
      ("CLIENT_URL", "http://localhost:3000");
      ("ACCESS_TOKEN_SECRET", "access-secret-0123456789abcdef0123456789");
      ("ACCESS_TOKEN_EXPIRY", "1d");
      ("REFRESH_TOKEN_SECRET", "refresh-secret-0123456789abcdef012345678");
      ("REFRESH_TOKEN_EXPIRY", "10d");
      ("GOOGLE_CLIENT_ID", "google-client");
      ("GOOGLE_CLIENT_SECRET", "google-secret");
      ("GOOGLE_REDIRECT_URI", "http://localhost:8000/auth/google/callback");
      ("GITHUB_CLIENT_ID", "github-client");
      ("GITHUB_CLIENT_SECRET", "github-secret");
      ("GITHUB_REDIRECT_URI", "http://localhost:8000/auth/github/callback");
      ("LINKEDIN_CLIENT_ID", "linkedin-client");
      ("LINKEDIN_CLIENT_SECRET", "linkedin-secret");
      ("LINKEDIN_REDIRECT_URI", "http://localhost:8000/auth/linkedin/callback") ].

(** A stand-in for the URL parser: text with an http(s) scheme parses. *)
Definition URL_error (text : string) : option string :=
  if String.prefix "http://" text || String.prefix "https://" text
  then None else Some "Invalid URL".






End Sample.

(** ** Statements of the specification that the code does not meet as written *)


Definition logout_current_as_specified (env : Env) (sch : UserModel.Schema)
    (req : Request) (now : Date) (db : Db) : Prop :=
  forall rt s owner,
    cookies_refreshToken req = Some rt ->
    s ∈ sessions db -> Session.refreshToken s = rt ->
    owner ∈ users db -> User._id owner = Session.userId s ->
    let db' := (Routes.post_logout env sch req now db).2 in
    (s ∉ sessions db')
    /\ (forall owner', owner' ∈ users db' -> User._id owner' = User._id owner ->
                       User.loginCount owner' = Z.max 0 (User.loginCount owner - 1)).


(** * Properties *)

(** ** JavaScript strings *)

Lemma lower_ascii_idem (a : Ascii.ascii) : lower_ascii (lower_ascii a) = lower_ascii a.
Proof. destruct a as [[] [] [] [] [] [] [] []]; reflexivity. Qed.

Lemma white_space_lower (a : Ascii.ascii) : white_space (lower_ascii a) = white_space a.
Proof. destruct a as [[] [] [] [] [] [] [] []]; reflexivity. Qed.

Lemma toLowerCase_idem (s : string) : toLowerCase (toLowerCase s) = toLowerCase s.
Proof. induction s as [| a s IH]; simpl; [done|]. by rewrite lower_ascii_idem, IH. Qed.

Lemma toLowerCase_trimStart (s : string) :
  toLowerCase (trimStart s) = trimStart (toLowerCase s).
Proof.
  induction s as [| a s IH]; simpl; [done|]. rewrite white_space_lower.
  by destruct (white_space a).
Qed.

Lemma toLowerCase_empty (s : string) : String.eqb (toLowerCase s) "" = String.eqb s "".
Proof. by destruct s. Qed.

Lemma toLowerCase_trimEnd (s : string) :
  toLowerCase (trimEnd s) = trimEnd (toLowerCase s).
Proof.
  induction s as [| a s IH]; simpl; [done|].
  rewrite white_space_lower, <- IH, toLowerCase_empty.
  by destruct (white_space a && String.eqb (trimEnd s) "").
Qed.

Lemma toLowerCase_trim (s : string) : toLowerCase (trim s) = trim (toLowerCase s).
Proof. unfold trim. by rewrite toLowerCase_trimEnd, toLowerCase_trimStart. Qed.

Lemma trimEnd_idem (s : string) : trimEnd (trimEnd s) = trimEnd s.
Proof.
  induction s as [| a s IH]; simpl; [done|].
  destruct (white_space a && String.eqb (trimEnd s) "") eqn:E; [done|].
  simpl. by rewrite IH, E.
Qed.

(** Text that does not begin with white space. *)
Lemma trimStart_fixed (s : string) :
  match s with String a _ => white_space a = false | EmptyString => True end ->
  trimStart s = s.
Proof. destruct s as [| a s]; simpl; [done|]. by intros ->. Qed.

Lemma trimStart_head (s : string) :
  match trimStart s with String a _ => white_space a = false | EmptyString => True end.
Proof.
  induction s as [| a s IH]; simpl; [done|].
  by destruct (white_space a) eqn:E; [|simpl].
Qed.

Lemma trimEnd_head (s : string) :
  match s with String a _ => white_space a = false | EmptyString => True end ->
  match trimEnd s with String a _ => white_space a = false | EmptyString => True end.
Proof.
  destruct s as [| a s]; simpl; [done|]. intros Ha. rewrite Ha. simpl. exact Ha.
Qed.

Lemma trim_idem (s : string) : trim (trim s) = trim s.
Proof.
  unfold trim. rewrite (trimStart_fixed (trimEnd (trimStart s))).
  - apply trimEnd_idem.
  - apply trimEnd_head, trimStart_head.
Qed.

(** The form the schema gives an email address is left as it is by the
    pre-save hook. *)
Lemma set_email_normal (v : string) :
  trim (toLowerCase (UserModel.set_email v)) = UserModel.set_email v.
Proof.
  unfold UserModel.set_email. by rewrite toLowerCase_trim, toLowerCase_idem, trim_idem.
Qed.

(** ** Collections *)

Section CollectionFacts.
Context {D : Type} (P : D -> Prop) `{!forall d, Decision (P d)}.

Lemma deleteMany_rest (c : list D) :
  (Collection.deleteMany P c).1 = filter (fun d => ~ P d) c.
Proof. reflexivity. Qed.

Lemma deleteMany_count (c : list D) :
  (Collection.deleteMany P c).2 = Z.of_nat (length (filter P c)).
Proof. reflexivity. Qed.

Lemma elem_of_deleteMany (c : list D) (d : D) :
  d ∈ (Collection.deleteMany P c).1 <-> d ∈ c /\ ~ P d.
Proof. simpl. rewrite list_elem_of_filter. tauto. Qed.

Lemma updateMany_count_nonneg (f : D -> D) (c : list D) :
  0 <= (Collection.updateMany P f c).2.
Proof. simpl. lia. Qed.
End CollectionFacts.

(** ** Periodic cleanup *)

Lemma cleanExpiredSessions_run (now : Date) (db : Db) :
  SessionModel.cleanExpiredSessions now db =
    (Return (Z.of_nat (length (filter (SessionModel.expired_or_inactive now) (sessions db)))),
     set_sessions
       (filter (fun s => ~ SessionModel.expired_or_inactive now s) (sessions db)) db).
Proof. reflexivity. Qed.

Lemma cleanupExpiredSessions_rec_run (attempts : nat) (retryCount : Z) (now : Date) (db : Db) :
  SessionCleanup.cleanupExpiredSessions_rec attempts retryCount now db =
    SessionModel.cleanExpiredSessions now db.
Proof. destruct attempts; reflexivity. Qed.

(** C7. The periodic cleanup ([cleanupExpiredSessions()] of
    [utils/sessionCleanup.js], first attempt) returns the number of sessions
    with [expiresAt < now] or [isActive = false] and leaves the session
    collection with exactly the other sessions, unchanged and in their
    order; users are not touched.  In particular an expired session that is
    still flagged active is gone, and an active, unexpired session stays. *)
Theorem C7_periodic_cleanup_deletes_exactly_expired_or_inactive :
  forall (now : Date) (db : Db),
    let '(out, db') := SessionCleanup.cleanupExpiredSessions 0 now db in
    out = Return (Z.of_nat (length
            (filter (fun s => Session.expiresAt s < now \/ Session.isActive s = false)
                    (sessions db))))
    /\ sessions db' =
         filter (fun s => ~ (Session.expiresAt s < now \/ Session.isActive s = false))
                (sessions db)
    /\ users db' = users db
    /\ (forall s, s ∈ sessions db' <->
                  s ∈ sessions db /\
                  ~ (Session.expiresAt s < now \/ Session.isActive s = false))
    /\ (forall s, s ∈ sessions db -> Session.expiresAt s < now ->
                  Session.isActive s = true -> s ∉ sessions db')
    /\ (forall s, s ∈ sessions db -> Session.isActive s = true ->
                  now <= Session.expiresAt s -> s ∈ sessions db').
Proof.
  intros now db.
  unfold SessionCleanup.cleanupExpiredSessions.
  rewrite cleanupExpiredSessions_rec_run, cleanExpiredSessions_run.
  assert (Hmem : forall s,
    s ∈ filter (fun s => ~ SessionModel.expired_or_inactive now s) (sessions db) <->
    s ∈ sessions db /\ ~ (Session.expiresAt s < now \/ Session.isActive s = false)).
  { intros s. rewrite list_elem_of_filter. unfold SessionModel.expired_or_inactive. tauto. }
  split; [reflexivity|]. split; [reflexivity|]. split; [reflexivity|].
  split; [exact Hmem|]. split.
  - intros s Hin Hexp _ Hin'. apply Hmem in Hin'. tauto.
  - intros s Hin Hact Hexp. apply Hmem. split; [done|].
    intros [H | H]; [lia | congruence].
Qed.

(** ** Logout of the current session *)

Lemma logout_cleanup_returns (userId : JsValue) (now : Date) (db : Db) :
  exists n db',
    LogoutUser.cleanupExpiredSessions userId now db = (Return n, db')
    /\ users db' = users db.
Proof.
  unfold LogoutUser.cleanupExpiredSessions, try_catch, bind, lift.
  destruct (castObjectId userId) as [o | e]; simpl; eauto.
Qed.

(** C8. A [POST /auth/logout] request without a refresh-token cookie is
    answered with status 200 and a body whose [sessionsDeleted] is 0,
    whatever the other cookies and the store hold. *)
Theorem C8_logout_without_refresh_cookie_succeeds :
  forall (env : Env) (sch : UserModel.Schema) (req : Request) (now : Date) (db : Db),
    cookies_refreshToken req = None ->
    exists body db',
      Routes.post_logout env sch req now db =
        (Return {| res_cookies := LogoutUser.clearAuthCookies;
                   res_reply := SendJson 200 body |}, db')
      /\ property "sessionsDeleted" body = Some (JVal (JNum 0)).
Proof.
  intros env sch req now db Hno.
  unfold Routes.post_logout, LogoutUser.logout, try_catch, bind. rewrite Hno. simpl.
  destruct (truthy (LogoutUser.getUserIdFromToken env (cookies_accessToken req) now)).
  - destruct (logout_cleanup_returns
                (LogoutUser.getUserIdFromToken env (cookies_accessToken req) now) now db)
      as (n & db' & Hrun & _).
    rewrite Hrun. simpl. eauto.
  - simpl. eauto.
Qed.

(** ** Tokens *)

Lemma verify_Return (tok : option Token) (secret : string) (o : jwt.VerifyOptions)
    (now : Date) (c : gmap string JsValue) :
  jwt.verify tok secret o now = Return c ->
  exists j, tok = Some (Signed j) /\ c = jwt_claims j /\ jwt_key j = secret
            /\ jwt.check_exp c now = None.
Proof.
  unfold jwt.verify. intros H.
  destruct tok as [[j | s] |]; try discriminate.
  exists j.
  destruct (bool_decide (jwt_alg j ∈ jwt.algorithms o)); simpl in H; [|discriminate].
  destruct (bool_decide (jwt_key j = secret)) eqn:Hk; simpl in H; [|discriminate].
  apply bool_decide_eq_true in Hk.
  destruct (jwt.check_nbf (jwt_claims j) now); [discriminate|].
  destruct (jwt.check_exp (jwt_claims j) now) eqn:Hexp; [discriminate|].
  destruct (jwt.check_claim (jwt_claims j) "aud" _ _); [discriminate|].
  destruct (jwt.check_claim (jwt_claims j) "iss" _ _); [discriminate|].
  inversion H; subst. auto.
Qed.

Lemma sign_Return (payload : gmap string JsValue) (secret : string)
    (o : jwt.SignOptions) (now : Date) (tok : Token) :
  jwt.sign payload secret o now = Return tok ->
  exists j, tok = Signed j /\ jwt_key j = secret /\ jwt_alg j = jwt.algorithm o
            /\ jwt_claims j !! "type" = payload !! "type"
            /\ jwt_claims j !! "_id" = payload !! "_id".
Proof.
  unfold jwt.sign. intros H.
  repeat (match type of H with
          | (if ?b then _ else _) = _ => destruct b; [discriminate|]
          end).
  inversion H; subst. eexists; split; [reflexivity|]. simpl.
  repeat split; by rewrite !lookup_insert_ne.
Qed.

Lemma token_payload_type (userId : JsValue) (kind : string) (ap : gmap string JsValue) :
  token_payload userId kind ap !! "type" =
    match ap !! "type" with Some v => Some v | None => Some (JStr kind) end.
Proof.
  unfold token_payload. rewrite lookup_union.
  rewrite lookup_insert_eq. destruct (ap !! "type"); reflexivity.
Qed.

(** Whatever the secrets, the verifier of one kind only accepts a token
    whose [type] claim is that kind. *)
Lemma verifyRefreshToken_Return (env : Env) (tok : option Token) (now : Date)
    (c : gmap string JsValue) :
  verifyRefreshToken env tok now = Return c ->
  c !! "type" = Some (JStr "refresh")
  /\ exists j, tok = Some (Signed j) /\ c = jwt_claims j
               /\ jwt_key j = REFRESH_TOKEN_SECRET env.
Proof.
  unfold verifyRefreshToken. intros H.
  destruct (jwt.verify tok _ _ now) as [d | e] eqn:Hv; [|discriminate].
  destruct (bool_decide (d !! "type" = Some (JStr "refresh"))) eqn:Ht;
    simpl in H; [|discriminate].
  inversion H; subst. apply bool_decide_eq_true in Ht.
  apply verify_Return in Hv as (j & -> & -> & Hk & _). eauto.
Qed.

Lemma verifyAccessToken_Return (env : Env) (tok : option Token) (now : Date)
    (c : gmap string JsValue) :
  verifyAccessToken env tok now = Return c ->
  c !! "type" = Some (JStr "access")
  /\ exists j, tok = Some (Signed j) /\ c = jwt_claims j
               /\ jwt_key j = ACCESS_TOKEN_SECRET env.
Proof.
  unfold verifyAccessToken. intros H.
  destruct (jwt.verify tok _ _ now) as [d | e] eqn:Hv; [|discriminate].
  destruct (bool_decide (d !! "type" = Some (JStr "access"))) eqn:Ht;
    simpl in H; [|discriminate].
  inversion H; subst. apply bool_decide_eq_true in Ht.
  apply verify_Return in Hv as (j & -> & -> & Hk & _). eauto.
Qed.

(** No token is accepted by both verifiers. *)
Lemma verifiers_disjoint (env : Env) (tok : option Token) (t1 t2 : Date)
    (c1 c2 : gmap string JsValue) :
  verifyAccessToken env tok t1 = Return c1 ->
  verifyRefreshToken env tok t2 = Return c2 -> False.
Proof.
  intros H1 H2.
  apply verifyAccessToken_Return in H1 as (Ht1 & j1 & E1 & -> & _).
  apply verifyRefreshToken_Return in H2 as (Ht2 & j2 & E2 & -> & _).
  rewrite E1 in E2. inversion E2; subst. congruence.
Qed.

(** A token issued as access token whose additional payload has no [type]
    property is refused by the refresh verifier at all times, and the
    other way round. *)
Lemma access_token_refused_as_refresh (env : Env) (userId : JsValue)
    (ap : gmap string JsValue) (t0 t : Date) (tok : Token) :
  ap !! "type" = None ->
  generateAccessToken env userId ap t0 = Return tok ->
  exists e, verifyRefreshToken env (Some tok) t = Throw e.
Proof.
  intros Hap Hgen. unfold generateAccessToken in Hgen.
  destruct (truthy userId); simpl in Hgen; [|discriminate].
  apply sign_Return in Hgen as (j & -> & _ & _ & Hty & _).
  rewrite token_payload_type, Hap in Hty.
  destruct (verifyRefreshToken env (Some (Signed j)) t) as [c | e] eqn:Hv; [|eauto].
  apply verifyRefreshToken_Return in Hv as (Ht & j' & E & -> & _).
  inversion E; subst. congruence.
Qed.

(** A token issued as refresh token whose additional payload has no
    [type] property is refused by the access verifier at all times. *)
Lemma refresh_token_refused_as_access (env : Env) (userId : JsValue)
    (ap : gmap string JsValue) (t0 t : Date) (tok : Token) :
  ap !! "type" = None ->
  generateRefreshToken env userId ap t0 = Return tok ->
  exists e, verifyAccessToken env (Some tok) t = Throw e.
Proof.
  intros Hap Hgen. unfold generateRefreshToken in Hgen.
  destruct (truthy userId); simpl in Hgen; [|discriminate].
  apply sign_Return in Hgen as (j & -> & _ & _ & Hty & _).
  rewrite token_payload_type, Hap in Hty.
  destruct (verifyAccessToken env (Some (Signed j)) t) as [c | e] eqn:Hv; [|eauto].
  apply verifyAccessToken_Return in Hv as (Ht & j' & E & -> & _).
  inversion E; subst. congruence.
Qed.

(** With two different secrets no payload gets a token across kinds. *)
Lemma cross_kind_refused_with_distinct_secrets (env : Env) (userId : JsValue)
    (ap : gmap string JsValue) (t0 t : Date) :
  ACCESS_TOKEN_SECRET env <> REFRESH_TOKEN_SECRET env ->
  (forall tok, generateAccessToken env userId ap t0 = Return tok ->
               exists e, verifyRefreshToken env (Some tok) t = Throw e)
  /\ (forall tok, generateRefreshToken env userId ap t0 = Return tok ->
                  exists e, verifyAccessToken env (Some tok) t = Throw e).
Proof.
  intros Hne. split; intros tok Hgen.
  - unfold generateAccessToken in Hgen.
    destruct (truthy userId); simpl in Hgen; [|discriminate].
    apply sign_Return in Hgen as (j & -> & Hk & _).
    destruct (verifyRefreshToken env (Some (Signed j)) t) as [c | e] eqn:Hv; [|eauto].
    apply verifyRefreshToken_Return in Hv as (_ & j' & E & _ & Hk').
    inversion E; subst. congruence.
  - unfold generateRefreshToken in Hgen.
    destruct (truthy userId); simpl in Hgen; [|discriminate].
    apply sign_Return in Hgen as (j & -> & Hk & _).
    destruct (verifyAccessToken env (Some (Signed j)) t) as [c | e] eqn:Hv; [|eauto].
    apply verifyAccessToken_Return in Hv as (_ & j' & E & _ & Hk').
    inversion E; subst. congruence.
Qed.

(** ** The authentication gate and expired tokens *)

Lemma generateAccessToken_plain (env : Env) (userId : JsValue) (t0 : Date) (tok : Token) :
  generateAccessToken env userId ∅ t0 = Return tok ->
  exists j, tok = Signed j
    /\ jwt_alg j = "HS256"
    /\ jwt_key j = ACCESS_TOKEN_SECRET env
    /\ jwt_claims j !! "nbf" = None
    /\ jwt_claims j !! "exp" =
         Some (JNum (jwt.seconds t0 + default (1 * SECONDS_PER_DAY) (ACCESS_TOKEN_EXPIRY env))).
Proof.
  unfold generateAccessToken. destruct (truthy userId); simpl; [|discriminate].
  unfold jwt.sign, token_payload. rewrite (right_id_L ∅ (∪)) || rewrite (left_id_L ∅ (∪)).
  simpl. intros H. inversion H; subst. eexists; split; [reflexivity|]. simpl.
  repeat split.
Qed.

(** C3. An access token issued by [generateAccessToken] and presented in the
    [accessToken] cookie once its expiry time has passed is rejected by
    [verifyJwtToken] with the fallback answer of [handleAuthError]
    (401 "Authentication failed"), not with the answer its table keeps for
    [TokenExpiredError] (401 "Access token has expired" / "Token expired"):
    [verifyAccessToken] has already replaced the library's error by a plain
    [Error], whose name is not in the table. *)
Theorem C3_expired_token_gets_generic_failure :
  forall (env : Env) (userId : JsValue) (t0 now : Date) (tok : Token)
         (req : Request) (db : Db),
    generateAccessToken env userId ∅ t0 = Return tok ->
    cookies_accessToken req = Some tok ->
    jwt.seconds t0 + default (1 * SECONDS_PER_DAY) (ACCESS_TOKEN_EXPIRY env)
      <= jwt.seconds now ->
    AuthMiddleware.verifyJwtToken env req now db =
      (Return (AuthMiddleware.NextError
                 (ApiErr 401 "Authentication failed"
                         [("auth", "Access token has expired")])), db)
    /\ ApiErr 401 "Authentication failed" [("auth", "Access token has expired")]
       <> AuthMiddleware.handleAuthError jwt.TokenExpiredError.
Proof.
  intros env userId t0 now tok req db Hgen Hcookie Hexp.
  split; [|discriminate].
  apply generateAccessToken_plain in Hgen as (j & -> & Halg & Hkey & Hnbf & Hexpc).
  unfold AuthMiddleware.verifyJwtToken, AuthMiddleware.extractAccessToken.
  rewrite Hcookie. simpl.
  unfold verifyAccessToken, jwt.verify. simpl.
  rewrite Halg, Hkey.
  rewrite bool_decide_eq_true_2 by (apply list_elem_of_here).
  rewrite bool_decide_eq_true_2 by reflexivity. simpl.
  unfold jwt.check_nbf, jwt.check_exp. rewrite Hnbf, Hexpc.
  destruct (Z.leb_spec (jwt.seconds t0 + default (1 * SECONDS_PER_DAY) (ACCESS_TOKEN_EXPIRY env))
              (jwt.seconds now)) as [_ | Hlt]; [|lia].
  reflexivity.
Qed.

Lemma C3_expired_token_witness :
  AuthMiddleware.verifyJwtToken Sample.env
    (Sample.with_cookies (Some Sample.day_one_access_token) None)
    (2 * MS_PER_DAY) Sample.empty_db =
    (Return (AuthMiddleware.NextError
               (ApiErr 401 "Authentication failed"
                       [("auth", "Access token has expired")])), Sample.empty_db)
  /\ ApiErr 401 "Authentication failed" [("auth", "Access token has expired")]
     <> AuthMiddleware.handleAuthError jwt.TokenExpiredError.
Proof.
  apply (C3_expired_token_gets_generic_failure Sample.env (JOid 1%nat) 0
           (2 * MS_PER_DAY) Sample.day_one_access_token
           (Sample.with_cookies (Some Sample.day_one_access_token) None)
           Sample.empty_db).
  - vm_compute. reflexivity.
  - reflexivity.
  - vm_compute. discriminate.
Defined.

(** C5. With the access and the refresh secret set to the same value, an
    access token issued with the additional payload [{ type: 'refresh' }]
    is accepted by [verifyRefreshToken], and a refresh token issued with
    [{ type: 'access' }] is accepted by [verifyAccessToken]: the spread of
    the additional payload overwrites the [type] the issuer has just set. *)
Theorem C5_type_override_crosses_kinds :
  (exists tok claims,
     generateAccessToken Sample.shared_secret_env (JOid 7%nat)
       {[ "type" := JStr "refresh" ]} 1000 = Return tok
     /\ verifyRefreshToken Sample.shared_secret_env (Some tok) 2000 = Return claims)
  /\ (exists tok claims,
        generateRefreshToken Sample.shared_secret_env (JOid 7%nat)
          {[ "type" := JStr "access" ]} 1000 = Return tok
        /\ verifyAccessToken Sample.shared_secret_env (Some tok) 2000 = Return claims).
Proof.
  split.
  - eexists _, _. split; vm_compute; reflexivity.
  - eexists _, _. split; vm_compute; reflexivity.
Qed.

Lemma C8_logout_without_refresh_cookie_witness :
  exists body db',
    Routes.post_logout Sample.env Sample.sch Sample.bare_request 1000
      (mkDb [Sample.alice] [] 1%nat) =
      (Return {| res_cookies := LogoutUser.clearAuthCookies;
                 res_reply := SendJson 200 body |}, db')
    /\ property "sessionsDeleted" body = Some (JVal (JNum 0)).
Proof.
  apply (C8_logout_without_refresh_cookie_succeeds Sample.env Sample.sch
           Sample.bare_request 1000 (mkDb [Sample.alice] [] 1%nat)).
  reflexivity.
Defined.


(** ** Invariants carried through the monad *)

Section Preserves.
Context (I : Db -> Prop).

Lemma preserves_ret {A} (a : A) : preserves I (ret a).
Proof. intros db H. exact H. Qed.

Lemma preserves_throw {A} (e : Exn) : preserves I (@throw A e).
Proof. intros db H. exact H. Qed.

Lemma preserves_lift {A} (o : Outcome A) : preserves I (lift o).
Proof. intros db H. exact H. Qed.

Lemma preserves_gets {A} (f : Db -> A) : preserves I (gets f).
Proof. intros db H. exact H. Qed.

Lemma preserves_bind {A B} (m : M A) (k : A -> M B) :
  preserves I m -> (forall a, preserves I (k a)) -> preserves I (bind m k).
Proof.
  intros Hm Hk db H. unfold bind. specialize (Hm db H).
  destruct (m db) as [[a | e] db1]; simpl in *; [by apply Hk | done].
Qed.

Lemma preserves_try_catch {A} (m : M A) (h : Exn -> M A) :
  preserves I m -> (forall e, preserves I (h e)) -> preserves I (try_catch m h).
Proof.
  intros Hm Hh db H. unfold try_catch. specialize (Hm db H).
  destruct (m db) as [[a | e] db1]; simpl in *; [done | by apply Hh].
Qed.
End Preserves.

(** Steps of a handler are taken apart down to the store operations. *)
Ltac preserves_step :=
  first
    [ apply preserves_ret | apply preserves_throw | apply preserves_lift
    | apply preserves_gets
    | apply preserves_bind; [| intros ?]
    | apply preserves_try_catch; [| intros ?]
    | match goal with
      | |- preserves _ (if ?b then _ else _) => destruct b
      | |- preserves _ (match ?x with _ => _ end) => destruct x
      | |- preserves _ (let _ := _ in _) => cbv zeta
      end ].

(** ** The counter is never negative *)

Lemma validate_loginCount (sch : UserModel.Schema) (u : User.t) :
  UserModel.validate sch u = None -> 0 <= User.loginCount u.
Proof.
  unfold UserModel.validate. intros H.
  repeat match type of H with
         | (if ?b then _ else _) = _ => destruct b eqn:?; [discriminate|]
         end.
  lia.
Qed.

Lemma Forall_Collection_save {D} (Q : D -> Prop) (id : D -> ObjectId) (doc : D) (c : list D) :
  Q doc -> Forall Q c -> Forall Q (Collection.save id doc c).
Proof.
  intros Hdoc Hc. unfold Collection.save. apply Forall_fmap.
  eapply Forall_impl; [exact Hc|]. intros d Hd. simpl. by case_decide.
Qed.

Lemma counters_save (sch : UserModel.Schema) (u : User.t) :
  preserves counters_nonneg (UserModel.save sch u).
Proof.
  intros db H. unfold UserModel.save.
  destruct (UserModel.validate sch u) eqn:Hv; [exact H|].
  simpl. apply Forall_Collection_save; [|exact H].
  by apply validate_loginCount with sch.
Qed.

Lemma counters_create (sch : UserModel.Schema) (provider : Provider)
    (id email name avatar : string) (now : Date) :
  preserves counters_nonneg (UserModel.create sch provider id email name avatar now).
Proof.
  intros db H. unfold UserModel.create.
  destruct (UserModel.validate sch _) eqn:Hv; [exact H|].
  case_bool_decide; [exact H|]. simpl.
  apply Forall_app. split; [exact H|].
  apply Forall_singleton. apply validate_loginCount in Hv. exact Hv.
Qed.

Lemma keeps_users_preserves {A} (m : M A) (Q : list User.t -> Prop) :
  keeps_users m -> preserves (fun db => Q (users db)) m.
Proof. intros Hm db H. by rewrite Hm. Qed.

Lemma keeps_users_deleteMany (P : Session.t -> Prop) `{!forall s, Decision (P s)} :
  keeps_users (SessionModel.deleteMany P).
Proof. intros db. reflexivity. Qed.

Lemma keeps_users_deleteOne (P : Session.t -> Prop) `{!forall s, Decision (P s)} :
  keeps_users (SessionModel.deleteOne P).
Proof.
  intros db. unfold SessionModel.deleteOne.
  by destruct (Collection.deleteOne P (sessions db)).
Qed.

Lemma keeps_users_updateMany (P : Session.t -> Prop) `{!forall s, Decision (P s)}
    (f : Session.t -> Session.t) :
  keeps_users (SessionModel.updateMany P f).
Proof. intros db. reflexivity. Qed.

Lemma keeps_users_session_save (s : Session.t) : keeps_users (SessionModel.save s).
Proof. intros db. reflexivity. Qed.

Lemma keeps_users_session_create (userId : ObjectId) (rt at' : Token) (p : Provider)
    (d : Session.DeviceInfo) (e : Date) (a : bool) (l : Date) :
  keeps_users (SessionModel.create userId rt at' p d e a l).
Proof. intros db. unfold SessionModel.create. by case_bool_decide. Qed.

Ltac counters_step :=
  first
    [ apply counters_save | apply counters_create
    | apply (keeps_users_preserves _ (Forall (fun u => 0 <= User.loginCount u)));
      first [ apply keeps_users_deleteMany | apply keeps_users_deleteOne
            | apply keeps_users_updateMany | apply keeps_users_session_save
            | apply keeps_users_session_create ]
    | preserves_step ].

Lemma counters_findById (id : JsValue) : preserves counters_nonneg (UserModel.findById id).
Proof. unfold UserModel.findById, UserModel.findOne. repeat counters_step. Qed.

Lemma counters_login (env : Env) (sch : UserModel.Schema)
    (cfg : LoginOrCreateUser.SessionConfig) (p : LoginOrCreateUser.Params) (now : Date) :
  preserves counters_nonneg (LoginOrCreateUser.loginOrCreateUser env sch cfg p now).
Proof.
  unfold LoginOrCreateUser.loginOrCreateUser, LoginOrCreateUser.findExistingUser,
    LoginOrCreateUser.createNewUser, LoginOrCreateUser.updateUserProviderData,
    LoginOrCreateUser.performSessionCleanup, LoginOrCreateUser.createUserSession,
    UserModel.updateLoginInfo, UserModel.findOne, SessionModel.cleanExpiredSessions,
    SessionModel.deactivateOldSessions, SessionModel.getActiveSessions, SessionModel.find.
  repeat counters_step.
Qed.

Lemma counters_logout (env : Env) (sch : UserModel.Schema) (req : Request) (now : Date) :
  preserves counters_nonneg (LogoutUser.logout env sch req now).
Proof.
  unfold LogoutUser.logout, LogoutUser.deleteSessionAndUpdateCount,
    LogoutUser.cleanupExpiredSessions, UserModel.decrementLoginCount.
  repeat first [ apply counters_findById | counters_step ].
Qed.

Lemma counters_logoutAllDevices (env : Env) (sch : UserModel.Schema) (req : Request) (now : Date) :
  preserves counters_nonneg (LogoutUser.logoutAllDevices env sch req now).
Proof.
  unfold LogoutUser.logoutAllDevices, SessionModel.findOne.
  repeat first [ apply counters_findById | counters_step ].
Qed.

Lemma counters_verifyJwtToken (env : Env) (req : Request) (now : Date) :
  preserves counters_nonneg (AuthMiddleware.verifyJwtToken env req now).
Proof.
  unfold AuthMiddleware.verifyJwtToken, AuthMiddleware.validateUserSession,
    SessionModel.findOne.
  repeat first [ apply counters_findById | counters_step ].
Qed.

Lemma counters_protected (env : Env) (req : Request) (now : Date)
    (handler : User.t -> AuthMiddleware.TokenInfo -> M Res) :
  (forall u ti, preserves counters_nonneg (handler u ti)) ->
  preserves counters_nonneg (Routes.protected env req now handler).
Proof.
  intros Hh. unfold Routes.protected.
  apply preserves_bind; [apply counters_verifyJwtToken|].
  intros [u ti | e]; [|apply preserves_ret].
  apply preserves_try_catch; [apply Hh | intros ?; apply preserves_ret].
Qed.

Lemma counters_logoutAllOtherDevices (sch : UserModel.Schema) (u : User.t)
    (ti : AuthMiddleware.TokenInfo) :
  preserves counters_nonneg (UserControllers.logoutAllOtherDevices sch u ti).
Proof.
  unfold UserControllers.logoutAllOtherDevices, SessionService.invalidateAllOtherSessions.
  repeat first [ apply counters_findById | counters_step ].
Qed.

Lemma counters_serve (env : Env) (sch : UserModel.Schema)
    (cfg : LoginOrCreateUser.SessionConfig) (c : Call) (now : Date) :
  preserves counters_nonneg (serve env sch cfg c now).
Proof.
  destruct c; simpl; (apply preserves_bind; [| intros ?; apply preserves_ret]).
  - apply counters_login.
  - apply counters_logout.
  - apply counters_protected. intros ? ?. apply counters_logoutAllDevices.
  - apply counters_protected. intros ? ?. apply counters_logoutAllOtherDevices.
  - unfold SessionCleanup.cleanupExpiredSessions. intros db H.
    by rewrite cleanupExpiredSessions_rec_run.
Qed.

(** The methods and assignments that write the counter, on a counter that
    is not negative. *)
Lemma counter_writes_nonneg (u : User.t) :
  0 <= User.loginCount u ->
  0 <= User.loginCount (User.set_loginCount (User.loginCount u + 1) u)
  /\ 0 <= User.loginCount
            (if 0 <? User.loginCount u
             then User.set_loginCount (User.loginCount u - 1) u else u)
  /\ 0 <= User.loginCount (User.set_loginCount 1 u)
  /\ 0 <= User.loginCount (User.set_loginCount 0 u).
Proof.
  intros H. repeat split; simpl; try lia.
  destruct (Z.ltb_spec 0 (User.loginCount u)); simpl; lia.
Qed.

(** C9. Each call that reaches the store (login, logout of the current
    session, logout of all other sessions, logout of all sessions, periodic
    cleanup) leaves every user's [loginCount] at least zero if it was so
    before; hence so does every run of calls, in particular every run
    from a store without users.  The four writes of the counter
    (increment, floored decrement, reset to 1, reset to 0) keep a
    non-negative counter non-negative. *)
Theorem C9_login_count_never_negative :
  forall (env : Env) (sch : UserModel.Schema) (cfg : LoginOrCreateUser.SessionConfig),
    (forall (c : Call) (now : Date) (db : Db),
        counters_nonneg db -> counters_nonneg (serve env sch cfg c now db).2)
    /\ (forall (calls : list (Call * Date)) (db : Db),
          counters_nonneg db -> counters_nonneg (run env sch cfg calls db))
    /\ (forall (calls : list (Call * Date)) (ss : list Session.t) (n : ObjectId),
          counters_nonneg (run env sch cfg calls (mkDb [] ss n)))
    /\ (forall u : User.t,
          0 <= User.loginCount u ->
          0 <= User.loginCount (User.set_loginCount (User.loginCount u + 1) u)
          /\ 0 <= User.loginCount
                    (if 0 <? User.loginCount u
                     then User.set_loginCount (User.loginCount u - 1) u else u)
          /\ 0 <= User.loginCount (User.set_loginCount 1 u)
          /\ 0 <= User.loginCount (User.set_loginCount 0 u)).
Proof.
  intros env sch cfg.
  assert (Hrun : forall calls db,
             counters_nonneg db -> counters_nonneg (run env sch cfg calls db)).
  { induction calls as [| [c now] calls IH]; intros db H; simpl; [exact H|].
    apply IH. by apply counters_serve. }
  split; [intros c now db; apply counters_serve|].
  split; [exact Hrun|].
  split; [|exact counter_writes_nonneg].
  intros calls ss n. apply Hrun. constructor.
Qed.

(** ** Running binds *)

Lemma bind_Return {A B} (m : M A) (k : A -> M B) (db db1 : Db) (a : A) :
  m db = (Return a, db1) -> bind m k db = k a db1.
Proof. intros H. unfold bind. by rewrite H. Qed.

Lemma bind_Throw {A B} (m : M A) (k : A -> M B) (db db1 : Db) (e : Exn) :
  m db = (Throw e, db1) -> bind m k db = (Throw e, db1).
Proof. intros H. unfold bind. by rewrite H. Qed.

Lemma bind_assoc {A B C} (m : M A) (k1 : A -> M B) (k2 : B -> M C) (db : Db) :
  bind (bind m k1) k2 db = bind m (fun a => bind (k1 a) k2) db.
Proof.
  unfold bind. destruct (m db) as [[a | e] db1]; [|reflexivity].
  reflexivity.
Qed.

(** ** The two phases of a login *)

Lemma login_phases (env : Env) (sch : UserModel.Schema)
    (cfg : LoginOrCreateUser.SessionConfig) (p : LoginOrCreateUser.Params)
    (now : Date) (db : Db) :
  LoginOrCreateUser.id p <> "" -> LoginOrCreateUser.email p <> "" ->
  LoginOrCreateUser.loginOrCreateUser env sch cfg p now db =
    match user_phase sch p now db with
    | (Throw e, db1) => (Return (login_failure env p e), db1)
    | (Return user, db1) =>
        match session_phase env cfg p user now db1 with
        | (Throw e, db2) => (Return (login_failure env p e), db2)
        | (Return r, db2) => (Return r, db2)
        end
    end.
Proof.
  intros Hid Hem.
  unfold LoginOrCreateUser.loginOrCreateUser.
  rewrite (proj2 (String.eqb_neq _ _) Hid), (proj2 (String.eqb_neq _ _) Hem). simpl.
  unfold try_catch.
  rewrite <- bind_assoc. rewrite <- bind_assoc.
  unfold bind at 1. rewrite bind_assoc.
  fold (user_phase sch p now).
  destruct (user_phase sch p now db) as [[user | e] db1].
  - fold (session_phase env cfg p user now).
    destruct (session_phase env cfg p user now db1) as [[r | e] db2]; [reflexivity|].
    unfold login_failure, ret. repeat case_match; reflexivity.
  - unfold login_failure, ret. repeat case_match; reflexivity.
Qed.

(** ** The user phase on an existing user *)

Lemma validate_set_providerId (sch : UserModel.Schema) (p : Provider) (id : string) (u : User.t) :
  UserModel.validate sch (User.set_providerId p id u) = UserModel.validate sch u.
Proof. destruct p; reflexivity. Qed.

Lemma validate_login_info (sch : UserModel.Schema) (now : Date) (u : User.t) :
  UserModel.validate sch u = None ->
  UserModel.validate sch
    (User.set_loginCount (User.loginCount (User.set_lastLoginAt now u) + 1)
       (User.set_lastLoginAt now u)) = None.
Proof.
  unfold UserModel.validate. simpl. intros H.
  repeat match type of H with
         | (if ?b then _ else _) = _ => destruct b eqn:?; [discriminate|]
         end.
  destruct (Z.ltb_spec (User.loginCount u + 1) 0); [lia | reflexivity].
Qed.

Lemma findOne_Some {D} (P : D -> Prop) `{!forall d, Decision (P d)} (c : list D) (d : D) :
  Collection.findOne P c = Some d -> d ∈ c /\ P d.
Proof.
  unfold Collection.findOne. intros Hhead. apply head_Some_elem_of in Hhead.
  apply list_elem_of_filter in Hhead. tauto.
Qed.

Lemma save_save {D} (id : D -> ObjectId) (d1 d2 : D) (c : list D) :
  id d1 = id d2 ->
  Collection.save id d2 (Collection.save id d1 c) = Collection.save id d2 c.
Proof.
  intros Hid. unfold Collection.save. rewrite <- list_fmap_compose.
  apply list_fmap_ext. intros i d _. simpl.
  destruct (decide (id d = id d1)) as [E | NE].
  - rewrite decide_True by done. rewrite decide_True by congruence. done.
  - done.
Qed.

Lemma set_providerId_id (p : Provider) (id : string) (u : User.t) :
  User._id (User.set_providerId p id u) = User._id u.
Proof. destruct p; reflexivity. Qed.

Lemma user_phase_existing (sch : UserModel.Schema) (p : LoginOrCreateUser.Params)
    (now : Date) (db : Db) (u : User.t) :
  Collection.findOne
    (fun u => User.providerId (LoginOrCreateUser.provider p) u = Some (LoginOrCreateUser.id p)
              \/ User.email u = UserModel.set_email (LoginOrCreateUser.email p)) (users db) = Some u ->
  UserModel.validate sch u = None ->
  user_phase sch p now db =
    (Return (logged_in p now u),
     set_users (Collection.save User._id (logged_in p now u) (users db)) db).
Proof.
  intros Hfind Hval.
  unfold user_phase, LoginOrCreateUser.findExistingUser, UserModel.findOne.
  unfold bind at 1. unfold gets. rewrite Hfind.
  unfold LoginOrCreateUser.updateUserProviderData, logged_in.
  destruct (UserModel.hasProvider u (LoginOrCreateUser.provider p)); simpl.
  - unfold bind, ret, UserModel.updateLoginInfo, UserModel.save.
    rewrite validate_login_info by done. reflexivity.
  - unfold bind at 1. unfold UserModel.save at 1.
    rewrite validate_set_providerId, Hval.
    unfold bind at 1, modify, ret, UserModel.updateLoginInfo, UserModel.save.
    rewrite validate_login_info by (by rewrite validate_set_providerId).
    unfold bind, modify, ret. simpl. f_equal.
    unfold set_users. simpl. f_equal.
    apply save_save. simpl. by rewrite set_providerId_id.
Qed.

(** ** The session phase *)

Lemma deactivateOldSessions_run (userId : ObjectId) (maxSessions : Z) (now : Date) (db : Db) :
  SessionModel.deactivateOldSessions userId maxSessions now db =
    (Return tt, set_sessions (deactivated userId maxSessions now (sessions db)) db).
Proof.
  unfold SessionModel.deactivateOldSessions, SessionModel.getActiveSessions,
    SessionModel.find, deactivated, ranked, bind, gets, ret. simpl.
  unfold Collection.find.
  destruct (maxSessions <=? _); [reflexivity|]. by destruct db.
Qed.

Lemma performSessionCleanup_run (cfg : LoginOrCreateUser.SessionConfig)
    (userId : ObjectId) (now : Date) (db : Db) :
  LoginOrCreateUser.performSessionCleanup cfg userId now db =
    (Return tt,
     set_sessions
       (deactivated userId (LoginOrCreateUser.MAX_SESSIONS_PER_USER cfg) now
          (cleaned cfg now (sessions db))) db).
Proof.
  unfold LoginOrCreateUser.performSessionCleanup, cleaned.
  destruct (LoginOrCreateUser.CLEANUP_EXPIRED_ON_LOGIN cfg).
  - unfold bind at 1. unfold bind at 1. rewrite cleanExpiredSessions_run.
    unfold ret at 1. rewrite deactivateOldSessions_run. reflexivity.
  - unfold bind at 1, ret at 1. rewrite deactivateOldSessions_run. by destruct db.
Qed.

Lemma generateTokens_ok (env : Env) (userId : ObjectId) (now : Date) :
  exists ja jr,
    generateTokens env (JOid userId) ∅ now =
      Return {| tp_accessToken := Signed ja; tp_refreshToken := Signed jr |}
    /\ jwt_claims ja !! "_id" = Some (JOid userId)
    /\ jwt_claims jr !! "_id" = Some (JOid userId)
    /\ jwt_claims jr !! "iat" = Some (JNum (jwt.seconds now)).
Proof.
  unfold generateTokens, generateAccessToken, generateRefreshToken, jwt.sign, token_payload.
  simpl. rewrite !(left_id_L ∅ (∪)). simpl.
  eexists _, _. split; [reflexivity|]. simpl. repeat split.
Qed.

Lemma session_phase_run (env : Env) (cfg : LoginOrCreateUser.SessionConfig)
    (p : LoginOrCreateUser.Params) (user : User.t) (now : Date) (db : Db) :
  exists tokens,
    generateTokens env (JOid (User._id user)) ∅ now = Return tokens
    /\ session_phase env cfg p user now db =
         let ss := deactivated (User._id user)
                     (LoginOrCreateUser.MAX_SESSIONS_PER_USER cfg) now
                     (cleaned cfg now (sessions db)) in
         if bool_decide (Exists (fun s => Session.refreshToken s = tp_refreshToken tokens) ss)
         then (Throw DuplicateKeyError, set_sessions ss db)
         else (Return (login_success env cfg p tokens),
               mkDb (users db)
                 (ss ++ [new_session cfg p (User._id user) tokens now (nextId db)])
                 (S (nextId db))).
Proof.
  destruct (generateTokens_ok env (User._id user) now) as (ja & jr & Hgen & _).
  eexists. split; [exact Hgen|].
  unfold session_phase. unfold bind at 1. rewrite performSessionCleanup_run.
  unfold bind at 1, lift. rewrite Hgen.
  unfold bind at 1, LoginOrCreateUser.createUserSession, SessionModel.create. simpl.
  case_bool_decide; reflexivity.
Qed.

Lemma session_phase_keeps_users (env : Env) (cfg : LoginOrCreateUser.SessionConfig)
    (p : LoginOrCreateUser.Params) (user : User.t) (now : Date) :
  keeps_users (session_phase env cfg p user now).
Proof.
  intros db. destruct (session_phase_run env cfg p user now db) as (tokens & _ & ->).
  simpl. case_bool_decide; reflexivity.
Qed.

Lemma login_users (env : Env) (sch : UserModel.Schema)
    (cfg : LoginOrCreateUser.SessionConfig) (p : LoginOrCreateUser.Params)
    (now : Date) (db : Db) :
  LoginOrCreateUser.id p <> "" -> LoginOrCreateUser.email p <> "" ->
  users (LoginOrCreateUser.loginOrCreateUser env sch cfg p now db).2 =
    users (user_phase sch p now db).2.
Proof.
  intros Hid Hem. rewrite login_phases by done.
  destruct (user_phase sch p now db) as [[user | e] db1]; [|reflexivity].
  pose proof (session_phase_keeps_users env cfg p user now db1) as Hk.
  destruct (session_phase env cfg p user now db1) as [[r | e] db2]; exact Hk.
Qed.

Lemma findExistingUser_Some (provider : Provider) (id email : string) (db : Db) (u : User.t) :
  LoginOrCreateUser.findExistingUser provider id email db = (Return (Some u), db) ->
  Collection.findOne
    (fun u => User.providerId provider u = Some id
              \/ User.email u = UserModel.set_email email) (users db)
    = Some u.
Proof.
  unfold LoginOrCreateUser.findExistingUser, UserModel.findOne, gets. congruence.
Qed.

Lemma elem_of_save_same_id {D} (id : D -> ObjectId) (doc d : D) (c : list D) :
  d ∈ Collection.save id doc c -> id d = id doc -> d = doc.
Proof.
  unfold Collection.save. intros Hin Hid.
  apply list_elem_of_fmap in Hin as (d0 & -> & _).
  case_decide; [reflexivity | congruence].
Qed.

Lemma elem_of_save_doc {D} (id : D -> ObjectId) (doc d : D) (c : list D) :
  d ∈ c -> id d = id doc -> doc ∈ Collection.save id doc c.
Proof.
  unfold Collection.save. intros Hin Hid.
  apply list_elem_of_fmap. exists d. by rewrite decide_True.
Qed.

Lemma logged_in_id (p : LoginOrCreateUser.Params) (now : Date) (u : User.t) :
  User._id (logged_in p now u) = User._id u.
Proof.
  unfold logged_in. destruct (UserModel.hasProvider _ _); simpl; [done|].
  apply set_providerId_id.
Qed.

Lemma providerId_set (p : Provider) (id : string) (u : User.t) :
  User.providerId p (User.set_providerId p id u) = Some id.
Proof. destruct p; reflexivity. Qed.

Lemma providerId_login_info (p : Provider) (n : Z) (d : Date) (u : User.t) :
  User.providerId p (User.set_loginCount n (User.set_lastLoginAt d u)) = User.providerId p u.
Proof. destruct p; reflexivity. Qed.

(** C6. When the lookup of [loginOrCreateUser] returns an existing,
    schema-valid user who has no id stored for the provider of the login,
    that user was matched by email: the stored address is the address of
    the login in lower case and trimmed, the form the schema gives it in
    the filter.  After the call the user collection is the old one with
    that user's document replaced by the same document carrying the
    provider id of the login (and the login time and count): no document
    is added or removed, and every document with that user's [_id] has the
    provider id set and the address it had. *)
Theorem C6_existing_user_gets_provider_id_backfilled :
  forall (env : Env) (sch : UserModel.Schema) (cfg : LoginOrCreateUser.SessionConfig)
         (p : LoginOrCreateUser.Params) (now : Date) (db : Db) (u : User.t),
    LoginOrCreateUser.id p <> "" ->
    LoginOrCreateUser.email p <> "" ->
    LoginOrCreateUser.findExistingUser (LoginOrCreateUser.provider p)
      (LoginOrCreateUser.id p) (LoginOrCreateUser.email p) db = (Return (Some u), db) ->
    UserModel.hasProvider u (LoginOrCreateUser.provider p) = false ->
    UserModel.validate sch u = None ->
    let db' := (LoginOrCreateUser.loginOrCreateUser env sch cfg p now db).2 in
    User.email u = UserModel.set_email (LoginOrCreateUser.email p)
    /\ users db' =
         map (fun d => if decide (User._id d = User._id u)
                       then User.set_loginCount (User.loginCount u + 1)
                              (User.set_lastLoginAt now
                                 (User.set_providerId (LoginOrCreateUser.provider p)
                                    (LoginOrCreateUser.id p) u))
                       else d) (users db)
    /\ length (users db') = length (users db)
    /\ (exists u', u' ∈ users db' /\ User._id u' = User._id u)
    /\ (forall u', u' ∈ users db' -> User._id u' = User._id u ->
                   User.providerId (LoginOrCreateUser.provider p) u'
                     = Some (LoginOrCreateUser.id p)
                   /\ User.email u' = User.email u).
Proof.
  intros env sch cfg p now db u Hid Hem Hfind Hhas Hval db'.
  apply findExistingUser_Some in Hfind.
  assert (Husers : users db' = Collection.save User._id (logged_in p now u) (users db)).
  { subst db'. rewrite login_users by done.
    by rewrite (user_phase_existing sch p now db u). }
  assert (Hdoc : logged_in p now u =
                 User.set_loginCount (User.loginCount u + 1)
                   (User.set_lastLoginAt now
                      (User.set_providerId (LoginOrCreateUser.provider p)
                         (LoginOrCreateUser.id p) u))).
  { unfold logged_in. rewrite Hhas. simpl.
    by destruct (LoginOrCreateUser.provider p). }
  destruct (findOne_Some _ _ _ Hfind) as [Hin Hmatch].
  split.
  { destruct Hmatch as [Hprov | Hemail]; [|exact Hemail].
    unfold UserModel.hasProvider in Hhas. rewrite Hprov in Hhas.
    apply negb_false_iff, String.eqb_eq in Hhas. contradiction. }
  split.
  { rewrite Husers, <- Hdoc. unfold Collection.save.
    apply list_fmap_ext. intros i d _. cbv beta.
    pose proof (logged_in_id p now u) as E.
    destruct (decide (User._id d = User._id (logged_in p now u))),
      (decide (User._id d = User._id u)); congruence. }
  split.
  { rewrite Husers. unfold Collection.save. apply length_fmap. }
  split.
  { exists (logged_in p now u). split; [|apply logged_in_id].
    rewrite Husers. apply elem_of_save_doc with u; [done|].
    symmetry. apply logged_in_id. }
  intros u' Hin' Hid'. rewrite Husers in Hin'.
  apply elem_of_save_same_id in Hin'; [|by rewrite logged_in_id].
  subst u'. rewrite Hdoc. rewrite providerId_login_info, providerId_set.
  split; [done|]. by destruct (LoginOrCreateUser.provider p).
Qed.

(** C10. When the lookup of [loginOrCreateUser] returns an existing,
    schema-valid user who already has an id stored for the provider of the
    login, the call leaves that id as it is, whatever id the login carries:
    the user's document only gets the new login time and count.  The login
    goes on for that user: the session phase runs with the user's [_id], and
    unless the refresh token collides with a stored one, the reply is the
    success redirect and a session owned by the user is appended. *)
Theorem C10_stored_provider_id_is_kept :
  forall (env : Env) (sch : UserModel.Schema) (cfg : LoginOrCreateUser.SessionConfig)
         (p : LoginOrCreateUser.Params) (now : Date) (db : Db) (u : User.t),
    LoginOrCreateUser.id p <> "" ->
    LoginOrCreateUser.email p <> "" ->
    LoginOrCreateUser.findExistingUser (LoginOrCreateUser.provider p)
      (LoginOrCreateUser.id p) (LoginOrCreateUser.email p) db = (Return (Some u), db) ->
    UserModel.hasProvider u (LoginOrCreateUser.provider p) = true ->
    UserModel.validate sch u = None ->
    let result := LoginOrCreateUser.loginOrCreateUser env sch cfg p now db in
    users result.2 =
      map (fun d => if decide (User._id d = User._id u)
                    then User.set_loginCount (User.loginCount u + 1)
                           (User.set_lastLoginAt now u)
                    else d) (users db)
    /\ (forall u', u' ∈ users result.2 -> User._id u' = User._id u ->
                   User.providerId (LoginOrCreateUser.provider p) u'
                     = User.providerId (LoginOrCreateUser.provider p) u)
    /\ (exists tokens,
          generateTokens env (JOid (User._id u)) ∅ now = Return tokens
          /\ ((result.1 = Return (login_success env cfg p tokens)
               /\ exists ss,
                    sessions result.2 =
                      ss ++ [new_session cfg p (User._id u) tokens now (nextId db)])
              \/ result.1 = Return (login_failure env p DuplicateKeyError))).
Proof.
  intros env sch cfg p now db u Hid Hem Hfind Hhas Hval result.
  apply findExistingUser_Some in Hfind.
  assert (Hdoc : logged_in p now u =
                 User.set_loginCount (User.loginCount u + 1) (User.set_lastLoginAt now u)).
  { unfold logged_in. by rewrite Hhas. }
  assert (Hphase := user_phase_existing sch p now db u Hfind Hval).
  assert (Husers : users result.2 = Collection.save User._id (logged_in p now u) (users db)).
  { subst result. rewrite login_users by done. by rewrite Hphase. }
  split.
  { rewrite Husers, Hdoc. reflexivity. }
  split.
  { intros u' Hin' Hid'. rewrite Husers in Hin'.
    apply elem_of_save_same_id in Hin'; [|by rewrite logged_in_id].
    subst u'. rewrite Hdoc. apply providerId_login_info. }
  subst result. rewrite login_phases by done. rewrite Hphase.
  destruct (session_phase_run env cfg p (logged_in p now u) now
              (set_users (Collection.save User._id (logged_in p now u) (users db)) db))
    as (tokens & Hgen & Hrun).
  rewrite logged_in_id in Hgen, Hrun.
  exists tokens. split; [exact Hgen|].
  rewrite Hrun. cbv zeta. case_bool_decide.
  - right. reflexivity.
  - left. split; [reflexivity|]. simpl. eauto.
Qed.

(** ** Logout of the current session: what is deleted and what is counted *)

Section DeleteOne.
Context {D : Type} (P : D -> Prop) `{!forall d, Decision (P d)}.

Lemma deleteOne_none (c : list D) :
  (forall d, d ∈ c -> ~ P d) -> Collection.deleteOne P c = (c, 0).
Proof.
  induction c as [| d c IH]; intros Hno; simpl; [reflexivity|].
  rewrite decide_False by (apply Hno; left).
  rewrite IH; [reflexivity|]. intros d' Hd'. apply Hno. by right.
Qed.

(** With a single match, [deleteOne] removes exactly that document. *)
Lemma deleteOne_single (c : list D) (d : D) :
  d ∈ c -> P d -> (forall d', d' ∈ c -> P d' -> d' = d) -> NoDup c ->
  exists c', Collection.deleteOne P c = (c', 1)
             /\ (forall x, x ∈ c' <-> x ∈ c /\ x <> d).
Proof.
  induction c as [| a c IH]; intros Hin HP Huniq Hnd; [by apply elem_of_nil in Hin|].
  apply NoDup_cons in Hnd as [Ha Hnd]. simpl.
  destruct (decide (P a)) as [HPa | HPa].
  - assert (a = d) as -> by (apply Huniq; [left | done]).
    exists c. split; [reflexivity|]. intros x. rewrite elem_of_cons.
    split; [intros Hx; split; [by right | congruence] | intros [[-> | Hx] Hne]; done].
  - assert (Hin' : d ∈ c).
    { apply elem_of_cons in Hin as [-> | Hin]; [contradiction | done]. }
    destruct IH as (c' & Hrun & Hmem); [done | done | | done |].
    { intros d' Hd'. apply Huniq. by right. }
    rewrite Hrun. exists (a :: c'). split; [reflexivity|].
    intros x. rewrite !elem_of_cons, Hmem.
    split; [intros [-> | [Hx Hne]]; [split; [by left | congruence] | split; [by right | done]]
           | intros [[-> | Hx] Hne]; [by left | by right]].
Qed.

Lemma deleteOne_count (c : list D) :
  (Collection.deleteOne P c).2 = 0 \/ (Collection.deleteOne P c).2 = 1.
Proof.
  induction c as [| a c IH]; simpl; [by left|].
  destruct (decide (P a)); [by right|].
  destruct (Collection.deleteOne P c) as [r k]. exact IH.
Qed.
End DeleteOne.

Lemma NoDup_fmap_same {A B} (f : A -> B) (l : list A) (x y : A) :
  NoDup (f <$> l) -> x ∈ l -> y ∈ l -> f x = f y -> x = y.
Proof.
  induction l as [| a l IH]; intros Hnd Hx Hy Hf; [by apply elem_of_nil in Hx|].
  rewrite fmap_cons in Hnd. apply NoDup_cons in Hnd as [Ha Hnd].
  apply elem_of_cons in Hx as [-> | Hx]; apply elem_of_cons in Hy as [-> | Hy].
  - reflexivity.
  - exfalso. apply Ha. rewrite Hf. by apply list_elem_of_fmap_2.
  - exfalso. apply Ha. rewrite <- Hf. by apply list_elem_of_fmap_2.
  - by apply IH.
Qed.

Lemma decremented_floor (u : User.t) :
  0 <= User.loginCount u ->
  decremented u = User.set_loginCount (Z.max 0 (User.loginCount u - 1)) u.
Proof.
  intros H. unfold decremented.
  destruct (Z.ltb_spec 0 (User.loginCount u)).
  - f_equal. lia.
  - assert (User.loginCount u = 0) as E by lia.
    replace (Z.max 0 (User.loginCount u - 1)) with (User.loginCount u) by lia.
    by destruct u.
Qed.

Lemma deleteSessionAndUpdateCount_run (sch : UserModel.Schema) (rt : Token)
    (userId : JsValue) (db : Db) :
  let deleted :=
    Collection.deleteOne
      (fun s => Session.refreshToken s = rt /\ Session.isActive s = true) (sessions db) in
  exists n,
    LogoutUser.deleteSessionAndUpdateCount sch rt userId db =
      (Return n,
       mkDb (users_after_count sch deleted.2 userId (users db)) deleted.1 (nextId db)).
Proof.
  intros deleted.
  unfold LogoutUser.deleteSessionAndUpdateCount, try_catch.
  unfold bind at 1. unfold SessionModel.deleteOne at 1.
  fold deleted. destruct deleted as [rest n] eqn:Hdel. simpl.
  unfold users_after_count.
  destruct ((0 <? n) && truthy userId) eqn:Hc.
  - unfold UserModel.findById, UserModel.findOne, UserModel.decrementLoginCount,
      UserModel.save.
    fold (decremented).
    destruct userId; simpl in *; try discriminate;
      try (eexists; reflexivity).
    unfold bind, lift, gets, ret, modify, set_sessions, set_users. simpl.
    destruct (Collection.findOne _ (users db)) as [u |]; [|eexists; reflexivity].
    fold (decremented u).
    destruct (UserModel.validate sch (decremented u)); eexists; reflexivity.
  - unfold bind, ret, set_sessions. simpl. eexists; reflexivity.
Qed.

Lemma logout_cleanup_run (userId : JsValue) (now : Date) (db : Db) :
  exists n ss',
    LogoutUser.cleanupExpiredSessions userId now db = (Return n, set_sessions ss' db)
    /\ (forall x, x ∈ ss' -> x ∈ sessions db)
    /\ (forall x, x ∈ sessions db -> Session.isActive x = true ->
                  now <= Session.expiresAt x -> x ∈ ss').
Proof.
  unfold LogoutUser.cleanupExpiredSessions, try_catch, bind, lift.
  destruct (castObjectId userId) as [o | e]; simpl.
  - eexists _, _. split; [reflexivity|]. split.
    + intros x Hx. apply list_elem_of_filter in Hx. tauto.
    + intros x Hx Hact Hexp. apply list_elem_of_filter. split; [|done].
      unfold SessionModel.expired_or_inactive. intros [_ [H | H]]; [lia | congruence].
  - exists 0, (sessions db). split; [by destruct db|]. auto.
Qed.

Lemma logout_run (env : Env) (sch : UserModel.Schema) (req : Request) (now : Date)
    (db : Db) (rt : Token) :
  cookies_refreshToken req = Some rt ->
  token_truthy rt = true ->
  let userId := LogoutUser.getUserIdFromToken env (cookies_accessToken req) now in
  let deleted :=
    Collection.deleteOne
      (fun s => Session.refreshToken s = rt /\ Session.isActive s = true) (sessions db) in
  exists ss',
    (Routes.post_logout env sch req now db).2 =
      mkDb (users_after_count sch deleted.2 userId (users db)) ss' (nextId db)
    /\ (forall x, x ∈ ss' -> x ∈ deleted.1)
    /\ (forall x, x ∈ deleted.1 -> Session.isActive x = true ->
                  now <= Session.expiresAt x -> x ∈ ss').
Proof.
  intros Hcookie Htruthy userId deleted.
  unfold Routes.post_logout, LogoutUser.logout, try_catch.
  rewrite Hcookie, Htruthy. fold userId.
  destruct (deleteSessionAndUpdateCount_run sch rt userId db) as (n & Hrun).
  fold deleted in Hrun.
  unfold bind at 1. rewrite Hrun.
  set (db1 := mkDb _ _ _) in *.
  destruct (truthy userId).
  - destruct (logout_cleanup_run userId now db1) as (k & ss' & Hc & Hsub & Hkeep).
    unfold bind at 1. unfold bind at 1. rewrite Hc. simpl.
    exists ss'. split; [reflexivity|]. split; assumption.
  - simpl. exists deleted.1. split; [reflexivity|]. split; auto.
Qed.

Lemma validate_decremented (sch : UserModel.Schema) (u : User.t) :
  UserModel.validate sch u = None -> UserModel.validate sch (decremented u) = None.
Proof.
  intros Hval. unfold decremented.
  destruct (Z.ltb_spec 0 (User.loginCount u)) as [Hpos | _]; [|exact Hval].
  revert Hval. unfold UserModel.validate. simpl. intros H.
  repeat match type of H with
         | (if ?b then _ else _) = _ => destruct b eqn:?; [discriminate|]
         end.
  destruct (Z.ltb_spec (User.loginCount u - 1) 0); [lia | reflexivity].
Qed.

(** C4. A [POST /auth/logout] call with a refresh-token cookie, on a store
    whose refresh tokens are unique, deletes the active session that
    carries that token: no session with the token is left, and every other
    session that is active and unexpired stays.  The counter that goes
    down by one (not below zero) is that of the user named by the
    access-token cookie, when that cookie verifies and names a stored,
    schema-valid user; when the access-token cookie names no user id the
    user collection is left as it is. *)
Theorem C4_logout_deletes_session_and_counts_down :
  forall (env : Env) (sch : UserModel.Schema) (req : Request) (now : Date)
         (db : Db) (rt : Token) (s : Session.t),
    cookies_refreshToken req = Some rt ->
    token_truthy rt = true ->
    NoDup (map Session.refreshToken (sessions db)) ->
    s ∈ sessions db -> Session.refreshToken s = rt -> Session.isActive s = true ->
    let userId := LogoutUser.getUserIdFromToken env (cookies_accessToken req) now in
    let db' := (Routes.post_logout env sch req now db).2 in
    (forall s', s' ∈ sessions db' -> s' ∈ sessions db /\ Session.refreshToken s' <> rt)
    /\ (forall s', s' ∈ sessions db -> Session.refreshToken s' <> rt ->
                   Session.isActive s' = true -> now <= Session.expiresAt s' ->
                   s' ∈ sessions db')
    /\ (forall uid u,
          userId = JOid uid ->
          Collection.findOne (fun u => User._id u = uid) (users db) = Some u ->
          UserModel.validate sch u = None ->
          users db' =
            Collection.save User._id
              (User.set_loginCount (Z.max 0 (User.loginCount u - 1)) u) (users db))
    /\ ((forall uid, userId <> JOid uid) -> users db' = users db).
Proof.
  intros env sch req now db rt s Hcookie Htruthy Hnd Hin Hrt Hact userId db'.
  destruct (logout_run env sch req now db rt Hcookie Htruthy) as (ss' & Hdb' & Hsub & Hkeep).
  fold userId in Hdb'. fold db' in Hdb'.
  destruct (deleteOne_single
              (fun x => Session.refreshToken x = rt /\ Session.isActive x = true)
              (sessions db) s) as (c' & Hdel & Hmem); [done | done | | | ].
  { intros d' Hd' [Hrt' _].
    apply (NoDup_fmap_same Session.refreshToken (sessions db)); [done..|congruence]. }
  { by apply (NoDup_fmap_1 Session.refreshToken). }
  rewrite Hdel in Hdb', Hsub, Hkeep. simpl in Hdb', Hsub, Hkeep.
  assert (Hother : forall x, x ∈ sessions db -> Session.refreshToken x = rt -> x = s).
  { intros x Hx Hxrt.
    apply (NoDup_fmap_same Session.refreshToken (sessions db)); [done..|congruence]. }
  rewrite Hdb'. simpl. split; [|split; [|split]].
  - intros s' Hs'. apply Hsub, Hmem in Hs' as [Hs' Hne]. split; [done|].
    intros E. apply Hne. by apply Hother.
  - intros s' Hs' Hne Hact' Hexp. apply Hkeep; [|done|done].
    apply Hmem. split; [done|]. congruence.
  - intros uid u Huid Hfind Hval. unfold users_after_count. rewrite Huid. simpl.
    rewrite Hfind, (validate_decremented sch u Hval).
    rewrite decremented_floor by (by apply validate_loginCount with sch). reflexivity.
  - intros Hno. unfold users_after_count.
    destruct ((0 <? 1) && truthy userId); [|reflexivity].
    destruct userId; try reflexivity. by destruct (Hno o).
Qed.

(** ** Logout of all other sessions *)


Section FilterFacts.
Context {A : Type}.



Lemma filter_none (P : A -> Prop) `{!forall x, Decision (P x)} (l : list A) :
  (forall x, x ∈ l -> ~ P x) <-> filter P l = [].
Proof.
  split.
  - induction l as [| a l IH]; intros Hno; [reflexivity|].
    rewrite filter_cons, decide_False by (apply Hno; left).
    apply IH. intros x Hx. apply Hno. by right.
  - intros Hnil x Hx HP. by apply (filter_nil_not_elem_of P l x).
Qed.

End FilterFacts.


Lemma validate_Some (sch : UserModel.Schema) (u : User.t) (e : Exn) :
  UserModel.validate sch u = Some e -> exists msg, e = ValidationError msg.
Proof.
  unfold UserModel.validate. intros H.
  repeat match type of H with
         | (if ?b then _ else _) = _ => destruct b; [inversion H; eauto|]
         end.
  discriminate.
Qed.

Lemma invalidateAllOtherSessions_run (sch : UserModel.Schema) (userId : ObjectId)
    (tok : Token) (db : Db) :
  let ss' := (fun s => if decide (other_active userId tok s)
                       then Session.set_isActive false s else s) <$> sessions db in
  exists out us',
    SessionService.invalidateAllOtherSessions sch userId tok db =
      (out, mkDb us' ss' (nextId db))
    /\ (filter (other_active userId tok) (sessions db) = [] ->
        us' = users db /\ exists res, out = Return res)
    /\ (filter (other_active userId tok) (sessions db) <> [] ->
        (exists msg, out = Throw (ValidationError msg)) \/
        ((exists res, out = Return res) /\
         forall u0, Collection.findOne (fun u => User._id u = userId) (users db) = Some u0 ->
                   us' = Collection.save User._id (User.set_loginCount 1 u0) (users db))).
Proof.
  intros ss'.
  unfold SessionService.invalidateAllOtherSessions.
  unfold bind at 1. unfold SessionModel.updateMany, Collection.updateMany.
  fold (other_active userId tok).
  change (fun s => Session.userId s = userId /\ Session.isActive s = true /\
                   Session.accessToken s <> tok) with (other_active userId tok).
  simpl. fold ss'.
  destruct (filter (other_active userId tok) (sessions db)) as [| x l] eqn:Hf.
  - simpl. unfold bind, ret, set_sessions. simpl.
    eexists _, _. split; [reflexivity|]. split; [eauto | done].
  - replace (0 <? Z.of_nat (length (x :: l))) with true
      by (symmetry; apply Z.ltb_lt; simpl; lia).
    unfold UserModel.findById, UserModel.findOne, bind, lift, gets, ret. simpl.
    destruct (Collection.findOne (fun u => User._id u = userId) (users db)) as [u0 |] eqn:Hu0.
    + unfold UserModel.save.
      destruct (UserModel.validate sch (User.set_loginCount 1 u0)) as [e |] eqn:Hval.
      * apply validate_Some in Hval as [msg ->].
        eexists _, _. split; [reflexivity|]. split; [done|]. intros _. left. eauto.
      * simpl. eexists _, _. split; [reflexivity|]. split; [done|]. intros _. right.
        split; [eauto|]. intros ? [= <-]. reflexivity.
    + simpl. eexists _, _. split; [reflexivity|]. split; [done|]. intros _. right.
      split; [eauto|]. intros ? [=].
Qed.

Lemma findOne_is_Some {D} (P : D -> Prop) `{!forall d, Decision (P d)} (c : list D) (d : D) :
  d ∈ c -> P d -> exists d', Collection.findOne P c = Some d'.
Proof.
  intros Hin HP. unfold Collection.findOne.
  destruct (filter P c) as [| d' l] eqn:Hf; [|simpl; eauto].
  exfalso. by apply (filter_nil_not_elem_of P c d).
Qed.


(** ** The session cap *)

Lemma sessions_kept_user_save (sch : UserModel.Schema) (u : User.t) ss n :
  preserves (sessions_kept ss n) (UserModel.save sch u).
Proof.
  intros db H. unfold UserModel.save. destruct (UserModel.validate sch u); exact H.
Qed.

Lemma sessions_kept_user_create (sch : UserModel.Schema) (provider : Provider)
    (id email name avatar : string) (now : Date) ss n :
  preserves (sessions_kept ss n) (UserModel.create sch provider id email name avatar now).
Proof.
  intros db [H1 H2]. unfold UserModel.create.
  destruct (UserModel.validate sch _); [done|].
  case_bool_decide; [done|]. split; simpl; [done | lia].
Qed.

Lemma user_phase_sessions (sch : UserModel.Schema) (p : LoginOrCreateUser.Params)
    (now : Date) (db : Db) :
  sessions (user_phase sch p now db).2 = sessions db
  /\ (nextId db <= nextId (user_phase sch p now db).2)%nat.
Proof.
  assert (H : preserves (sessions_kept (sessions db) (nextId db)) (user_phase sch p now)).
  { unfold user_phase, LoginOrCreateUser.findExistingUser, UserModel.findOne,
      LoginOrCreateUser.createNewUser, LoginOrCreateUser.updateUserProviderData,
      UserModel.updateLoginInfo.
    repeat first [ apply sessions_kept_user_save | apply sessions_kept_user_create
                 | preserves_step ]. }
  apply (H db). split; [reflexivity | lia].
Qed.

(** A successful login for [uid]: what it does to the session collection. *)
Lemma login_sessions (env : Env) (sch : UserModel.Schema)
    (cfg : LoginOrCreateUser.SessionConfig) (p : LoginOrCreateUser.Params)
    (now : Date) (db db' : Db) (r : Res) (uid : ObjectId) :
  LoginOrCreateUser.loginOrCreateUser env sch cfg p now db = (Return r, db') ->
  logged_in_as r = Some (JOid uid) ->
  exists n tokens,
    (nextId db <= n)%nat
    /\ nextId db' = S n
    /\ sessions db' =
         deactivated uid (LoginOrCreateUser.MAX_SESSIONS_PER_USER cfg) now
           (cleaned cfg now (sessions db))
         ++ [new_session cfg p uid tokens now n].
Proof.
  intros Hrun Has.
  destruct (decide (LoginOrCreateUser.id p = "")) as [Hid | Hid].
  { unfold LoginOrCreateUser.loginOrCreateUser in Hrun. rewrite Hid in Hrun.
    simpl in Hrun. inversion Hrun; subst. discriminate. }
  destruct (decide (LoginOrCreateUser.email p = "")) as [Hem | Hem].
  { unfold LoginOrCreateUser.loginOrCreateUser in Hrun. rewrite Hem in Hrun.
    rewrite orb_true_r in Hrun. simpl in Hrun. inversion Hrun; subst. discriminate. }
  rewrite login_phases in Hrun by done.
  destruct (user_phase_sessions sch p now db) as [Hss Hn].
  destruct (user_phase sch p now db) as [[user | e] db1]; simpl in Hss, Hn.
  2:{ inversion Hrun; subst. discriminate. }
  destruct (session_phase_run env cfg p user now db1) as (tokens & Hgen & Hphase).
  rewrite Hphase in Hrun. cbv zeta in Hrun.
  case_bool_decide; [inversion Hrun; subst; discriminate|].
  inversion Hrun; subst. clear Hrun.
  destruct (generateTokens_ok env (User._id user) now) as (ja & jr & Hgen' & Hja & _).
  rewrite Hgen in Hgen'. inversion Hgen'; subst tokens.
  unfold logged_in_as in Has. simpl in Has. rewrite Hja in Has.
  inversion Has; subst uid.
  eexists _, _. split; [exact Hn|]. split; [reflexivity|]. simpl. by rewrite Hss.
Qed.

Global Instance by_lastUsed_desc_total : Total SessionModel.by_lastUsed_desc.
Proof. intros a b. unfold SessionModel.by_lastUsed_desc. lia. Qed.

Global Instance by_lastUsed_desc_trans : Transitive SessionModel.by_lastUsed_desc.
Proof. intros a b c. unfold SessionModel.by_lastUsed_desc. lia. Qed.

(** The sessions ranked at or after position [n] were used no later than
    those ranked before it: what [slice] hands to the deactivation is the
    least recently used part. *)
Lemma ranked_split_lru (l : list Session.t) (n : nat) (kept dropped : Session.t) :
  kept ∈ take n (merge_sort SessionModel.by_lastUsed_desc l) ->
  dropped ∈ drop n (merge_sort SessionModel.by_lastUsed_desc l) ->
  Session.lastUsed dropped <= Session.lastUsed kept.
Proof.
  intros Hk Hd.
  pose proof (StronglySorted_merge_sort SessionModel.by_lastUsed_desc l) as Hs.
  rewrite <- (take_drop n (merge_sort _ l)) in Hs.
  apply StronglySorted_app in Hs as (Hs & _ & _). by apply Hs.
Qed.


Lemma filter_all {A} (P : A -> Prop) `{!forall x, Decision (P x)} (l : list A) :
  Forall P l -> filter P l = l.
Proof.
  induction 1 as [| x l Hx _ IH]; [reflexivity|].
  by rewrite filter_cons_True, IH.
Qed.

Lemma filter_comm {A} (P Q : A -> Prop) `{!forall x, Decision (P x)}
    `{!forall x, Decision (Q x)} (l : list A) :
  filter P (filter Q l) = filter Q (filter P l).
Proof.
  rewrite !list_filter_filter. apply list_filter_iff. intros x. tauto.
Qed.

Section Cap.
Context (cfg : LoginOrCreateUser.SessionConfig) (uid : ObjectId).

Let N := LoginOrCreateUser.MAX_SESSIONS_PER_USER cfg.





End Cap.




Section CapRun.
Context (env : Env) (sch : UserModel.Schema) (cfg : LoginOrCreateUser.SessionConfig)
        (uid : ObjectId) (t0 tN : Date).

Let N := LoginOrCreateUser.MAX_SESSIONS_PER_USER cfg.

End CapRun.



(** ** The cap on any store *)

Lemma length_filter_fmap {A} (P Q : A -> Prop) `{!forall x, Decision (P x)}
    `{!forall x, Decision (Q x)} (g : A -> A) (l : list A) :
  (forall x, P (g x) <-> Q x) ->
  length (filter P (g <$> l)) = length (filter Q l).
Proof.
  intros HPQ. induction l as [| a l IH]; [reflexivity|].
  rewrite fmap_cons, !filter_cons.
  destruct (decide (P (g a))) as [Hg | Hg], (decide (Q a)) as [Ha | Ha]; simpl;
    try (by rewrite IH).
  - exfalso. by apply Ha, HPQ.
  - exfalso. by apply Hg, HPQ.
Qed.

Section CapAnyStore.
Context (uid : ObjectId) (N : Z) (now : Date) (ss : list Session.t).

Let R := ranked uid now ss.
Let k := Z.to_nat (N - 1).
Let ids := map Session._id (drop k R).

Lemma ranked_elem_of (s : Session.t) :
  s ∈ R <-> s ∈ ss /\ SessionModel.active_unexpired uid now s.
Proof.
  unfold R, ranked. rewrite merge_sort_Permutation, list_elem_of_filter. tauto.
Qed.

Lemma deactivated_at_or_over_cap :
  1 <= N -> N <= Z.of_nat (length R) ->
  deactivated uid N now ss =
    map (fun s => if decide (Session._id s ∈ ids) then Session.set_isActive false s else s) ss.
Proof.
  intros HN Hlen. unfold deactivated. fold R.
  destruct (Z.leb_spec N (Z.of_nat (length R))) as [_ | ?]; [|lia].
  unfold slice. destruct (Z.ltb_spec (N - 1) 0) as [? | _]; [lia|]. reflexivity.
Qed.

(** What is still active after the deactivation is ranked before
    position [N - 1]. *)
Lemma still_active_ranked_first (s : Session.t) :
  1 <= N -> N <= Z.of_nat (length R) ->
  s ∈ deactivated uid N now ss -> SessionModel.active_unexpired uid now s ->
  s ∈ take k R.
Proof.
  intros HN Hlen Hin Hact. rewrite deactivated_at_or_over_cap in Hin by done.
  apply list_elem_of_fmap in Hin as (s0 & -> & Hs0).
  destruct (decide (Session._id s0 ∈ ids)) as [Hid | Hid].
  { destruct Hact as (_ & Hact & _). simpl in Hact. discriminate. }
  assert (HR : s0 ∈ R) by (by apply ranked_elem_of).
  rewrite <- (take_drop k R) in HR. apply elem_of_app in HR as [HR | HR]; [done|].
  exfalso. apply Hid. unfold ids. by apply list_elem_of_fmap_2.
Qed.

Lemma deactivated_within_cap :
  1 <= N ->
  Z.of_nat (length (filter (SessionModel.active_unexpired uid now)
                      (deactivated uid N now ss))) <= N - 1.
Proof.
  intros HN.
  assert (HlenR : length (filter (SessionModel.active_unexpired uid now) ss) = length R).
  { unfold R, ranked. by rewrite merge_sort_Permutation. }
  destruct (Z.le_gt_cases N (Z.of_nat (length R))) as [Hlen | Hlen].
  2:{ unfold deactivated. fold R.
      destruct (Z.leb_spec N (Z.of_nat (length R))) as [? | _]; [lia|].
      rewrite HlenR. lia. }
  rewrite deactivated_at_or_over_cap by done.
  rewrite (length_filter_fmap _
             (fun s => (Session._id s ∉ ids) /\ SessionModel.active_unexpired uid now s)).
  2:{ intros s. destruct (decide (Session._id s ∈ ids)) as [Hid | Hid].
      - split; [|tauto]. intros (_ & Hact & _). simpl in Hact. discriminate.
      - tauto. }
  rewrite <- list_filter_filter.
  assert (Hperm : filter (SessionModel.active_unexpired uid now) ss ≡ₚ R).
  { unfold R, ranked. by rewrite merge_sort_Permutation. }
  rewrite Hperm. rewrite <- (take_drop k R) at 1. rewrite filter_app, length_app.
  assert (Hnone : filter (fun s => Session._id s ∉ ids) (drop k R) = []).
  { apply filter_none. intros s Hs Hid. apply Hid. unfold ids. by apply list_elem_of_fmap_2. }
  rewrite Hnone. simpl.
  pose proof (length_filter (fun s => Session._id s ∉ ids) (take k R)) as Hle.
  rewrite length_take in Hle. unfold k in *. lia.
Qed.

(** With unique ids, a session the call has deactivated was used no later
    than any session of the user it has left active. *)
Lemma deactivated_are_least_recently_used (d s : Session.t) :
  1 <= N -> NoDup (map Session._id ss) ->
  d ∈ ss -> SessionModel.active_unexpired uid now d ->
  d ∉ deactivated uid N now ss ->
  s ∈ deactivated uid N now ss -> SessionModel.active_unexpired uid now s ->
  Session.lastUsed d <= Session.lastUsed s.
Proof.
  intros HN Hnd Hd Hdact Hgone Hs Hsact.
  destruct (Z.le_gt_cases N (Z.of_nat (length R))) as [Hlen | Hlen].
  2:{ exfalso. apply Hgone. unfold deactivated. fold R.
      by destruct (Z.leb_spec N (Z.of_nat (length R))) as [? | _]; [lia|]. }
  apply (ranked_split_lru (filter (SessionModel.active_unexpired uid now) ss) k).
  { by apply still_active_ranked_first. }
  rewrite deactivated_at_or_over_cap in Hgone by done.
  assert (Hid : Session._id d ∈ ids).
  { destruct (decide (Session._id d ∈ ids)) as [Hid | Hid]; [done | exfalso].
    apply Hgone. apply list_elem_of_fmap. exists d. by rewrite decide_False. }
  unfold ids in Hid. apply list_elem_of_fmap in Hid as (d' & Hsame & Hd').
  assert (Hd'ss : d' ∈ ss).
  { apply (ranked_elem_of d'). rewrite <- (take_drop k R). apply elem_of_app. by right. }
  by rewrite (NoDup_fmap_same Session._id ss d d' Hnd Hd Hd'ss Hsame).
Qed.

End CapAnyStore.

(** [deactivateOldSessions] on any store, for a cap of at least 1: the
    user is left with fewer than [maxSessions] sessions that are active and
    unexpired, and, ids being unique, every session the call has taken out
    of the active ones was used no later than every one it has left. *)
Theorem deactivateOldSessions_leaves_room :
  forall (userId : ObjectId) (maxSessions : Z) (now : Date) (db : Db),
    1 <= maxSessions ->
    let db' := (SessionModel.deactivateOldSessions userId maxSessions now db).2 in
    Z.of_nat (length (filter (SessionModel.active_unexpired userId now) (sessions db')))
      <= maxSessions - 1
    /\ users db' = users db
    /\ (NoDup (map Session._id (sessions db)) ->
        forall d s,
          d ∈ sessions db -> SessionModel.active_unexpired userId now d ->
          d ∉ sessions db' ->
          s ∈ sessions db' -> SessionModel.active_unexpired userId now s ->
          Session.lastUsed d <= Session.lastUsed s).
Proof.
  intros userId maxSessions now db HN db'. subst db'.
  rewrite deactivateOldSessions_run. simpl.
  split; [by apply deactivated_within_cap|]. split; [reflexivity|].
  intros Hnd d s. by apply deactivated_are_least_recently_used.
Qed.

(** A successful login, on any store and for a cap of at least 1, leaves
    its user with at most [MAX_SESSIONS_PER_USER] sessions that are active
    and unexpired. *)
Theorem login_keeps_active_sessions_within_cap :
  forall (env : Env) (sch : UserModel.Schema) (cfg : LoginOrCreateUser.SessionConfig)
         (p : LoginOrCreateUser.Params) (now : Date) (db db' : Db) (r : Res)
         (uid : ObjectId),
    1 <= LoginOrCreateUser.MAX_SESSIONS_PER_USER cfg ->
    LoginOrCreateUser.loginOrCreateUser env sch cfg p now db = (Return r, db') ->
    logged_in_as r = Some (JOid uid) ->
    Z.of_nat (length (filter (SessionModel.active_unexpired uid now) (sessions db')))
      <= LoginOrCreateUser.MAX_SESSIONS_PER_USER cfg.
Proof.
  intros env sch cfg p now db db' r uid HN Hrun Has.
  destruct (login_sessions env sch cfg p now db db' r uid Hrun Has)
    as (n & tokens & _ & _ & ->).
  rewrite filter_app, length_app.
  pose proof (deactivated_within_cap uid (LoginOrCreateUser.MAX_SESSIONS_PER_USER cfg)
                now (cleaned cfg now (sessions db)) HN) as Hcap.
  pose proof (length_filter (SessionModel.active_unexpired uid now)
                [new_session cfg p uid tokens now n]) as Hone.
  simpl in Hone. lia.
Qed.

(** ** Unique ids and tokens in the stores the handlers produce *)











Section AsIssued.
Context (env : Env).
















End AsIssued.


(** ** The authentication gate on any request *)

(** The gate, step by step. *)
Lemma verifyJwtToken_run (env : Env) (req : Request) (now : Date) (db : Db) :
  AuthMiddleware.verifyJwtToken env req now db =
    match AuthMiddleware.extractAccessToken req with
    | None =>
        (Return (AuthMiddleware.NextError
                   (ApiErr 401 "Access token required"
                      [("auth", "No access token provided in cookies or headers")])), db)
    | Some tok =>
        match verifyAccessToken env (Some tok) now with
        | Throw e => (Return (AuthMiddleware.NextError (AuthMiddleware.handleAuthError e)), db)
        | Return decoded =>
            match castObjectId (default JUndefined (decoded !! "_id")) with
            | Throw _ =>
                (Return (AuthMiddleware.NextError
                           (ApiErr 401 "Authentication failed"
                              [("auth", "Internal authentication error")])), db)
            | Return o =>
                match o ≫= (fun i => Collection.findOne (fun u => User._id u = i) (users db)) with
                | None =>
                    (Return (AuthMiddleware.NextError
                               (ApiErr 401 "User not found"
                                  [("auth", "User associated with token does not exist")])), db)
                | Some user =>
                    if negb (User.isActive user)
                    then (Return (AuthMiddleware.NextError
                                    (ApiErr 401 "Account is deactivated"
                                       [("auth", "User account has been deactivated")])), db)
                    else
                      match Collection.findOne (valid_session (User._id user) tok now)
                              (sessions db) with
                      | None =>
                          (Return (AuthMiddleware.NextError
                                     (ApiErr 401 "Invalid session"
                                        [("auth", "Session has expired or is invalid")])), db)
                      | Some s =>
                          (Return (AuthMiddleware.Proceed user
                             {| AuthMiddleware.ti_accessToken := tok;
                                AuthMiddleware.ti_userId := default JUndefined (decoded !! "_id");
                                AuthMiddleware.ti_tokenType := default JUndefined (decoded !! "type");
                                AuthMiddleware.ti_issuedAt := default JUndefined (decoded !! "iat");
                                AuthMiddleware.ti_expiresAt := default JUndefined (decoded !! "exp") |}),
                           set_sessions
                             (Collection.save Session._id (Session.set_lastUsed now s)
                                (sessions db)) db)
                      end
                end
            end
        end
    end.
Proof.
  unfold AuthMiddleware.verifyJwtToken, try_catch.
  destruct (AuthMiddleware.extractAccessToken req) as [tok |]; [|reflexivity].
  destruct (verifyAccessToken env (Some tok) now) as [decoded | e].
  2:{ simpl. unfold AuthMiddleware.handleAuthError. by repeat case_match. }
  unfold bind at 1. unfold ret at 1. unfold bind at 1. unfold UserModel.findById.
  destruct (default JUndefined (decoded !! "_id")) as [ | | b | z | str | uid];
    unfold bind at 1, lift; simpl; try reflexivity.
  unfold UserModel.findOne, gets.
  destruct (Collection.findOne (fun u0 => User._id u0 = uid) (users db)) as [user |];
    simpl; [|reflexivity].
  destruct (User.isActive user); simpl; [|reflexivity].
  unfold bind at 1, AuthMiddleware.validateUserSession. simpl.
  unfold try_catch, bind at 1, SessionModel.findOne, gets.
  change (Collection.findOne
            (fun s => Session.userId s = User._id user /\ Session.accessToken s = tok /\
                      Session.isActive s = true /\ now < Session.expiresAt s))
    with (Collection.findOne (valid_session (User._id user) tok now)).
  destruct (Collection.findOne (valid_session (User._id user) tok now) (sessions db))
    as [s |]; reflexivity.
Qed.

(** Every request gets an answer from the gate: it hands on or it
    refuses.  A refusal is an [ApiError] with status 401 and leaves the
    store as it was; on the way through, users are not written, and with
    unique session ids the one write is the [lastUsed] stamp on the
    session the token belongs to. *)
Theorem gate_refuses_with_401_and_leaves_store :
  forall (env : Env) (req : Request) (now : Date) (db : Db),
  exists n db',
    AuthMiddleware.verifyJwtToken env req now db = (Return n, db')
    /\ (forall e, n = AuthMiddleware.NextError e ->
          (exists message errors, e = ApiErr 401 message errors) /\ db' = db)
    /\ (forall u ti, n = AuthMiddleware.Proceed u ti ->
          users db' = users db /\ nextId db' = nextId db
          /\ exists s,
               s ∈ sessions db
               /\ valid_session (User._id u) (AuthMiddleware.ti_accessToken ti) now s
               /\ (NoDup (map Session._id (sessions db)) ->
                   sessions db' =
                     map (fun d => if decide (d = s) then Session.set_lastUsed now s else d)
                         (sessions db))).
Proof.
  intros env req now db. rewrite verifyJwtToken_run.
  destruct (AuthMiddleware.extractAccessToken req) as [tok |].
  2:{ eexists _, _. split; [reflexivity|]. split; [|discriminate].
      intros e [= <-]. eauto. }
  destruct (verifyAccessToken env (Some tok) now) as [decoded | e0].
  2:{ eexists _, _. split; [reflexivity|]. split; [|discriminate].
      intros e [= <-]. split; [|reflexivity].
      unfold AuthMiddleware.handleAuthError. repeat case_match; eauto. }
  destruct (castObjectId _) as [o | e0].
  2:{ eexists _, _. split; [reflexivity|]. split; [|discriminate].
      intros e [= <-]. eauto. }
  destruct (o ≫= _) as [user |].
  2:{ eexists _, _. split; [reflexivity|]. split; [|discriminate].
      intros e [= <-]. eauto. }
  destruct (User.isActive user); simpl.
  2:{ eexists _, _. split; [reflexivity|]. split; [|discriminate].
      intros e [= <-]. eauto. }
  destruct (Collection.findOne _ (sessions db)) as [s |] eqn:Hs.
  2:{ eexists _, _. split; [reflexivity|]. split; [|discriminate].
      intros e [= <-]. eauto. }
  eexists _, _. split; [reflexivity|]. split; [discriminate|].
  intros u ti [= <- <-]. simpl. split; [reflexivity|]. split; [reflexivity|].
  apply findOne_Some in Hs as [Hin Hvalid]. exists s. split; [done|]. split; [done|].
  intros Hnd. unfold Collection.save. apply list_fmap_ext. intros i d Hd. simpl.
  apply list_elem_of_lookup_2 in Hd.
  destruct (decide (Session._id d = Session._id s)) as [Hid | Hid].
  - rewrite (NoDup_fmap_same Session._id (sessions db) d s Hnd Hd Hin Hid).
    by rewrite decide_True.
  - rewrite decide_False; [done|]. by intros ->.
Qed.

(** [optionalAuth] attaches a user exactly when [verifyJwtToken] would let
    the request through, the same user and token record, and leaves the
    same store; where the gate refuses, it goes on without a user. *)
Theorem optionalAuth_agrees_with_the_gate :
  forall (env : Env) (req : Request) (now : Date) (db : Db),
    AuthMiddleware.optionalAuth env req now db =
      match AuthMiddleware.verifyJwtToken env req now db with
      | (Return (AuthMiddleware.Proceed u ti), db') => (Return (Some (u, ti)), db')
      | (_, db') => (Return None, db')
      end.
Proof.
  intros env req now db. rewrite verifyJwtToken_run.
  unfold AuthMiddleware.optionalAuth, try_catch.
  destruct (AuthMiddleware.extractAccessToken req) as [tok |]; [|reflexivity].
  destruct (verifyAccessToken env (Some tok) now) as [decoded | e0]; [|reflexivity].
  unfold bind at 1, lift. unfold bind at 1. unfold UserModel.findById.
  destruct (default JUndefined (decoded !! "_id")) as [ | | b | z | str | uid];
    unfold bind at 1, lift; simpl; try reflexivity.
  unfold UserModel.findOne, gets.
  destruct (Collection.findOne (fun u0 => User._id u0 = uid) (users db)) as [user |];
    simpl; [|reflexivity].
  destruct (User.isActive user); simpl; [|reflexivity].
  unfold bind at 1, AuthMiddleware.validateUserSession. simpl.
  unfold try_catch, bind at 1, SessionModel.findOne, gets.
  change (Collection.findOne
            (fun s => Session.userId s = User._id user /\ Session.accessToken s = tok /\
                      Session.isActive s = true /\ now < Session.expiresAt s))
    with (Collection.findOne (valid_session (User._id user) tok now)).
  destruct (Collection.findOne (valid_session (User._id user) tok now) (sessions db))
    as [s |]; reflexivity.
Qed.

(** With the user schema as it is, [requireRoles(allowedRoles)] lets an
    authenticated user through exactly when ['user'] is among the allowed
    roles; otherwise it answers 403 and names the allowed roles; without
    [req.user] it answers 401. *)
Theorem requireRoles_admits_only_the_user_role :
  forall (allowedRoles : list string),
    (forall u, AuthMiddleware.requireRoles allowedRoles (Some u) = Return tt
               <-> "user" ∈ allowedRoles)
    /\ (forall u, "user" ∉ allowedRoles ->
          AuthMiddleware.requireRoles allowedRoles (Some u) =
            Throw (ApiErr 403 "Insufficient permissions"
                     [("auth", "Requires one of: " +:+ AuthMiddleware.join ", " allowedRoles)]))
    /\ AuthMiddleware.requireRoles allowedRoles None =
         Throw (ApiErr 401 "Authentication required"
                  [("auth", "Must be authenticated to access this resource")]).
Proof.
  intros allowedRoles.
  assert (Hex : forall u,
    existsb (fun role => bool_decide (role ∈ AuthMiddleware.userRoles u)) allowedRoles = true
    <-> "user" ∈ allowedRoles).
  { intros u. rewrite existsb_exists. split.
    - intros (role & Hin & Hrole). apply bool_decide_eq_true in Hrole.
      apply list_elem_of_singleton in Hrole. subst role. by apply list_elem_of_In.
    - intros Hin. exists "user". split; [by apply list_elem_of_In|].
      apply bool_decide_eq_true. by apply list_elem_of_singleton. }
  split; [|split; [|reflexivity]].
  - intros u. unfold AuthMiddleware.requireRoles. rewrite <- (Hex u).
    destruct (existsb _ allowedRoles); simpl; split; (done || discriminate).
  - intros u Hno. unfold AuthMiddleware.requireRoles.
    destruct (existsb _ allowedRoles) eqn:E; simpl; [|reflexivity].
    exfalso. by apply Hno, (Hex u).
Qed.

(** ** Logins: input, new users, replies *)

Lemma user_save_run (sch : UserModel.Schema) (u : User.t) (db : Db) :
  UserModel.save sch u db =
    match UserModel.validate sch u with
    | Some e => (Throw e, db)
    | None => (Return u, set_users (Collection.save User._id u (users db)) db)
    end.
Proof. unfold UserModel.save. by destruct (UserModel.validate sch u). Qed.

Lemma findOne_None {D} (P : D -> Prop) `{!forall d, Decision (P d)} (c : list D) :
  Collection.findOne P c = None <-> forall d, d ∈ c -> ~ P d.
Proof.
  unfold Collection.findOne. rewrite head_None. symmetry. apply filter_none.
Qed.

Lemma pre_save_created (p : LoginOrCreateUser.Params) (now : Date) (id : ObjectId) :
  UserModel.pre_save_email (created p now id) = created p now id.
Proof.
  unfold UserModel.pre_save_email, created.
  destruct (LoginOrCreateUser.provider p); simpl; by rewrite set_email_normal.
Qed.

Lemma created_email (p : LoginOrCreateUser.Params) (now : Date) (id : ObjectId) :
  User.email (created p now id) = UserModel.set_email (LoginOrCreateUser.email p).
Proof. unfold created. by destruct (LoginOrCreateUser.provider p). Qed.

(** The user phase of a login that matches no stored user. *)
Lemma user_phase_new (sch : UserModel.Schema) (p : LoginOrCreateUser.Params)
    (now : Date) (db : Db) :
  Collection.findOne
    (fun u => User.providerId (LoginOrCreateUser.provider p) u
                = Some (LoginOrCreateUser.id p)
              \/ User.email u = UserModel.set_email (LoginOrCreateUser.email p)) (users db) = None ->
  UserModel.validate sch (created p now (nextId db)) = None ->
  user_phase sch p now db =
    (Return (first_login p now (nextId db)),
     mkDb (Collection.save User._id (first_login p now (nextId db))
             (users db ++ [created p now (nextId db)]))
          (sessions db) (S (nextId db))).
Proof.
  intros Hnone Hval.
  unfold user_phase, LoginOrCreateUser.findExistingUser, UserModel.findOne.
  unfold bind at 1, gets.
  rewrite Hnone. unfold bind at 1.
  unfold LoginOrCreateUser.createNewUser, UserModel.create.
  fold (created p now (nextId db)). rewrite Hval. cbv zeta.
  rewrite pre_save_created, created_email.
  rewrite bool_decide_eq_false_2.
  2:{ rewrite Exists_exists. intros (u & Hu & Hemail).
      apply (proj1 (findOne_None _ _) Hnone u Hu). by right. }
  unfold UserModel.updateLoginInfo. rewrite user_save_run.
  assert (Hdoc : User.set_loginCount
                   (User.loginCount (User.set_lastLoginAt now (created p now (nextId db))) + 1)
                   (User.set_lastLoginAt now (created p now (nextId db)))
                 = first_login p now (nextId db)).
  { unfold first_login, created. by destruct (LoginOrCreateUser.provider p). }
  pose proof (validate_login_info sch now _ Hval) as Hval'.
  rewrite Hdoc in *. rewrite Hval'. reflexivity.
Qed.

(** Whatever the user phase returns is stored, and is the one document
    with its id. *)
Lemma user_phase_stored (sch : UserModel.Schema) (p : LoginOrCreateUser.Params)
    (now : Date) (db db1 : Db) (user : User.t) :
  user_phase sch p now db = (Return user, db1) ->
  user ∈ users db1 /\ forall u', u' ∈ users db1 -> User._id u' = User._id user -> u' = user.
Proof.
  unfold user_phase, LoginOrCreateUser.findExistingUser, UserModel.findOne.
  unfold bind at 1, gets.
  assert (Hlast : forall (u0 : User.t) (dbm : Db),
            u0 ∈ users dbm ->
            UserModel.updateLoginInfo sch u0 now dbm = (Return user, db1) ->
            user ∈ users db1
            /\ forall u', u' ∈ users db1 -> User._id u' = User._id user -> u' = user).
  { intros u0 dbm Hin Hrun. unfold UserModel.updateLoginInfo in Hrun.
    rewrite user_save_run in Hrun.
    destruct (UserModel.validate sch _); [discriminate|].
    inversion Hrun; subst; clear Hrun. simpl. split.
    - by apply elem_of_save_doc with u0.
    - intros u' Hu' Hid. by apply elem_of_save_same_id in Hu'. }
  destruct (Collection.findOne _ (users db)) as [u |] eqn:Hfind.
  - unfold bind at 1, LoginOrCreateUser.updateUserProviderData.
    apply findOne_Some in Hfind as [Hin _].
    destruct (UserModel.hasProvider u _); simpl.
    + apply Hlast. exact Hin.
    + rewrite user_save_run. destruct (UserModel.validate sch _); [discriminate|].
      apply Hlast. simpl. apply elem_of_save_doc with u; [done|].
      by rewrite set_providerId_id.
  - unfold bind at 1, LoginOrCreateUser.createNewUser, UserModel.create.
    destruct (UserModel.validate sch _); [discriminate|].
    case_bool_decide; [discriminate|].
    apply Hlast. simpl. apply elem_of_app. right. by apply list_elem_of_singleton.
Qed.

(** A login without a provider id or without an email address is turned
    away at once: the answer is the redirect with [error=invalid_input],
    no cookie is set and the store is not touched. *)
Theorem login_rejects_missing_input :
  forall (env : Env) (sch : UserModel.Schema) (cfg : LoginOrCreateUser.SessionConfig)
         (p : LoginOrCreateUser.Params) (now : Date) (db : Db),
    LoginOrCreateUser.id p = "" \/ LoginOrCreateUser.email p = "" ->
    LoginOrCreateUser.loginOrCreateUser env sch cfg p now db =
      (Return (login_error env p "invalid_input"), db).
Proof.
  intros env sch cfg p now db [H | H]; unfold LoginOrCreateUser.loginOrCreateUser;
    rewrite H; [|rewrite orb_true_r]; reflexivity.
Qed.

(** [loginOrCreateUser] answers every call, and always with a redirect:
    the success redirect together with the two token cookies, or one of
    four error redirects without any cookie. *)
Theorem login_always_redirects :
  forall (env : Env) (sch : UserModel.Schema) (cfg : LoginOrCreateUser.SessionConfig)
         (p : LoginOrCreateUser.Params) (now : Date) (db : Db),
  exists r db',
    LoginOrCreateUser.loginOrCreateUser env sch cfg p now db = (Return r, db')
    /\ ((exists tokens,
           r = login_success env cfg p tokens
           /\ res_cookies r =
                [SetCookie "accessToken" (tp_accessToken tokens)
                   (LoginOrCreateUser.ACCESS_TOKEN_EXPIRY_DAYS cfg * 24 * 60 * 60 * 1000);
                 SetCookie "refreshToken" (tp_refreshToken tokens)
                   (LoginOrCreateUser.REFRESH_TOKEN_EXPIRY_DAYS cfg * 24 * 60 * 60 * 1000)])
        \/ (exists errorType,
              errorType ∈ ["invalid_input"; "email_exists"; "validation_failed"; "login_failed"]
              /\ r = login_error env p errorType)).
Proof.
  intros env sch cfg p now db.
  assert (Hfail : forall e, exists errorType,
            errorType ∈ ["invalid_input"; "email_exists"; "validation_failed"; "login_failed"]
            /\ login_failure env p e = login_error env p errorType).
  { intros e. unfold login_failure, login_error.
    repeat case_match; eexists; (split; [|reflexivity]); set_solver. }
  destruct (decide (LoginOrCreateUser.id p = "")) as [Hid | Hid].
  { eexists _, _. unfold LoginOrCreateUser.loginOrCreateUser. rewrite Hid. simpl.
    split; [reflexivity|]. right. exists "invalid_input". split; [set_solver | reflexivity]. }
  destruct (decide (LoginOrCreateUser.email p = "")) as [Hem | Hem].
  { eexists _, _. unfold LoginOrCreateUser.loginOrCreateUser. rewrite Hem, orb_true_r. simpl.
    split; [reflexivity|]. right. exists "invalid_input". split; [set_solver | reflexivity]. }
  rewrite login_phases by done.
  destruct (user_phase sch p now db) as [[user | e] db1].
  2:{ eexists _, _. split; [reflexivity|]. right. apply Hfail. }
  destruct (session_phase_run env cfg p user now db1) as (tokens & _ & ->).
  cbv zeta. case_bool_decide.
  - eexists _, _. split; [reflexivity|]. right. apply Hfail.
  - eexists _, _. split; [reflexivity|]. left. exists tokens. split; reflexivity.
Qed.

Lemma deactivated_refreshToken (uid : ObjectId) (N : Z) (now : Date) (t : Token)
    (ss : list Session.t) :
  Exists (fun s => Session.refreshToken s = t) (deactivated uid N now ss)
  <-> Exists (fun s => Session.refreshToken s = t) ss.
Proof.
  unfold deactivated. destruct (_ <=? _); [|done].
  rewrite Exists_fmap, !Exists_exists.
  split; intros (s & Hs & Htok); exists s; (split; [done|]);
    simpl in *; by case_decide.
Qed.

Lemma deactivated_ids (uid : ObjectId) (N : Z) (now : Date) (ss : list Session.t)
    (s : Session.t) :
  s ∈ deactivated uid N now ss -> exists s0, s0 ∈ ss /\ Session._id s = Session._id s0.
Proof.
  unfold deactivated. destruct (_ <=? _); [|by exists s].
  intros Hs. apply list_elem_of_fmap in Hs as (s0 & -> & Hs0). exists s0.
  split; [done|]. by case_decide.
Qed.

Lemma elem_of_cleaned (cfg : LoginOrCreateUser.SessionConfig) (now : Date)
    (ss : list Session.t) (s : Session.t) :
  s ∈ cleaned cfg now ss -> s ∈ ss.
Proof.
  unfold cleaned. destruct (LoginOrCreateUser.CLEANUP_EXPIRED_ON_LOGIN cfg); [|done].
  rewrite list_elem_of_filter. tauto.
Qed.

(** The first login of somebody the store does not know: no user has the
    provider id of the login or its email address, in the lower-case,
    trimmed form the schema compares, and the schema accepts the data in
    the form its setters give them.  One user document is added; it has
    the email address in that form, the trimmed name, the id of the
    provider, a counter of 1 and the login time.  The answer is the success
    redirect, with one session of the new user appended to the sessions
    the cleanup of the login leaves, exactly when none of those carries
    the refresh token issued for the new user; the answer is
    [error=email_exists] when one does.  A store in which no session
    carries that token gives the success redirect. *)
Theorem first_login_creates_user_and_session :
  forall (env : Env) (sch : UserModel.Schema) (cfg : LoginOrCreateUser.SessionConfig)
         (p : LoginOrCreateUser.Params) (now : Date) (db : Db),
    LoginOrCreateUser.id p <> "" ->
    LoginOrCreateUser.email p <> "" ->
    LoginOrCreateUser.findExistingUser (LoginOrCreateUser.provider p)
      (LoginOrCreateUser.id p) (LoginOrCreateUser.email p) db = (Return None, db) ->
    UserModel.validate sch (created p now (nextId db)) = None ->
    let result := LoginOrCreateUser.loginOrCreateUser env sch cfg p now db in
    let uid := nextId db in
    length (users result.2) = S (length (users db))
    /\ first_login p now uid ∈ users result.2
    /\ (forall u, u ∈ users result.2 -> User._id u = uid -> u = first_login p now uid)
    /\ User.providerId (LoginOrCreateUser.provider p) (first_login p now uid)
         = Some (LoginOrCreateUser.id p)
    /\ User.email (first_login p now uid) = UserModel.set_email (LoginOrCreateUser.email p)
    /\ User.name (first_login p now uid) = UserModel.set_name (LoginOrCreateUser.name p)
    /\ User.loginCount (first_login p now uid) = 1
    /\ (exists tokens,
          generateTokens env (JOid uid) ∅ now = Return tokens
          /\ ((result.1 = Return (login_success env cfg p tokens)
               /\ Forall (fun s => Session.refreshToken s <> tp_refreshToken tokens)
                    (cleaned cfg now (sessions db))
               /\ exists ss,
                    sessions result.2 = ss ++ [new_session cfg p uid tokens now (S uid)]
                    /\ forall s, s ∈ ss -> exists s0, s0 ∈ sessions db
                                                    /\ Session._id s = Session._id s0)
              \/ (result.1 = Return (login_error env p "email_exists")
                  /\ Exists (fun s => Session.refreshToken s = tp_refreshToken tokens)
                       (cleaned cfg now (sessions db))))
          /\ (Forall (fun s => Session.refreshToken s <> tp_refreshToken tokens) (sessions db)
              -> result.1 = Return (login_success env cfg p tokens))).
Proof.
  intros env sch cfg p now db Hid Hem Hfind Hval result uid.
  assert (Hnone : Collection.findOne
                    (fun u => User.providerId (LoginOrCreateUser.provider p) u
                        = Some (LoginOrCreateUser.id p)
                      \/ User.email u = UserModel.set_email (LoginOrCreateUser.email p))
                    (users db) = None).
  { unfold LoginOrCreateUser.findExistingUser, UserModel.findOne, gets in Hfind.
    by inversion Hfind. }
  pose proof (user_phase_new sch p now db Hnone Hval) as Hphase.
  fold uid in Hphase.
  assert (Husers : users result.2 =
            Collection.save User._id (first_login p now uid) (users db ++ [created p now uid])).
  { subst result. rewrite login_users by done. by rewrite Hphase. }
  assert (Hsame : User._id (created p now uid) = User._id (first_login p now uid)).
  { unfold first_login, created. by destruct (LoginOrCreateUser.provider p). }
  split. { rewrite Husers. unfold Collection.save. rewrite length_fmap, length_app. simpl. lia. }
  split. { rewrite Husers. apply elem_of_save_doc with (created p now uid); [|done].
           apply elem_of_app. right. by apply list_elem_of_singleton. }
  split. { intros u Hu Huid. rewrite Husers in Hu. apply elem_of_save_same_id in Hu; [done|].
           rewrite Huid. unfold first_login, created.
           by destruct (LoginOrCreateUser.provider p). }
  split. { unfold first_login, created. by destruct (LoginOrCreateUser.provider p). }
  split. { unfold first_login, created. by destruct (LoginOrCreateUser.provider p). }
  split. { unfold first_login, created. by destruct (LoginOrCreateUser.provider p). }
  split; [reflexivity|].
  subst result. rewrite login_phases by done. rewrite Hphase.
  destruct (session_phase_run env cfg p (first_login p now uid) now
              (mkDb (Collection.save User._id (first_login p now uid)
                       (users db ++ [created p now uid])) (sessions db) (S uid)))
    as (tokens & Hgen & Hrun).
  assert (Hfid : User._id (first_login p now uid) = uid).
  { unfold first_login, created. by destruct (LoginOrCreateUser.provider p). }
  rewrite Hfid in Hgen, Hrun.
  exists tokens. split; [exact Hgen|].
  rewrite Hrun. cbv zeta. simpl.
  destruct (bool_decide_reflect
              (Exists (fun s => Session.refreshToken s = tp_refreshToken tokens)
                 (deactivated uid (LoginOrCreateUser.MAX_SESSIONS_PER_USER cfg) now
                    (cleaned cfg now (sessions db))))) as [Hdup | Hfree];
    rewrite deactivated_refreshToken in *.
  - split.
    + right. split; [reflexivity | exact Hdup].
    + intros Hall. exfalso. apply Exists_exists in Hdup as (s & Hs & Htok).
      apply elem_of_cleaned in Hs. rewrite Forall_forall in Hall. by apply (Hall s).
  - split; [|reflexivity]. left. split; [reflexivity|]. split.
    + apply Forall_forall. intros s Hs Htok. apply Hfree, Exists_exists. by exists s.
    + simpl. eexists. split; [reflexivity|].
      intros s Hs. apply deactivated_ids in Hs as (s0 & Hs0 & Hsame0).
      exists s0. split; [by apply (elem_of_cleaned cfg now) | done].
Qed.

(** ** Logins and the gate *)

(** A successful login, in full. *)
Lemma login_success_run (env : Env) (sch : UserModel.Schema)
    (cfg : LoginOrCreateUser.SessionConfig) (p : LoginOrCreateUser.Params)
    (now : Date) (db db' : Db) (r : Res) (uid : ObjectId) :
  LoginOrCreateUser.loginOrCreateUser env sch cfg p now db = (Return r, db') ->
  logged_in_as r = Some (JOid uid) ->
  exists n tokens user,
    generateTokens env (JOid uid) ∅ now = Return tokens
    /\ r = login_success env cfg p tokens
    /\ sessions db' =
         deactivated uid (LoginOrCreateUser.MAX_SESSIONS_PER_USER cfg) now
           (cleaned cfg now (sessions db))
         ++ [new_session cfg p uid tokens now n]
    /\ user ∈ users db' /\ User._id user = uid
    /\ (forall u', u' ∈ users db' -> User._id u' = uid -> u' = user).
Proof.
  intros Hrun Has.
  destruct (decide (LoginOrCreateUser.id p = "")) as [Hid | Hid].
  { unfold LoginOrCreateUser.loginOrCreateUser in Hrun. rewrite Hid in Hrun.
    simpl in Hrun. inversion Hrun; subst. discriminate. }
  destruct (decide (LoginOrCreateUser.email p = "")) as [Hem | Hem].
  { unfold LoginOrCreateUser.loginOrCreateUser in Hrun. rewrite Hem in Hrun.
    rewrite orb_true_r in Hrun. simpl in Hrun. inversion Hrun; subst. discriminate. }
  rewrite login_phases in Hrun by done.
  destruct (user_phase_sessions sch p now db) as [Hss Hn].
  destruct (user_phase sch p now db) as [[user | e] db1] eqn:Hphase; simpl in Hss, Hn.
  2:{ inversion Hrun; subst. discriminate. }
  destruct (user_phase_stored sch p now db db1 user Hphase) as [Hin Huniq].
  destruct (session_phase_run env cfg p user now db1) as (tokens & Hgen & Hsess).
  rewrite Hsess in Hrun. cbv zeta in Hrun.
  case_bool_decide; [inversion Hrun; subst; discriminate|].
  inversion Hrun; subst. clear Hrun.
  destruct (generateTokens_ok env (User._id user) now) as (ja & jr & Hgen' & Hja & _).
  rewrite Hgen in Hgen'. inversion Hgen'; subst tokens.
  unfold logged_in_as in Has. simpl in Has. rewrite Hja in Has.
  inversion Has; subst uid.
  eexists _, _, user. split; [exact Hgen|]. split; [reflexivity|]. simpl.
  split; [by rewrite Hss|]. split; [done|]. split; [done|]. intros u' Hu' Hid'. by apply Huniq.
Qed.

Lemma generateTokens_access_claims (env : Env) (uid : ObjectId) (t : Date)
    (tokens : TokenPair) :
  generateTokens env (JOid uid) ∅ t = Return tokens ->
  exists j, tp_accessToken tokens = Signed j
    /\ jwt_alg j = "HS256"
    /\ jwt_key j = ACCESS_TOKEN_SECRET env
    /\ jwt_claims j !! "nbf" = None
    /\ jwt_claims j !! "exp" =
         Some (JNum (jwt.seconds t + default (1 * SECONDS_PER_DAY) (ACCESS_TOKEN_EXPIRY env)))
    /\ jwt_claims j !! "aud" = Some (JStr "InterviewReader-Users")
    /\ jwt_claims j !! "iss" = Some (JStr "InterviewReader")
    /\ jwt_claims j !! "type" = Some (JStr "access")
    /\ jwt_claims j !! "_id" = Some (JOid uid).
Proof.
  unfold generateTokens, generateAccessToken, generateRefreshToken, jwt.sign, token_payload.
  simpl. rewrite !(left_id_L ∅ (∪)). simpl.
  intros H. inversion H; subst; clear H. simpl.
  eexists. split; [reflexivity|]. simpl. repeat split.
Qed.

(** The access token of a pair issued at [t] verifies until its expiry. *)
Lemma issued_access_token_verifies (env : Env) (uid : ObjectId) (t t' : Date)
    (tokens : TokenPair) :
  generateTokens env (JOid uid) ∅ t = Return tokens ->
  jwt.seconds t' < jwt.seconds t + default (1 * SECONDS_PER_DAY) (ACCESS_TOKEN_EXPIRY env) ->
  exists claims,
    verifyAccessToken env (Some (tp_accessToken tokens)) t' = Return claims
    /\ claims !! "_id" = Some (JOid uid).
Proof.
  intros Hgen Hexp.
  destruct (generateTokens_access_claims env uid t tokens Hgen)
    as (j & -> & Halg & Hkey & Hnbf & Hexpc & Haud & Hiss & Htype & Hid).
  unfold verifyAccessToken, jwt.verify. simpl. rewrite Halg, Hkey.
  rewrite bool_decide_eq_true_2 by (apply list_elem_of_here).
  rewrite bool_decide_eq_true_2 by reflexivity. simpl.
  unfold jwt.check_nbf, jwt.check_exp, jwt.check_claim. rewrite Hnbf, Hexpc, Haud, Hiss.
  destruct (Z.leb_spec (jwt.seconds t + default (1 * SECONDS_PER_DAY) (ACCESS_TOKEN_EXPIRY env))
              (jwt.seconds t')) as [? | _]; [lia|].
  rewrite !bool_decide_eq_true_2 by reflexivity. rewrite Htype.
  rewrite bool_decide_eq_true_2 by reflexivity. simpl. eauto.
Qed.

(** After a successful login, a request that carries the access token of
    the reply, in the cookie or as bearer token, is let through by the
    gate as the user of the login, for as long as the token and the
    session have not expired and the account is active. *)
Theorem login_token_passes_the_gate :
  forall (env : Env) (sch : UserModel.Schema) (cfg : LoginOrCreateUser.SessionConfig)
         (p : LoginOrCreateUser.Params) (t : Date) (db db' : Db) (r : Res)
         (uid : ObjectId) (tok : Token) (maxAge : Z) (req : Request) (t' : Date),
    LoginOrCreateUser.loginOrCreateUser env sch cfg p t db = (Return r, db') ->
    logged_in_as r = Some (JOid uid) ->
    SetCookie "accessToken" tok maxAge ∈ res_cookies r ->
    AuthMiddleware.extractAccessToken req = Some tok ->
    (forall u, u ∈ users db' -> User._id u = uid -> User.isActive u = true) ->
    jwt.seconds t' < jwt.seconds t + default (1 * SECONDS_PER_DAY) (ACCESS_TOKEN_EXPIRY env) ->
    t' < t + LoginOrCreateUser.REFRESH_TOKEN_EXPIRY_DAYS cfg * MS_PER_DAY ->
    exists u ti db'',
      AuthMiddleware.verifyJwtToken env req t' db' = (Return (AuthMiddleware.Proceed u ti), db'')
      /\ u ∈ users db' /\ User._id u = uid
      /\ AuthMiddleware.ti_accessToken ti = tok
      /\ AuthMiddleware.ti_userId ti = JOid uid.
Proof.
  intros env sch cfg p t db db' r uid tok maxAge req t' Hrun Has Hcookie Hreq Hactive Hexp Hsess.
  destruct (login_success_run env sch cfg p t db db' r uid Hrun Has)
    as (n & tokens & user & Hgen & -> & Hss & Huser & Huid & Huniq).
  assert (tok = tp_accessToken tokens) as ->.
  { simpl in Hcookie. unfold LoginOrCreateUser.setSecureCookies in Hcookie.
    apply elem_of_cons in Hcookie as [[= -> _] | Hcookie]; [done|].
    apply list_elem_of_singleton in Hcookie. discriminate. }
  destruct (issued_access_token_verifies env uid t t' tokens Hgen Hexp) as (claims & Hver & Hid).
  rewrite verifyJwtToken_run, Hreq, Hver, Hid. simpl.
  destruct (findOne_is_Some (fun u => User._id u = uid) (users db') user Huser Huid)
    as (u & Hu).
  rewrite Hu. apply findOne_Some in Hu as [Huin Huid'].
  rewrite (Hactive u Huin Huid'). simpl. rewrite Huid'.
  destruct (findOne_is_Some (valid_session uid (tp_accessToken tokens) t') (sessions db')
              (new_session cfg p uid tokens t n)) as (s & Hs).
  { rewrite Hss. apply elem_of_app. right. by apply list_elem_of_singleton. }
  { unfold valid_session, new_session, LoginOrCreateUser.calculateExpiryDate. simpl.
    repeat split; done. }
  rewrite Hs. eexists _, _, _. split; [reflexivity|]. simpl. done.
Qed.

(** [loginOrCreateUser] does not read [isActive]: the login of a
    deactivated account goes through like any other (the counter goes up,
    tokens are issued), and the gate then refuses the access token it
    has issued with "Account is deactivated". *)
Theorem deactivated_account_logs_in_but_is_refused :
  forall (env : Env) (sch : UserModel.Schema) (cfg : LoginOrCreateUser.SessionConfig)
         (p : LoginOrCreateUser.Params) (now : Date) (db : Db) (u : User.t),
    LoginOrCreateUser.id p <> "" ->
    LoginOrCreateUser.email p <> "" ->
    LoginOrCreateUser.findExistingUser (LoginOrCreateUser.provider p)
      (LoginOrCreateUser.id p) (LoginOrCreateUser.email p) db = (Return (Some u), db) ->
    UserModel.validate sch u = None ->
    User.isActive u = false ->
    let result := LoginOrCreateUser.loginOrCreateUser env sch cfg p now db in
    exists tokens,
      generateTokens env (JOid (User._id u)) ∅ now = Return tokens
      /\ (result.1 = Return (login_success env cfg p tokens)
          \/ result.1 = Return (login_error env p "email_exists"))
      /\ users result.2 = Collection.save User._id (logged_in p now u) (users db)
      /\ User.loginCount (logged_in p now u) = User.loginCount u + 1
      /\ forall req t',
           AuthMiddleware.extractAccessToken req = Some (tp_accessToken tokens) ->
           jwt.seconds t' <
             jwt.seconds now + default (1 * SECONDS_PER_DAY) (ACCESS_TOKEN_EXPIRY env) ->
           AuthMiddleware.verifyJwtToken env req t' result.2 =
             (Return (AuthMiddleware.NextError
                        (ApiErr 401 "Account is deactivated"
                           [("auth", "User account has been deactivated")])), result.2).
Proof.
  intros env sch cfg p now db u Hid Hem Hfind Hval Hact result.
  apply findExistingUser_Some in Hfind.
  pose proof (user_phase_existing sch p now db u Hfind Hval) as Hphase.
  assert (Husers : users result.2 = Collection.save User._id (logged_in p now u) (users db)).
  { subst result. rewrite login_users by done. by rewrite Hphase. }
  destruct (session_phase_run env cfg p (logged_in p now u) now
              (set_users (Collection.save User._id (logged_in p now u) (users db)) db))
    as (tokens & Hgen & Hrun).
  rewrite logged_in_id in Hgen, Hrun.
  exists tokens. split; [exact Hgen|]. split.
  { subst result. rewrite login_phases by done. rewrite Hphase, Hrun. cbv zeta.
    case_bool_decide; [right | left]; reflexivity. }
  split; [exact Husers|]. split.
  { unfold logged_in. destruct (UserModel.hasProvider u _); simpl; [done|].
    by destruct (LoginOrCreateUser.provider p). }
  intros req t' Hreq Hexp.
  destruct (issued_access_token_verifies env (User._id u) now t' tokens Hgen Hexp)
    as (claims & Hver & Hcid).
  rewrite verifyJwtToken_run, Hreq, Hver, Hcid. simpl.
  apply findOne_Some in Hfind as [Hin _].
  destruct (findOne_is_Some (fun u0 => User._id u0 = User._id u) (users result.2)
              (logged_in p now u)) as (u' & Hu').
  { rewrite Husers. apply elem_of_save_doc with u; [done|]. by rewrite logged_in_id. }
  { apply logged_in_id. }
  rewrite Hu'. apply findOne_Some in Hu' as [Hin' Hid'].
  rewrite Husers in Hin'. apply elem_of_save_same_id in Hin'; [|by rewrite logged_in_id].
  subst u'.
  assert (User.isActive (logged_in p now u) = false) as ->; [|reflexivity].
  unfold logged_in. destruct (UserModel.hasProvider u _); simpl; [done|].
  by destruct (LoginOrCreateUser.provider p).
Qed.

(** ** Logout and the gate *)

(** How a request gets through the gate. *)
Lemma verifyJwtToken_Proceed_inv (env : Env) (req : Request) (now : Date) (db db1 : Db)
    (u : User.t) (ti : AuthMiddleware.TokenInfo) :
  AuthMiddleware.verifyJwtToken env req now db = (Return (AuthMiddleware.Proceed u ti), db1) ->
  exists tok decoded s,
    AuthMiddleware.extractAccessToken req = Some tok
    /\ verifyAccessToken env (Some tok) now = Return decoded
    /\ default JUndefined (decoded !! "_id") = JOid (User._id u)
    /\ Collection.findOne (fun x => User._id x = User._id u) (users db) = Some u
    /\ User.isActive u = true
    /\ Collection.findOne (valid_session (User._id u) tok now) (sessions db) = Some s
    /\ AuthMiddleware.ti_accessToken ti = tok
    /\ db1 = set_sessions
               (Collection.save Session._id (Session.set_lastUsed now s) (sessions db)) db.
Proof.
  rewrite verifyJwtToken_run. intros H.
  destruct (AuthMiddleware.extractAccessToken req) as [tok |]; [|discriminate].
  destruct (verifyAccessToken env (Some tok) now) as [decoded | e] eqn:Hver; [|discriminate].
  destruct (default JUndefined (decoded !! "_id")) as [ | | b | z | str | i] eqn:Hid;
    simpl in H; try discriminate.
  destruct (Collection.findOne (fun u0 => User._id u0 = i) (users db)) as [user |] eqn:Huser;
    [|discriminate].
  destruct (User.isActive user) eqn:Hact; simpl in H; [|discriminate].
  destruct (Collection.findOne _ (sessions db)) as [s |] eqn:Hs; [|discriminate].
  inversion H; subst; clear H. simpl.
  pose proof (findOne_Some _ _ _ Huser) as [_ Hi]. simpl in Hi. subst i.
  exists tok, decoded, s. repeat split; done.
Qed.

(** Without an active session that carries the token, the gate refuses. *)
Lemma gate_needs_active_session (env : Env) (req : Request) (now : Date) (db : Db)
    (tok : Token) :
  AuthMiddleware.extractAccessToken req = Some tok ->
  (forall s, s ∈ sessions db -> Session.accessToken s = tok -> Session.isActive s <> true) ->
  exists message errors,
    AuthMiddleware.verifyJwtToken env req now db =
      (Return (AuthMiddleware.NextError (ApiErr 401 message errors)), db).
Proof.
  intros Hreq Hno. rewrite verifyJwtToken_run, Hreq.
  destruct (verifyAccessToken env (Some tok) now) as [decoded | e].
  2:{ unfold AuthMiddleware.handleAuthError. repeat case_match; eauto. }
  destruct (castObjectId _) as [o | e]; [|eauto].
  destruct (o ≫= _) as [user |]; [|eauto].
  destruct (User.isActive user); simpl; [|eauto].
  destruct (Collection.findOne _ (sessions db)) as [s |] eqn:Hs; [|eauto].
  exfalso. apply findOne_Some in Hs as [Hin (_ & Htok & Hact & _)].
  by apply (Hno s Hin Htok).
Qed.

(** Logging out ends the access token too: once [POST /auth/logout] has
    deleted the session of the refresh-token cookie, the gate refuses
    every request that presents the access token of that session, at any
    time.  Tokens are unique in the store before the call. *)
Theorem logout_revokes_the_access_token :
  forall (env : Env) (sch : UserModel.Schema) (req : Request) (now : Date)
         (db : Db) (rt : Token) (s : Session.t),
    cookies_refreshToken req = Some rt ->
    token_truthy rt = true ->
    NoDup (map Session.refreshToken (sessions db)) ->
    NoDup (map Session.accessToken (sessions db)) ->
    s ∈ sessions db -> Session.refreshToken s = rt -> Session.isActive s = true ->
    let db' := (Routes.post_logout env sch req now db).2 in
    forall (req' : Request) (now' : Date),
      AuthMiddleware.extractAccessToken req' = Some (Session.accessToken s) ->
      exists message errors,
        AuthMiddleware.verifyJwtToken env req' now' db' =
          (Return (AuthMiddleware.NextError (ApiErr 401 message errors)), db').
Proof.
  intros env sch req now db rt s Hcookie Htruthy Hrts Hats Hin Hrt Hact db' req' now' Hreq'.
  apply gate_needs_active_session with (Session.accessToken s); [done|].
  intros s' Hs' Htok _.
  destruct (logout_run env sch req now db rt Hcookie Htruthy) as (ss' & Hdb' & Hsub & _).
  destruct (deleteOne_single
              (fun x => Session.refreshToken x = rt /\ Session.isActive x = true)
              (sessions db) s) as (c' & Hdel & Hmem); [done | done | | | ].
  { intros d' Hd' [Hrt' _].
    apply (NoDup_fmap_same Session.refreshToken (sessions db)); [done..|congruence]. }
  { by apply (NoDup_fmap_1 Session.refreshToken). }
  rewrite Hdel in Hdb', Hsub. simpl in Hdb', Hsub.
  subst db'. rewrite Hdb' in Hs'. simpl in Hs'.
  apply Hsub, Hmem in Hs' as [Hs' Hne]. apply Hne.
  by apply (NoDup_fmap_same Session.accessToken (sessions db)).
Qed.

(** After [logout-all-others] has answered 200, the gate refuses the
    access token of every other session of the caller's user, at any
    time, and lets the caller's own token through as before.  Access
    tokens are unique in the store before the call. *)
Theorem logout_others_revokes_the_other_tokens :
  forall (env : Env) (sch : UserModel.Schema) (req : Request) (now : Date)
         (db db1 db' : Db) (u : User.t) (ti : AuthMiddleware.TokenInfo)
         (r : Res) (body : Body),
    AuthMiddleware.verifyJwtToken env req now db
      = (Return (AuthMiddleware.Proceed u ti), db1) ->
    NoDup (map Session.accessToken (sessions db)) ->
    Routes.post_logout_all_others env sch req now db = (Return r, db') ->
    res_reply r = SendJson 200 body ->
    (forall (s' : Session.t) (req' : Request) (now' : Date),
        s' ∈ sessions db -> Session.userId s' = User._id u ->
        Session.accessToken s' <> AuthMiddleware.ti_accessToken ti ->
        AuthMiddleware.extractAccessToken req' = Some (Session.accessToken s') ->
        exists message errors,
          AuthMiddleware.verifyJwtToken env req' now' db' =
            (Return (AuthMiddleware.NextError (ApiErr 401 message errors)), db'))
    /\ (exists u' ti' db'',
          AuthMiddleware.verifyJwtToken env req now db'
            = (Return (AuthMiddleware.Proceed u' ti'), db'')
          /\ User._id u' = User._id u
          /\ AuthMiddleware.ti_accessToken ti' = AuthMiddleware.ti_accessToken ti).
Proof.
  intros env sch req now db db1 db' u ti r body Hgate Htoks Hroute H200.
  destruct (verifyJwtToken_Proceed_inv _ _ _ _ _ _ _ Hgate)
    as (tok & decoded & s & Hreq & Hver & Hdec & Hufind & Huact & Hs & Hti & Hdb1).
  rewrite Hti. set (uid := User._id u) in *.
  pose proof (findOne_Some _ _ _ Hs) as [Hsin (Hsuid & Hstok & Hsact & Hsexp)].
  set (s1 := Session.set_lastUsed now s) in *.
  (* the route *)
  unfold Routes.post_logout_all_others, Routes.protected in Hroute.
  unfold bind at 1 in Hroute. rewrite Hgate in Hroute.
  unfold try_catch, UserControllers.logoutAllOtherDevices in Hroute.
  unfold bind at 1 in Hroute. rewrite Hti in Hroute. fold uid in Hroute.
  destruct (invalidateAllOtherSessions_run sch uid tok db1)
    as (out & us' & Hrun & Hnil & Hcons).
  rewrite Hrun in Hroute.
  assert (Hss1 : sessions db1 = Collection.save Session._id s1 (sessions db))
    by (by rewrite Hdb1).
  assert (Hus1 : users db1 = users db) by (by rewrite Hdb1).
  rewrite Hus1 in Hnil, Hcons.
  destruct out as [res | e].
  2:{ exfalso. simpl in Hroute. inversion Hroute as [[Hr Hd]].
      rewrite <- Hr in H200.
      destruct (filter (other_active uid tok) (sessions db1)) eqn:Hf.
      - destruct (Hnil eq_refl) as [_ [? ?]]. discriminate.
      - destruct Hcons as [[msg Hm] | [[? ?] _]]; [done | | discriminate].
        inversion Hm as [He]. rewrite He in H200. simpl in H200. discriminate. }
  simpl in Hroute. inversion Hroute as [[Hr Hd]]. clear Hroute Hr Hd r db' H200.
  split.
  - intros s' req' now' Hs' Hs'uid Hs'tok Hreq'.
    apply gate_needs_active_session with (Session.accessToken s'); [done|].
    simpl. intros d' Hd' Hd'tok Hd'act.
    apply list_elem_of_fmap in Hd' as (d1 & -> & Hd1).
    rewrite Hss1 in Hd1. unfold Collection.save in Hd1.
    apply list_elem_of_fmap in Hd1 as (d & -> & Hd).
    destruct (decide (Session._id d = Session._id s1)) as [Hid | Hid].
    + (* the stamped session of the caller *)
      case_decide as Ho; simpl in Hd'tok, Hd'act; [discriminate|].
      apply Hs'tok. by rewrite <- Hd'tok.
    + case_decide as Ho; simpl in Hd'tok, Hd'act; [discriminate|].
      apply Ho. unfold other_active.
      assert (d = s') as ->
        by (by apply (NoDup_fmap_same Session.accessToken (sessions db))).
      done.
  - (* the caller again *)
    rewrite verifyJwtToken_run, Hreq, Hver, Hdec. simpl.
    assert (Huser' : exists u', Collection.findOne (fun x => User._id x = uid) us' = Some u'
                                /\ User.isActive u' = true).
    { destruct (filter (other_active uid tok) (sessions db1)) eqn:Hf.
      - destruct (Hnil eq_refl) as [-> _]. eauto.
      - destruct Hcons as [[msg Hm] | [_ Hsave]]; [done | discriminate |].
        rewrite (Hsave u Hufind).
        destruct (findOne_is_Some (fun x => User._id x = uid)
                    (Collection.save User._id (User.set_loginCount 1 u) (users db))
                    (User.set_loginCount 1 u)) as (u' & Hu').
        { apply elem_of_save_doc with u; [|done]. by apply findOne_Some in Hufind as [? _]. }
        { done. }
        exists u'. split; [done|].
        apply findOne_Some in Hu' as [Hu'in Hu'id].
        apply elem_of_save_same_id in Hu'in; [|done]. by subst u'. }
    destruct Huser' as (u' & Hu' & Hu'act). rewrite Hu', Hu'act. simpl.
    pose proof (findOne_Some _ _ _ Hu') as [_ Hu'id]. simpl in Hu'id. rewrite Hu'id.
    destruct (findOne_is_Some (valid_session uid tok now)
                ((fun d => if decide (other_active uid tok d)
                           then Session.set_isActive false d else d) <$> sessions db1) s1)
      as (s'' & Hs'').
    { apply list_elem_of_fmap. exists s1. split.
      - rewrite decide_False; [done|]. unfold other_active. simpl. tauto.
      - rewrite Hss1. by apply elem_of_save_doc with s. }
    { unfold valid_session. simpl. done. }
    rewrite Hs''. eexists _, _, _. split; [reflexivity|]. simpl. done.
Qed.

(** A login whose refresh token is already stored (the token of a login
    of the same user in the same clock second is the same text) fails at
    the unique index of the session collection.  It is answered with
    [error=email_exists]; no session is added, but the user document has
    been written by then: the counter is one higher. *)
Theorem login_with_a_stored_refresh_token_fails_but_counts :
  forall (env : Env) (sch : UserModel.Schema) (cfg : LoginOrCreateUser.SessionConfig)
         (p : LoginOrCreateUser.Params) (now : Date) (db : Db) (u : User.t)
         (tokens : TokenPair) (s0 : Session.t),
    LoginOrCreateUser.id p <> "" ->
    LoginOrCreateUser.email p <> "" ->
    LoginOrCreateUser.findExistingUser (LoginOrCreateUser.provider p)
      (LoginOrCreateUser.id p) (LoginOrCreateUser.email p) db = (Return (Some u), db) ->
    UserModel.validate sch u = None ->
    generateTokens env (JOid (User._id u)) ∅ now = Return tokens ->
    s0 ∈ sessions db -> Session.refreshToken s0 = tp_refreshToken tokens ->
    Session.isActive s0 = true -> now <= Session.expiresAt s0 ->
    let result := LoginOrCreateUser.loginOrCreateUser env sch cfg p now db in
    result.1 = Return (login_error env p "email_exists")
    /\ users result.2 = Collection.save User._id (logged_in p now u) (users db)
    /\ User.loginCount (logged_in p now u) = User.loginCount u + 1
    /\ sessions result.2 =
         deactivated (User._id u) (LoginOrCreateUser.MAX_SESSIONS_PER_USER cfg) now
           (cleaned cfg now (sessions db))
    /\ (length (sessions result.2) <= length (sessions db))%nat.
Proof.
  intros env sch cfg p now db u tokens s0 Hid Hem Hfind Hval Hgen Hs0 Hrt Hact Hexp result.
  apply findExistingUser_Some in Hfind.
  pose proof (user_phase_existing sch p now db u Hfind Hval) as Hphase.
  destruct (session_phase_run env cfg p (logged_in p now u) now
              (set_users (Collection.save User._id (logged_in p now u) (users db)) db))
    as (tokens' & Hgen' & Hrun).
  rewrite logged_in_id in Hgen', Hrun. rewrite Hgen in Hgen'. inversion Hgen'; subst tokens'.
  simpl in Hrun.
  assert (Hin : s0 ∈ cleaned cfg now (sessions db)).
  { unfold cleaned. destruct (LoginOrCreateUser.CLEANUP_EXPIRED_ON_LOGIN cfg); [|done].
    apply list_elem_of_filter. split; [|done].
    unfold SessionModel.expired_or_inactive. intros [? | ?]; [lia | congruence]. }
  rewrite bool_decide_eq_true_2 in Hrun.
  2:{ apply Exists_exists. unfold deactivated. destruct (_ <=? _).
      - eexists. split; [apply list_elem_of_fmap; eexists; split; [reflexivity | exact Hin]|].
        by case_decide.
      - eauto. }
  assert (Hres : result =
            (Return (login_error env p "email_exists"),
             set_sessions
               (deactivated (User._id u) (LoginOrCreateUser.MAX_SESSIONS_PER_USER cfg) now
                  (cleaned cfg now (sessions db)))
               (set_users (Collection.save User._id (logged_in p now u) (users db)) db))).
  { subst result. rewrite login_phases by done. by rewrite Hphase, Hrun. }
  rewrite Hres. simpl. split; [done|]. split; [done|]. split.
  { unfold logged_in. destruct (UserModel.hasProvider u _); simpl; [done|].
    by destruct (LoginOrCreateUser.provider p). }
  split; [done|].
  transitivity (length (cleaned cfg now (sessions db))).
  - unfold deactivated. destruct (_ <=? _); [by rewrite length_fmap | done].
  - unfold cleaned. destruct (LoginOrCreateUser.CLEANUP_EXPIRED_ON_LOGIN cfg); [|done].
    apply length_filter.
Qed.

(** ** Logout from all devices *)

Lemma elem_of_length_pos {A} (x : A) (l : list A) : x ∈ l -> (0 < length l)%nat.
Proof. destruct l; [intros H; by apply elem_of_nil in H | simpl; lia]. Qed.

(** The handler once the user id is settled. *)
Lemma logoutAllDevices_from_session (env : Env) (sch : UserModel.Schema) (req : Request)
    (now : Date) (db : Db) (rt : Token) (s : Session.t) :
  cookies_refreshToken req = Some rt -> token_truthy rt = true ->
  Collection.findOne (fun x => Session.refreshToken x = rt) (sessions db) = Some s ->
  let uid := Session.userId s in
  let n := Z.of_nat (length (filter (fun x => Session.userId x = uid) (sessions db))) in
  let rest := filter (fun x => Session.userId x <> uid) (sessions db) in
  LogoutUser.logoutAllDevices env sch req now db =
    (Return {| res_cookies := LogoutUser.clearAuthCookies;
               res_reply :=
                 SendJson 200
                   [("message", JVal (JStr "Logged out from all devices"));
                    ("sessionsDeleted", JVal (JNum n))] |},
     mkDb (match Collection.findOne (fun u => User._id u = uid) (users db) with
           | Some u =>
               match UserModel.validate sch (User.set_loginCount 0 u) with
               | None => Collection.save User._id (User.set_loginCount 0 u) (users db)
               | Some _ => users db
               end
           | None => users db
           end) rest (nextId db)).
Proof.
  intros Hcookie Htruthy Hfind uid n rest.
  assert (Hpos : (0 <? n) = true).
  { apply Z.ltb_lt. subst n. apply findOne_Some in Hfind as [Hin _].
    apply (Nat2Z.inj_lt 0). apply (elem_of_length_pos s). by apply list_elem_of_filter. }
  unfold LogoutUser.logoutAllDevices. rewrite Hcookie, Htruthy.
  unfold try_catch at 1. unfold bind at 1. unfold try_catch at 1.
  unfold bind at 1, SessionModel.findOne, gets. rewrite Hfind. simpl.
  unfold bind at 1. unfold bind at 1. unfold try_catch at 1.
  unfold bind at 1, lift. simpl. unfold bind at 1, SessionModel.deleteMany. simpl.
  fold uid.
  assert (Hn : Z.of_nat (length (filter (fun s0 => Some (Session.userId s0) = Some uid)
                                   (sessions db))) = n).
  { subst n. f_equal. f_equal. apply list_filter_iff. intros x. split; congruence. }
  assert (Hrest : filter (fun s0 => ~ (Some (Session.userId s0) = Some uid)) (sessions db) = rest).
  { subst rest. apply list_filter_iff. intros x. split; intros H ?; apply H; congruence. }
  rewrite Hn, Hrest. unfold ret at 1. unfold bind at 1. unfold try_catch at 1.
  rewrite Hpos. unfold bind at 1, UserModel.findById. unfold bind at 1, lift. simpl.
  unfold UserModel.findOne, gets. simpl.
  destruct (Collection.findOne (fun u => User._id u = uid) (users db)) as [u |]; simpl.
  - rewrite user_save_run.
    destruct (UserModel.validate sch (User.set_loginCount 0 u)); reflexivity.
  - reflexivity.
Qed.

Lemma validate_reset (sch : UserModel.Schema) (u : User.t) :
  UserModel.validate sch u = None -> UserModel.validate sch (User.set_loginCount 0 u) = None.
Proof.
  unfold UserModel.validate. simpl. intros H.
  repeat match type of H with
         | (if ?b then _ else _) = _ => destruct b; [discriminate|]
         end.
  reflexivity.
Qed.

(** [logoutAllDevices] with the refresh-token cookie of a stored session
    (refresh tokens being unique): every session of the owner of that
    session is deleted, whoever the access-token cookie names, and the
    sessions of all other users are left as they are; the reply is 200 and
    reports the number deleted; the owner's counter is reset to 0. *)
Theorem logout_all_deletes_every_session_of_the_owner :
  forall (env : Env) (sch : UserModel.Schema) (req : Request) (now : Date)
         (db : Db) (rt : Token) (s : Session.t),
    cookies_refreshToken req = Some rt ->
    token_truthy rt = true ->
    NoDup (map Session.refreshToken (sessions db)) ->
    s ∈ sessions db -> Session.refreshToken s = rt ->
    let uid := Session.userId s in
    let result := LogoutUser.logoutAllDevices env sch req now db in
    sessions result.2 = filter (fun x => Session.userId x <> uid) (sessions db)
    /\ (exists body,
          result.1 = Return {| res_cookies := LogoutUser.clearAuthCookies;
                               res_reply := SendJson 200 body |}
          /\ property "sessionsDeleted" body =
               Some (JVal (JNum (Z.of_nat (length (filter (fun x => Session.userId x = uid)
                                                     (sessions db)))))))
    /\ (forall u, Collection.findOne (fun u => User._id u = uid) (users db) = Some u ->
                  UserModel.validate sch u = None ->
                  users result.2 = Collection.save User._id (User.set_loginCount 0 u) (users db))
    /\ (Collection.findOne (fun u => User._id u = uid) (users db) = None ->
        users result.2 = users db).
Proof.
  intros env sch req now db rt s Hcookie Htruthy Hnd Hin Hrt uid result.
  assert (Hfind : Collection.findOne (fun x => Session.refreshToken x = rt) (sessions db)
                  = Some s).
  { destruct (findOne_is_Some (fun x => Session.refreshToken x = rt) (sessions db) s Hin Hrt)
      as (s' & Hs'). rewrite Hs'. f_equal.
    apply findOne_Some in Hs' as [Hin' Hrt'].
    apply (NoDup_fmap_same Session.refreshToken (sessions db)); [done..|congruence]. }
  pose proof (logoutAllDevices_from_session env sch req now db rt s Hcookie Htruthy Hfind)
    as Hrun. cbv zeta in Hrun. fold uid in Hrun. subst result. rewrite Hrun. simpl.
  split; [reflexivity|]. split; [eexists; split; reflexivity|]. split.
  - intros u Hu Hval. by rewrite Hu, (validate_reset sch u Hval).
  - by intros ->.
Qed.

(** [logoutAllDevices] answers every request with status 200, the two
    cookies cleared and a count that is not negative: whatever goes wrong
    inside is caught on the spot.  It adds no session. *)
Theorem logout_all_always_answers_200 :
  forall (env : Env) (sch : UserModel.Schema) (req : Request) (now : Date) (db : Db),
  exists n db',
    LogoutUser.logoutAllDevices env sch req now db =
      (Return {| res_cookies := LogoutUser.clearAuthCookies;
                 res_reply :=
                   SendJson 200
                     [("message", JVal (JStr "Logged out from all devices"));
                      ("sessionsDeleted", JVal (JNum n))] |}, db')
    /\ 0 <= n
    /\ nextId db' = nextId db
    /\ (forall x, x ∈ sessions db' -> x ∈ sessions db).
Proof.
  intros env sch req now db.
  assert (Htail : forall (userId : JsValue) (db0 : Db),
    sessions db0 = sessions db -> nextId db0 = nextId db ->
    exists n db',
      (deletedCount <-
         (if truthy userId
          then
            deleted <- try_catch
              (o <- lift (castObjectId userId) ;;
               n <- SessionModel.deleteMany (fun s => Some (Session.userId s) = o) ;;
               ret (Some n))
              (fun error => ret None) ;;
            match deleted with
            | None => ret 0
            | Some n =>
                try_catch
                  (if 0 <? n
                   then
                     user <- UserModel.findById userId ;;
                     match user with
                     | Some user =>
                         UserModel.save sch (User.set_loginCount 0 user) ;;; ret tt
                     | None => ret tt
                     end
                   else ret tt)
                  (fun error => ret tt) ;;;
                ret n
            end
          else ret 0) ;;
       ret {| res_cookies := LogoutUser.clearAuthCookies;
              res_reply :=
                SendJson 200
                  [("message", JVal (JStr "Logged out from all devices"));
                   ("sessionsDeleted", JVal (JNum deletedCount))] |}) db0 =
        (Return {| res_cookies := LogoutUser.clearAuthCookies;
                   res_reply :=
                     SendJson 200
                       [("message", JVal (JStr "Logged out from all devices"));
                        ("sessionsDeleted", JVal (JNum n))] |}, db')
      /\ 0 <= n /\ nextId db' = nextId db
      /\ (forall x, x ∈ sessions db' -> x ∈ sessions db)).
  { intros userId db0 Hss Hn.
    destruct (truthy userId).
    2:{ eexists 0, db0. unfold bind, ret. simpl. rewrite Hss, Hn. repeat split; done. }
    unfold bind at 1. unfold bind at 1. unfold try_catch at 1. unfold bind at 1, lift.
    destruct (castObjectId userId) as [o | e] eqn:Hcast.
    2:{ eexists 0, db0. unfold ret. simpl. rewrite Hss, Hn. repeat split; done. }
    unfold bind at 1, SessionModel.deleteMany. simpl. unfold ret at 1.
    set (n := Z.of_nat (length (filter (fun s => Some (Session.userId s) = o) (sessions db0)))).
    set (db2 := set_sessions _ db0).
    assert (Hsub : forall x, x ∈ sessions db2 -> x ∈ sessions db).
    { intros x. subst db2. simpl. rewrite list_elem_of_filter, Hss. tauto. }
    unfold bind at 1. unfold try_catch at 1.
    destruct (0 <? n).
    2:{ exists n, db2. unfold ret. simpl. repeat split; [lia | done | done]. }
    unfold bind at 1, UserModel.findById. rewrite Hcast. unfold bind at 1, lift.
    destruct o as [i |]; simpl.
    2:{ exists n, db2. unfold ret. simpl. repeat split; [lia | done | done]. }
    unfold UserModel.findOne, gets.
    destruct (Collection.findOne (fun u => User._id u = i) (users db0)) as [u |]; simpl.
    2:{ exists n, db2. unfold ret. simpl. repeat split; [lia | done | done]. }
    unfold bind at 1. rewrite user_save_run. destruct (UserModel.validate sch _); simpl.
    - exists n, db2. unfold ret. simpl. repeat split; [lia | done | done].
    - eexists n, _. unfold ret. simpl. split; [reflexivity|]. simpl.
      repeat split; [lia | done | done]. }
  unfold LogoutUser.logoutAllDevices, try_catch at 1. unfold bind at 1.
  destruct (cookies_refreshToken req) as [rt |].
  2:{ unfold ret at 1.
      destruct (Htail (if negb (truthy JNull) && from_option token_truthy false
                                                   (cookies_accessToken req)
                       then LogoutUser.getUserIdFromToken env (cookies_accessToken req) now
                       else JNull) db eq_refl eq_refl) as (n & db' & Hrun & H).
      cbv zeta. rewrite Hrun. eauto. }
  destruct (token_truthy rt).
  2:{ unfold ret at 1.
      destruct (Htail (if negb (truthy JNull) && from_option token_truthy false
                                                   (cookies_accessToken req)
                       then LogoutUser.getUserIdFromToken env (cookies_accessToken req) now
                       else JNull) db eq_refl eq_refl) as (n & db' & Hrun & H).
      cbv zeta. rewrite Hrun. eauto. }
  unfold try_catch at 1, bind at 1, SessionModel.findOne, gets.
  set (fromSession := from_option (fun s => JOid (Session.userId s)) JUndefined
                        (Collection.findOne (fun s => Session.refreshToken s = rt) (sessions db))).
  unfold ret at 1.
  destruct (Htail (if negb (truthy fromSession) && from_option token_truthy false
                                                      (cookies_accessToken req)
                   then LogoutUser.getUserIdFromToken env (cookies_accessToken req) now
                   else fromSession) db eq_refl eq_refl) as (n & db' & Hrun & H).
  cbv zeta. rewrite Hrun. eauto.
Qed.

(** ** Reading a token without verifying it *)

Lemma ms_seconds (e now : Z) : e * 1000 <= now <-> e <= jwt.seconds now.
Proof.
  unfold jwt.seconds. split; intros H.
  - apply Z.div_le_lower_bound; lia.
  - pose proof (Z.mul_div_le now 1000). nia.
Qed.

(** For the access token of an issued pair, [isTokenExpired] says
    "expired" at exactly the times from which on [verifyAccessToken]
    throws "Access token has expired". *)
Theorem isTokenExpired_agrees_with_verification :
  forall (ToNumber : JsValue -> option Z) (env : Env) (uid : ObjectId) (t0 now : Date)
         (tokens : TokenPair),
    (forall z, ToNumber (JNum z) = Some z) ->
    0 <= now ->
    generateTokens env (JOid uid) ∅ t0 = Return tokens ->
    isTokenExpired ToNumber (Some (tp_accessToken tokens)) now = true
    <-> verifyAccessToken env (Some (tp_accessToken tokens)) now
          = Throw (Error "Access token has expired").
Proof.
  intros ToNumber env uid t0 now tokens Hnum Hnow Hgen.
  destruct (generateTokens_access_claims env uid t0 tokens Hgen)
    as (j & -> & Halg & Hkey & Hnbf & Hexpc & Haud & Hiss & Htype & Hid).
  set (e := jwt.seconds t0 + default (1 * SECONDS_PER_DAY) (ACCESS_TOKEN_EXPIRY env)) in *.
  assert (Hver : verifyAccessToken env (Some (Signed j)) now =
                 if e <=? jwt.seconds now then Throw (Error "Access token has expired")
                 else Return (jwt_claims j)).
  { unfold verifyAccessToken, jwt.verify. simpl. rewrite Halg, Hkey.
    rewrite bool_decide_eq_true_2 by (apply list_elem_of_here).
    rewrite bool_decide_eq_true_2 by reflexivity. simpl.
    unfold jwt.check_nbf, jwt.check_exp, jwt.check_claim. rewrite Hnbf, Hexpc, Haud, Hiss.
    destruct (e <=? jwt.seconds now); [reflexivity|].
    rewrite !bool_decide_eq_true_2 by reflexivity. rewrite Htype.
    by rewrite bool_decide_eq_true_2 by reflexivity. }
  rewrite Hver.
  unfold isTokenExpired, getTokenExpiry, jwt_decode. rewrite Hexpc. simpl.
  destruct (Z.eqb_spec e 0) as [He | He]; simpl.
  - assert (0 <= jwt.seconds now) by (apply ms_seconds; lia).
    destruct (Z.leb_spec e (jwt.seconds now)); [done | lia].
  - destruct (Z.eqb_spec e 0) as [? | _]; [done|]. simpl. rewrite Hnum.
    destruct (Z.leb_spec (e * 1000) now) as [H1 | H1],
             (Z.leb_spec e (jwt.seconds now)) as [H2 | H2]; try done.
    + apply ms_seconds in H1. lia.
    + apply ms_seconds in H2. lia.
Qed.

(** For every token: the time left is 0 exactly when the token counts as
    expired, and it is never negative; text that is no JWT counts as
    expired; and neither helper looks at anything but the [exp] claim, so
    a token with a forged signature is "not expired" like the original. *)
Theorem time_until_expiry_is_zero_iff_expired :
  forall (ToNumber : JsValue -> option Z) (token : option Token) (now : Date),
    (getTimeUntilExpiry ToNumber token now = Some 0
     <-> isTokenExpired ToNumber token now = true)
    /\ (forall n, getTimeUntilExpiry ToNumber token now = Some n -> 0 <= n)
    /\ (jwt_decode token = None -> isTokenExpired ToNumber token now = true)
    /\ (forall j j',
          token = Some (Signed j) -> jwt_claims j' = jwt_claims j ->
          isTokenExpired ToNumber (Some (Signed j')) now = isTokenExpired ToNumber token now).
Proof.
  intros ToNumber token now. unfold getTimeUntilExpiry, isTokenExpired.
  split; [|split; [|split]].
  - destruct (truthy (getTokenExpiry token)); simpl; [|done].
    destruct (ToNumber (getTokenExpiry token)) as [e |]; [|done].
    destruct (Z.leb_spec (e * 1000) now); split; intros Heq; try done.
    + f_equal. lia.
    + inversion Heq. lia.
  - intros n. destruct (truthy (getTokenExpiry token)); simpl.
    + destruct (ToNumber (getTokenExpiry token)); [|done]. intros [= <-]. lia.
    + intros [= <-]. done.
  - intros Hnone. unfold getTokenExpiry. by rewrite Hnone.
  - intros j j' -> Hclaims. unfold getTokenExpiry, jwt_decode. by rewrite Hclaims.
Qed.

(** ** The bearer header as text *)

Lemma substring_all (s : string) : String.substring 0 (String.length s) s = s.
Proof. induction s as [| a s IH]; simpl; [done | by rewrite IH]. Qed.

Lemma prefix_split (p h : string) :
  String.prefix p h = true ->
  h = p +:+ String.substring (String.length p) (String.length h - String.length p) h.
Proof.
  revert h. induction p as [| a p IH]; intros h Hp.
  - change ("" +:+ ?x) with x. simpl. by rewrite Nat.sub_0_r, substring_all.
  - destruct h as [| b h]; [discriminate|]. simpl in Hp.
    destruct (Ascii.ascii_dec a b) as [-> | ?]; [|discriminate].
    change (String b p +:+ ?x) with (String b (p +:+ x)). simpl.
    f_equal. by apply IH.
Qed.

(** [extractTokenFromHeader] returns what follows ['Bearer '] and nothing
    else: it undoes putting the scheme in front of a token, whatever it
    returns comes from a header of that form, and a header with the scheme
    in another case, an empty or a missing header give [null]. *)
Theorem bearer_header_round_trip :
  forall (t : string),
    HeaderText.extractTokenFromHeader (Some ("Bearer " +:+ t)) = Some t
    /\ (forall h, HeaderText.extractTokenFromHeader (Some h) = Some t -> h = "Bearer " +:+ t)
    /\ HeaderText.extractTokenFromHeader (Some ("bearer " +:+ t)) = None
    /\ HeaderText.extractTokenFromHeader (Some "") = None
    /\ HeaderText.extractTokenFromHeader None = None.
Proof.
  intros t. split; [|split; [|repeat split]].
  - unfold HeaderText.extractTokenFromHeader. simpl.
    change ("" +:+ t) with t. simpl. rewrite Nat.sub_0_r, substring_all. by destruct t.
  - intros h. unfold HeaderText.extractTokenFromHeader.
    destruct (String.eqb h ""); simpl; [discriminate|].
    destruct (String.prefix "Bearer " h) eqn:Hp; simpl; [|discriminate].
    apply prefix_split in Hp. simpl in Hp. intros [= <-]. exact Hp.
Qed.

(** ** Session statistics and single-session invalidation *)

Lemma length_filter_split {A} (P : A -> Prop) `{!forall x, Decision (P x)} (l : list A) :
  length l = (length (filter P l) + length (filter (fun x => ~ P x) l))%nat.
Proof.
  induction l as [| a l IH]; [reflexivity|].
  rewrite !filter_cons. destruct (decide (P a)) as [Ha | Ha].
  - rewrite decide_False by tauto. simpl. lia.
  - rewrite decide_True by done. simpl. lia.
Qed.

(** The statistics before and after a cleanup at the same instant: the
    cleanup removes what the statistics count as expired or inactive and
    nothing they count as active.  A session that is active and expires at
    this very instant is neither "active" nor "expired": it is counted in
    the total only, and the cleanup leaves it. *)
Theorem stats_around_a_cleanup :
  forall (now : Date) (db : Db),
    let before := (SessionModel.getSessionStats now db).1 in
    let cleanup := SessionModel.cleanExpiredSessions now db in
    let after := (SessionModel.getSessionStats now cleanup.2).1 in
    let on_the_edge :=
      Z.of_nat (length (filter (fun s => Session.isActive s = true
                                         /\ Session.expiresAt s = now) (sessions db))) in
    exists b a n,
      before = Return b /\ after = Return a /\ cleanup.1 = Return n
      /\ SessionModel.expiredSessions a = 0
      /\ SessionModel.inactiveSessions a = 0
      /\ SessionModel.activeSessions a = SessionModel.activeSessions b
      /\ SessionModel.totalSessions a = SessionModel.totalSessions b - n
      /\ SessionModel.totalSessions b = SessionModel.activeSessions b + n + on_the_edge
      /\ n <= SessionModel.expiredSessions b + SessionModel.inactiveSessions b.
Proof.
  intros now db. cbv zeta. rewrite cleanExpiredSessions_run. cbn [fst snd].
  set (act := fun s => Session.isActive s = true /\ now < Session.expiresAt s).
  assert (Hstats : forall db0,
    (SessionModel.getSessionStats now db0).1 =
      Return {| SessionModel.totalSessions := Z.of_nat (length (sessions db0));
                SessionModel.activeSessions := Z.of_nat (length (filter act (sessions db0)));
                SessionModel.expiredSessions :=
                  Z.of_nat (length (filter (fun s => Session.expiresAt s < now) (sessions db0)));
                SessionModel.inactiveSessions :=
                  Z.of_nat (length (filter (fun s => Session.isActive s = false)
                                      (sessions db0))) |}).
  { intros db0. unfold SessionModel.getSessionStats, gets. cbn [fst].
    by destruct (sessions db0). }
  rewrite !Hstats. cbn [sessions set_sessions].
  set (ss := sessions db).
  set (keep := filter (fun s => ~ SessionModel.expired_or_inactive now s) ss).
  set (on_the_edge := Z.of_nat (length (filter _ ss))).
  eexists _, _, _. split; [reflexivity|]. split; [reflexivity|]. split; [reflexivity|].
  cbn [SessionModel.totalSessions SessionModel.activeSessions
       SessionModel.expiredSessions SessionModel.inactiveSessions].
  assert (Hkeep : forall s, s ∈ keep -> ~ SessionModel.expired_or_inactive now s).
  { intros s Hs. subst keep. apply list_elem_of_filter in Hs. tauto. }
  split.
  { rewrite (proj1 (filter_none _ keep)); [done|].
    intros s Hs Hexp. apply (Hkeep s Hs). by left. }
  split.
  { rewrite (proj1 (filter_none _ keep)); [done|].
    intros s Hs Hexp. apply (Hkeep s Hs). by right. }
  assert (Hact : filter act keep = filter act ss).
  { subst keep. rewrite list_filter_filter. apply list_filter_iff. intros s.
    unfold act, SessionModel.expired_or_inactive. split; [tauto|].
    intros [Ha He]. split; [done|]. intros [? | ?]; [lia | congruence]. }
  split; [by rewrite Hact|].
  pose proof (length_filter_split (SessionModel.expired_or_inactive now) ss) as Hsplit.
  fold keep in Hsplit.
  split; [lia|].
  pose proof (length_filter_split act keep) as Hsplit2. rewrite Hact in Hsplit2.
  assert (Hedge : filter (fun x => ~ act x) keep =
                  filter (fun s => Session.isActive s = true /\ Session.expiresAt s = now) ss).
  { subst keep. rewrite list_filter_filter. apply list_filter_iff. intros s.
    unfold act, SessionModel.expired_or_inactive.
    destruct (Session.isActive s); split; intros H; try tauto.
    - destruct H as [Hna Hne]. split; [done|].
      destruct (Z.lt_trichotomy (Session.expiresAt s) now) as [? | [? | ?]]; [ | done | ];
        tauto.
    - destruct H as [_ He]. split; [lia|]. intros [? | ?]; [lia | discriminate].
    - destruct H as [? _]. discriminate. }
  rewrite Hedge in Hsplit2. subst on_the_edge.
  split; [lia|].
  (* every deleted session is expired or inactive *)
  assert (Hle : forall l : list Session.t,
    (length (filter (SessionModel.expired_or_inactive now) l) <=
     length (filter (fun s => (Session.expiresAt s < now)%Z) l)
     + length (filter (fun s => Session.isActive s = false) l))%nat).
  { induction l as [| s l IH]; [done|]. rewrite !filter_cons.
    unfold SessionModel.expired_or_inactive at 1.
    repeat case_decide; simpl; try lia; tauto. }
  specialize (Hle ss). lia.
Qed.

(** ** Invalidating one session *)

Section FindOneAndUpdate.
Context {D : Type} (P : D -> Prop) `{!forall d, Decision (P d)} (f : D -> D).

Lemma findOneAndUpdate_none (c : list D) :
  (forall d, d ∈ c -> ~ P d) -> Collection.findOneAndUpdate P f c = (None, c).
Proof.
  induction c as [| d c IH]; intros Hno; simpl; [reflexivity|].
  rewrite decide_False by (apply Hno; left).
  rewrite IH; [reflexivity|]. intros d' Hd'. apply Hno. by right.
Qed.

Lemma fmap_fixed {A} (g : A -> A) (l : list A) :
  (forall x, x ∈ l -> g x = x) -> g <$> l = l.
Proof.
  induction l as [| a l IH]; intros Hg; [reflexivity|].
  rewrite fmap_cons, Hg by left. f_equal. apply IH. intros x Hx. apply Hg. by right.
Qed.

Lemma findOneAndUpdate_single `{!EqDecision D} (c : list D) (d : D) :
  NoDup c -> d ∈ c -> P d -> (forall d', d' ∈ c -> P d' -> d' = d) ->
  Collection.findOneAndUpdate P f c =
    (Some (f d), map (fun x => if decide (x = d) then f d else x) c).
Proof.
  induction c as [| a c IH]; intros Hnd Hin HP Huniq; [by apply elem_of_nil in Hin|].
  apply NoDup_cons in Hnd as [Ha Hnd]. simpl.
  destruct (decide (P a)) as [HPa | HPa].
  - assert (a = d) as -> by (apply Huniq; [left | done]).
    rewrite decide_True by done. do 2 f_equal.
    symmetry. apply fmap_fixed. intros x Hx. rewrite decide_False; [done|]. by intros ->.
  - assert (Hin' : d ∈ c).
    { apply elem_of_cons in Hin as [-> | Hin]; [contradiction | done]. }
    rewrite IH; [|done|done|done|intros d' Hd'; apply Huniq; by right].
    rewrite decide_False; [done|]. by intros ->.
Qed.
End FindOneAndUpdate.

(** [invalidateSession(userId, sessionId)] writes only to a session with
    that id that belongs to that user.  For the id of a session of
    somebody else, as for an id that is not stored, it throws 404 "Session
    not found" and the store stays as it was.  For a session of the user
    (ids being unique) it clears [isActive] on that one document; no user
    document is written, so [loginCount] stays as it was. *)
Theorem invalidateSession_touches_only_an_owned_session :
  forall (uid sid : ObjectId) (db : Db),
    ((forall s, s ∈ sessions db -> Session._id s = sid -> Session.userId s <> uid) ->
     SessionService.invalidateSession (JOid uid) (JOid sid) db =
       (Throw (ApiErr 404 "Session not found" []), db))
    /\ (forall s,
          NoDup (map Session._id (sessions db)) ->
          s ∈ sessions db -> Session._id s = sid -> Session.userId s = uid ->
          SessionService.invalidateSession (JOid uid) (JOid sid) db =
            (Return {| SessionService.sessionId := JOid sid;
                       SessionService.invalidatedAt := JUndefined |},
             mkDb (users db)
                  (map (fun d => if decide (d = s) then Session.set_isActive false s else d)
                       (sessions db))
                  (nextId db))).
Proof.
  intros uid sid db. split.
  - intros Hno. unfold SessionService.invalidateSession. unfold bind, lift. simpl.
    rewrite findOneAndUpdate_none.
    + simpl. unfold throw. by destruct db.
    + intros d Hd [[= Hid] [= Hu]]. by apply (Hno d Hd).
  - intros s Hnd Hin Hid Huid. unfold SessionService.invalidateSession.
    unfold bind, lift. simpl.
    rewrite (findOneAndUpdate_single _ _ (sessions db) s).
    + reflexivity.
    + by apply (NoDup_fmap_1 Session._id).
    + done.
    + split; congruence.
    + intros d' Hd' [[= Hid'] _].
      apply (NoDup_fmap_same Session._id (sessions db)); [done..|congruence].
Qed.

(** ** Trimming the sessions of one user *)

Global Instance by_lastUsed_asc_total : Total SessionCleanup.by_lastUsed_asc.
Proof. intros a b. unfold SessionCleanup.by_lastUsed_asc. lia. Qed.

Global Instance by_lastUsed_asc_trans : Transitive SessionCleanup.by_lastUsed_asc.
Proof. intros a b c. unfold SessionCleanup.by_lastUsed_asc. lia. Qed.

Section Trim.
Context (uid : ObjectId) (maxSessions : Z) (now : Date) (ss : list Session.t).

Let R := ranked uid now ss.
Let A := merge_sort SessionCleanup.by_lastUsed_asc R.
Let k := Z.to_nat (Z.of_nat (length R) - maxSessions).
Let ids := map Session._id (take k A).
Let trimmed :=
  map (fun s => if decide (Session._id s ∈ ids) then Session.set_isActive false s else s) ss.

Lemma trim_run (db : Db) :
  sessions db = ss ->
  SessionCleanup.cleanupUserSessions uid maxSessions now db =
    if Z.of_nat (length R) <=? maxSessions then (Return 0, db)
    else (Return (Z.of_nat (length (filter (fun s => Session._id s ∈ ids) ss))),
          set_sessions trimmed db).
Proof.
  intros Hss.
  unfold SessionCleanup.cleanupUserSessions, try_catch, bind,
    SessionModel.getActiveSessions, SessionModel.find, gets, bind, ret. simpl.
  unfold Collection.find. rewrite Hss. fold (ranked uid now ss). fold R.
  destruct (Z.leb_spec (Z.of_nat (length R)) maxSessions) as [Hle | Hgt]; [reflexivity|].
  unfold SessionModel.updateMany, Collection.updateMany. simpl. rewrite Hss.
  unfold SessionCleanup.slice_to.
  destruct (Z.ltb_spec (Z.of_nat (length R) - maxSessions) 0) as [? | _]; [lia|].
  reflexivity.
Qed.

Lemma A_elem_of (s : Session.t) :
  s ∈ A <-> s ∈ ss /\ SessionModel.active_unexpired uid now s.
Proof.
  unfold A, R, ranked. rewrite !merge_sort_Permutation, list_elem_of_filter. tauto.
Qed.

Lemma A_length : length A = length R.
Proof. unfold A. by rewrite merge_sort_Permutation. Qed.

Lemma trimmed_active_length :
  length (filter (SessionModel.active_unexpired uid now) trimmed)
  = length (filter (fun s => Session._id s ∉ ids) (drop k A)).
Proof.
  unfold trimmed.
  rewrite (length_filter_fmap _
             (fun s => (Session._id s ∉ ids) /\ SessionModel.active_unexpired uid now s)).
  2:{ intros s. destruct (decide (Session._id s ∈ ids)) as [Hid | Hid].
      - split; [|tauto]. intros (_ & Hact & _). simpl in Hact. discriminate.
      - tauto. }
  rewrite <- list_filter_filter.
  assert (Hperm : filter (SessionModel.active_unexpired uid now) ss ≡ₚ A).
  { unfold A, R, ranked. by rewrite !merge_sort_Permutation. }
  rewrite Hperm. rewrite <- (take_drop k A) at 1. rewrite filter_app, length_app.
  assert (Hnone : filter (fun s => Session._id s ∉ ids) (take k A) = []).
  { apply filter_none. intros s Hs Hid. apply Hid. unfold ids. by apply list_elem_of_fmap_2. }
  by rewrite Hnone.
Qed.

Hypothesis Hmax : 0 <= maxSessions.
Hypothesis Hover : maxSessions < Z.of_nat (length R).

Lemma drop_length : Z.of_nat (length (drop k A)) = maxSessions.
Proof. rewrite length_drop, A_length. unfold k. lia. Qed.

Lemma trimmed_within : 
  Z.of_nat (length (filter (SessionModel.active_unexpired uid now) trimmed)) <= maxSessions.
Proof.
  rewrite trimmed_active_length.
  pose proof (length_filter (fun s => Session._id s ∉ ids) (drop k A)).
  pose proof drop_length. lia.
Qed.

Hypothesis Hnd : NoDup (map Session._id ss).

Lemma A_ids : NoDup (map Session._id A).
Proof.
  assert (Hperm : A ≡ₚ filter (SessionModel.active_unexpired uid now) ss).
  { unfold A, R, ranked. by rewrite !merge_sort_Permutation. }
  rewrite Hperm. eapply sublist_NoDup; [exact Hnd|]. apply fmap_sublist, sublist_filter.
Qed.

Lemma id_in_ids (s : Session.t) :
  s ∈ ss -> Session._id s ∈ ids -> s ∈ take k A.
Proof.
  intros Hs Hid. unfold ids in Hid. apply list_elem_of_fmap in Hid as (a & Hsame & Ha).
  assert (a ∈ ss).
  { apply (A_elem_of a). rewrite <- (take_drop k A). apply elem_of_app. by left. }
  by rewrite (NoDup_fmap_same Session._id ss s a Hnd Hs H Hsame).
Qed.

Lemma drop_not_in_ids (s : Session.t) : s ∈ drop k A -> Session._id s ∉ ids.
Proof.
  intros Hs Hid.
  pose proof A_ids as HA. rewrite <- (take_drop k A), fmap_app in HA.
  apply NoDup_app in HA as (_ & Hdisj & _).
  apply (Hdisj (Session._id s)); [exact Hid | by apply list_elem_of_fmap_2].
Qed.

Lemma trimmed_exact :
  Z.of_nat (length (filter (SessionModel.active_unexpired uid now) trimmed)) = maxSessions.
Proof.
  rewrite trimmed_active_length, filter_all; [apply drop_length|].
  apply Forall_forall. intros s Hs. by apply drop_not_in_ids.
Qed.

Lemma trimmed_count :
  Z.of_nat (length (filter (fun s => Session._id s ∈ ids) ss))
  = Z.of_nat (length R) - maxSessions.
Proof.
  assert (Hperm : filter (fun s => Session._id s ∈ ids) ss ≡ₚ take k A).
  { apply NoDup_Permutation.
    - apply NoDup_filter. by apply (NoDup_fmap_1 Session._id).
    - apply (NoDup_fmap_1 Session._id). pose proof A_ids as HA.
      rewrite <- (take_drop k A), fmap_app in HA. by apply NoDup_app in HA as (? & _).
    - intros s. rewrite list_elem_of_filter. split.
      + intros [Hid Hs]. by apply id_in_ids.
      + intros Hs. split; [unfold ids; by apply list_elem_of_fmap_2|].
        apply (A_elem_of s). rewrite <- (take_drop k A). apply elem_of_app. by left. }
  rewrite Hperm, length_take, A_length. unfold k. lia.
Qed.

Lemma trimmed_least_recently_used (d s : Session.t) :
  d ∈ ss -> SessionModel.active_unexpired uid now d -> d ∉ trimmed ->
  s ∈ trimmed -> SessionModel.active_unexpired uid now s ->
  Session.lastUsed d <= Session.lastUsed s.
Proof.
  intros Hd Hdact Hgone Hs Hsact.
  assert (Hdt : d ∈ take k A).
  { apply id_in_ids; [done|].
    destruct (decide (Session._id d ∈ ids)) as [Hid | Hid]; [done | exfalso].
    apply Hgone. unfold trimmed. apply list_elem_of_fmap. exists d. by rewrite decide_False. }
  assert (Hsd : s ∈ drop k A).
  { unfold trimmed in Hs. apply list_elem_of_fmap in Hs as (s0 & -> & Hs0).
    destruct (decide (Session._id s0 ∈ ids)) as [Hid | Hid].
    { destruct Hsact as (_ & Hact & _). simpl in Hact. discriminate. }
    assert (HA : s0 ∈ A) by (by apply A_elem_of).
    rewrite <- (take_drop k A) in HA. apply elem_of_app in HA as [HA | HA]; [|done].
    exfalso. apply Hid. unfold ids. by apply list_elem_of_fmap_2. }
  pose proof (StronglySorted_merge_sort SessionCleanup.by_lastUsed_asc R) as Hsorted.
  fold A in Hsorted. rewrite <- (take_drop k A) in Hsorted.
  apply StronglySorted_app in Hsorted as (Hsorted & _ & _). by apply Hsorted.
Qed.

End Trim.

(** [cleanupUserSessions(userId, maxSessions)] with [maxSessions >= 0], on
    any store: afterwards the user has at most [maxSessions] sessions that
    are active and unexpired, and users are not written.  With unique
    session ids it leaves exactly the smaller of [maxSessions] and the
    number there was, returns the number it deactivated, and every session
    it deactivated was used no later than every one it left. *)
Theorem cleanupUserSessions_keeps_the_most_recent :
  forall (userId : ObjectId) (maxSessions : Z) (now : Date) (db : Db),
    0 <= maxSessions ->
    let count db0 :=
      Z.of_nat (length (filter (SessionModel.active_unexpired userId now) (sessions db0))) in
    let result := SessionCleanup.cleanupUserSessions userId maxSessions now db in
    count result.2 <= maxSessions
    /\ users result.2 = users db
    /\ (NoDup (map Session._id (sessions db)) ->
        count result.2 = Z.min (count db) maxSessions
        /\ result.1 = Return (count db - count result.2)
        /\ forall d s,
             d ∈ sessions db -> SessionModel.active_unexpired userId now d ->
             d ∉ sessions result.2 ->
             s ∈ sessions result.2 -> SessionModel.active_unexpired userId now s ->
             Session.lastUsed d <= Session.lastUsed s).
Proof.
  intros userId maxSessions now db Hmax count result.
  assert (HlenR : Z.of_nat (length (ranked userId now (sessions db))) = count db).
  { unfold count, ranked. by rewrite merge_sort_Permutation. }
  subst result. rewrite (trim_run userId maxSessions now (sessions db) db eq_refl).
  destruct (Z.leb_spec (Z.of_nat (length (ranked userId now (sessions db)))) maxSessions)
    as [Hle | Hgt]; simpl.
  - split; [lia|]. split; [done|]. intros _. split; [lia|]. split; [f_equal; lia|].
    intros d s Hd _ Hgone. contradiction.
  - split; [unfold count; simpl; by apply trimmed_within|]. split; [done|].
    intros Hnd. 
    assert (Hexact := trimmed_exact userId maxSessions now (sessions db) Hmax Hgt Hnd).
    split; [unfold count at 1; simpl; lia|]. split.
    + rewrite (trimmed_count userId maxSessions now (sessions db) Hmax Hgt Hnd).
      f_equal. unfold count at 2. simpl. lia.
    + intros d s. by apply trimmed_least_recently_used.
Qed.

(** ** Cleaning up in batches *)

Lemma filter_iff_in {A} (P Q : A -> Prop) `{!forall x, Decision (P x)}
    `{!forall x, Decision (Q x)} (l : list A) :
  (forall x, x ∈ l -> (P x <-> Q x)) -> filter P l = filter Q l.
Proof.
  induction l as [| a l IH]; intros Hiff; [reflexivity|].
  rewrite !filter_cons, IH by (intros x Hx; apply Hiff; by right).
  destruct (decide (P a)) as [Ha | Ha], (decide (Q a)) as [Hb | Hb]; try reflexivity; exfalso.
  - apply Hb, Hiff; [left | done].
  - apply Ha, Hiff; [left | done].
Qed.

Lemma elem_of_take_l {A} (x : A) (n : nat) (l : list A) : x ∈ take n l -> x ∈ l.
Proof. intros H. eapply elem_of_sublist; [exact H | apply sublist_take]. Qed.

Lemma filter_not_in_take {A B} `{!EqDecision B} (f : A -> B) (n : nat) (l : list A) :
  NoDup (f <$> l) -> filter (fun x => f x ∉ f <$> take n l) l = drop n l.
Proof.
  revert l. induction n as [| n IH]; intros l Hnd.
  - rewrite take_0, drop_0. apply filter_all, Forall_forall. intros x _ Hx.
    by apply elem_of_nil in Hx.
  - destruct l as [| a l]; [reflexivity|].
    rewrite fmap_cons in Hnd. apply NoDup_cons in Hnd as [Ha Hnd].
    rewrite firstn_cons, skipn_cons, filter_cons.
    rewrite decide_False by (intros H; apply H; rewrite fmap_cons; left).
    rewrite <- (IH l Hnd). apply filter_iff_in. intros x Hx.
    rewrite fmap_cons, not_elem_of_cons. split; [tauto|]. intros H. split; [|done].
    intros E. apply Ha. rewrite <- E. by apply list_elem_of_fmap_2.
Qed.

Section Batches.
Context (cfg : SessionCleanup.CleanupConfig) (now : Date).
Hypothesis Hbatch : 1 <= SessionCleanup.BATCH_SIZE cfg.

Let B := SessionCleanup.BATCH_SIZE cfg.
Let E := SessionModel.expired_or_inactive now.

Lemma rounds_step (c : Z) : B <= c -> (c - B + B - 1) / B + 1 = (c + B - 1) / B.
Proof.
  intros Hc. replace (c + B - 1) with ((c - B + B - 1) + 1 * B) by lia.
  rewrite Z.div_add by (unfold B; lia). lia.
Qed.

Lemma batch_loop_run (fuel : nat) :
  forall (db : Db) (stats : SessionCleanup.BatchStats),
    NoDup (map Session._id (sessions db)) ->
    (length (filter E (sessions db)) < fuel)%nat ->
    let c := Z.of_nat (length (filter E (sessions db))) in
    SessionCleanup.batchCleanupSessions_loop fuel cfg now stats db =
      (Return (Some {| SessionCleanup.totalProcessed :=
                         SessionCleanup.totalProcessed stats + c;
                       SessionCleanup.totalDeleted := SessionCleanup.totalDeleted stats + c;
                       SessionCleanup.batches :=
                         SessionCleanup.batches stats + (c + B - 1) / B |}),
       set_sessions (filter (fun s => ~ E s) (sessions db)) db).
Proof.
  induction fuel as [| fuel IH]; intros db stats Hnd Hfuel c; [lia|].
  simpl. unfold bind at 1, gets. unfold Collection.find, SessionCleanup.limit.
  fold B E. destruct (Z.eqb_spec B 0) as [? | _]; [unfold B in *; lia|].
  set (L := filter E (sessions db)) in *.
  set (n := Z.to_nat (Z.abs B)).
  assert (HLss : forall x, x ∈ L -> x ∈ sessions db /\ E x).
  { intros x Hx. subst L. apply list_elem_of_filter in Hx. tauto. }
  assert (HLnd : NoDup (Session._id <$> L)).
  { eapply sublist_NoDup; [exact Hnd|]. apply fmap_sublist, sublist_filter. }
  destruct (Z.eqb_spec (Z.of_nat (length (take n L))) 0) as [Hz | Hnz].
  { (* nothing to delete *)
    assert (HL : L = []).
    { destruct L as [| a L']; [done|]. exfalso. rewrite length_take in Hz. simpl in Hz.
      unfold n, B in *. lia. }
    unfold ret. subst c. rewrite HL. simpl length. change (Z.of_nat 0) with 0.
    replace ((0 + B - 1) / B) with 0 by (symmetry; apply Z.div_small; unfold B in *; lia).
    rewrite !Z.add_0_r.
    assert (Hall : filter (fun s => ~ E s) (sessions db) = sessions db).
    { apply filter_all, Forall_forall. intros x Hx HE.
      assert (Hin : x ∈ L) by (subst L; by apply list_elem_of_filter). rewrite HL in Hin.
      by apply elem_of_nil in Hin. }
    rewrite Hall. f_equal; [by destruct stats | by destruct db]. }
  unfold bind at 1, SessionModel.deleteMany. simpl.
  set (ids := map Session._id (take n L)).
  (* what the batch deletes *)
  assert (Hdel : filter (fun s => Session._id s ∈ ids) (sessions db) ≡ₚ take n L).
  { apply NoDup_Permutation.
    - apply NoDup_filter. by apply (NoDup_fmap_1 Session._id).
    - apply (NoDup_fmap_1 Session._id). eapply sublist_NoDup; [exact HLnd|].
      apply fmap_sublist, sublist_take.
    - intros s. rewrite list_elem_of_filter. split.
      + intros [Hid Hs]. apply list_elem_of_fmap in Hid as (a & Hsame & Ha).
        assert (a ∈ sessions db) by (apply HLss; by apply (elem_of_take_l _ n)).
        by rewrite (NoDup_fmap_same Session._id (sessions db) s a Hnd Hs H Hsame).
      + intros Hs. split; [by apply list_elem_of_fmap_2|].
        apply HLss. by apply (elem_of_take_l _ n). }
  assert (Hdellen : length (filter (fun s => Session._id s ∈ ids) (sessions db))
                    = length (take n L)) by (by rewrite Hdel).
  rewrite Hdellen. clear Hdel Hdellen.
  set (rest := filter (fun d => Session._id d ∉ ids) (sessions db)).
  assert (HrestE : filter E rest = drop n L).
  { subst rest. rewrite filter_comm. fold L. by apply filter_not_in_take. }
  assert (HrestK : filter (fun s => ~ E s) rest = filter (fun s => ~ E s) (sessions db)).
  { subst rest. rewrite list_filter_filter. apply filter_iff_in. intros x Hx.
    split; [tauto|]. intros HnE. split; [done|]. intros Hid.
    apply list_elem_of_fmap in Hid as (a & Hsame & Ha). apply HnE.
    assert (Ha' : a ∈ L) by (by apply (elem_of_take_l _ n)).
    destruct (HLss a Ha') as [Hass HaE].
    by rewrite (NoDup_fmap_same Session._id (sessions db) x a Hnd Hx Hass Hsame). }
  assert (Hn : Z.of_nat n = B) by (unfold n, B in *; lia).
  destruct (Z.ltb_spec (Z.of_nat (length (take n L))) B) as [Hlt | Hge].
  - (* the last batch *)
    assert (Htake : take n L = L).
    { apply take_ge. rewrite length_take in Hlt. lia. }
    unfold ret. rewrite Htake in *. fold c.
    assert (Hone : (c + B - 1) / B = 1).
    { symmetry. apply (Z.div_unique_pos _ _ 1 (c - 1)); subst c; lia. }
    rewrite Hone. f_equal. subst rest ids. rewrite Htake.
    f_equal. apply filter_iff_in. intros x Hx. split.
    + intros Hid HE. apply Hid. apply list_elem_of_fmap_2. subst L.
      by apply list_elem_of_filter.
    + intros HnE Hid. apply list_elem_of_fmap in Hid as (a & Hsame & Ha). apply HnE.
      destruct (HLss a Ha) as [Hass HaE].
      by rewrite (NoDup_fmap_same Session._id (sessions db) x a Hnd Hx Hass Hsame).
  - (* a full batch, and on *)
    assert (Hlen : length (take n L) = n).
    { rewrite length_take in *. lia. }
    rewrite IH.
    + simpl. rewrite HrestE, HrestK, length_drop, Hlen. f_equal. f_equal.
      assert (Hc : Z.of_nat (length L - n) = c - B).
      { subst c. rewrite length_take in Hlen. lia. }
      assert (HBc : B <= c) by (rewrite length_take in Hlen; subst c; lia).
      rewrite Hc, Hn, <- (rounds_step c HBc).
      generalize ((c - B + B - 1) / B). intros q.
      replace (SessionCleanup.totalProcessed stats + B + (c - B))
        with (SessionCleanup.totalProcessed stats + c) by lia.
      replace (SessionCleanup.totalDeleted stats + B + (c - B))
        with (SessionCleanup.totalDeleted stats + c) by lia.
      replace (SessionCleanup.batches stats + 1 + q)
        with (SessionCleanup.batches stats + (q + 1)) by lia.
      reflexivity.
    + simpl. eapply sublist_NoDup; [exact Hnd|]. apply fmap_sublist, sublist_filter.
    + simpl. rewrite HrestE, length_drop. rewrite length_take in Hlen. lia.
Qed.

End Batches.

(** [batchCleanupSessions] with a batch size of at least 1, on a store
    with unique session ids: the loop ends, and it leaves the store that
    one call of [cleanExpiredSessions] leaves.  The counters agree with
    it: [totalDeleted] is its [deletedCount], [totalProcessed] is the
    same number, and [batches] is that number divided by the batch size,
    rounded up (the round that finds nothing is not counted). *)
Theorem batchCleanupSessions_agrees_with_one_sweep :
  forall (cfg : SessionCleanup.CleanupConfig) (now : Date) (fuel : nat) (db : Db),
    1 <= SessionCleanup.BATCH_SIZE cfg ->
    NoDup (map Session._id (sessions db)) ->
    (length (sessions db) < fuel)%nat ->
    exists stats,
      SessionCleanup.batchCleanupSessions fuel cfg now db
        = (Return (Some stats), (SessionModel.cleanExpiredSessions now db).2)
      /\ (SessionModel.cleanExpiredSessions now db).1
           = Return (SessionCleanup.totalDeleted stats)
      /\ SessionCleanup.totalProcessed stats = SessionCleanup.totalDeleted stats
      /\ SessionCleanup.batches stats
           = (SessionCleanup.totalDeleted stats + SessionCleanup.BATCH_SIZE cfg - 1)
               / SessionCleanup.BATCH_SIZE cfg.
Proof.
  intros cfg now fuel db Hbatch Hnd Hfuel.
  unfold SessionCleanup.batchCleanupSessions.
  rewrite (batch_loop_run cfg now Hbatch fuel db _ Hnd), cleanExpiredSessions_run.
  - eexists. split; [reflexivity|]. simpl. repeat split.
  - pose proof (length_filter (SessionModel.expired_or_inactive now) (sessions db)). lia.
Qed.

(** ** The environment check *)

Lemma check_run (env : EnvCheck.ProcessEnv) (l : list string) :
  forall missingVars invalidVars,
    foldl (EnvCheck.check env) (missingVars, invalidVars) l =
      (missingVars ++ filter (EnvCheck.is_missing env) l,
       invalidVars ++ filter (EnvCheck.is_placeholder env) l).
Proof.
  induction l as [| k l IH]; intros m i; simpl.
  - by rewrite !app_nil_r.
  - rewrite !filter_cons.
    assert (Hmiss : EnvCheck.is_missing env k <-> default "" (env !! k) = "") by done.
    assert (Hplace : EnvCheck.is_placeholder env k
                     <-> default "" (env !! k) <> ""
                         /\ EnvCheck.includes "your_" (default "" (env !! k)) = true) by done.
    destruct (env !! k) as [value |]; simpl in Hmiss, Hplace.
    + destruct (String.eqb_spec value "") as [-> | Hne].
      * rewrite IH, decide_True by (by apply Hmiss).
        rewrite decide_False by (rewrite Hplace; intros [? _]; done).
        by rewrite <- app_assoc.
      * rewrite (decide_False (P := EnvCheck.is_missing env k)) by (by rewrite Hmiss).
        destruct (EnvCheck.includes "your_" value) eqn:Hinc; simpl.
        -- rewrite IH, decide_True by (by apply Hplace). by rewrite <- app_assoc.
        -- destruct (String.eqb_spec value "your_google_client_id") as [-> | _];
             [discriminate Hinc|].
           rewrite IH, decide_False; [done|]. rewrite Hplace. intros [_ ?]; done.
    + rewrite IH, decide_True by (by apply Hmiss).
      rewrite decide_False by (rewrite Hplace; intros [? _]; done).
      by rewrite <- app_assoc.
Qed.

Lemma filter_nil_Forall {A} (P : A -> Prop) `{!forall x, Decision (P x)} (l : list A) :
  filter P l = [] <-> Forall (fun x => ~ P x) l.
Proof.
  induction l as [| a l IH]; [by split; [constructor|]|].
  rewrite filter_cons, Forall_cons. destruct (decide (P a)); [split; [done | tauto]|].
  rewrite IH. tauto.
Qed.

Lemma ltb_length_nil {A} (l : list A) : (0 <? length l)%nat = false <-> l = [].
Proof. destruct l; simpl; [done|]. split; discriminate. Qed.

(** The check, with the two lists of the loop written as filters. *)
Lemma validateEnvironment_run (URL_error : string -> option string)
    (env : EnvCheck.ProcessEnv) :
  EnvCheck.validateEnvironment URL_error env =
    let missingVars := filter (EnvCheck.is_missing env) EnvCheck.requiredEnvVars in
    let invalidVars := filter (EnvCheck.is_placeholder env) EnvCheck.requiredEnvVars in
    if (0 <? length missingVars)%nat
    then Throw (Error ("Missing required environment variables: "
                       +:+ AuthMiddleware.join ", " missingVars))
    else if (0 <? length invalidVars)%nat
    then Throw (Error ("Invalid placeholder values in environment variables: "
                       +:+ AuthMiddleware.join ", " invalidVars))
    else
      match env !! "ACCESS_TOKEN_SECRET" with
      | None =>
          Throw (JsErr "TypeError"
                   "Cannot read properties of undefined (reading 'length')" None)
      | Some access =>
          if (String.length access <? 32)%nat
          then Throw (Error "ACCESS_TOKEN_SECRET must be at least 32 characters long")
          else
            match env !! "REFRESH_TOKEN_SECRET" with
            | None =>
                Throw (JsErr "TypeError"
                         "Cannot read properties of undefined (reading 'length')" None)
            | Some refresh =>
                if (String.length refresh <? 32)%nat
                then Throw (Error "REFRESH_TOKEN_SECRET must be at least 32 characters long")
                else
                  match EnvCheck.first_thrown
                          (map (EnvCheck.new_URL URL_error env) EnvCheck.urlVars) with
                  | Some message =>
                      Throw (Error ("Invalid URL format in environment variables: "
                                    +:+ message))
                  | None => Return tt
                  end
            end
      end.
Proof.
  unfold EnvCheck.validateEnvironment. rewrite check_run. reflexivity.
Qed.

Lemma first_thrown_None (calls : list (option string)) :
  EnvCheck.first_thrown calls = None <-> Forall (fun c => c = None) calls.
Proof.
  induction calls as [| [m |] calls IH]; simpl.
  - split; [constructor | done].
  - split; [done|]. intros H. apply Forall_cons in H as [? _]. done.
  - rewrite IH, Forall_cons. tauto.
Qed.

(** When the check returns. *)
Lemma validateEnvironment_returns_iff :
  forall (URL_error : string -> option string) (env : EnvCheck.ProcessEnv),
    EnvCheck.validateEnvironment URL_error env = Return tt
    <-> Forall (fun k => exists value,
                  env !! k = Some value /\ value <> ""
                  /\ EnvCheck.includes "your_" value = false) EnvCheck.requiredEnvVars
        /\ Forall (fun k => exists secret,
                     env !! k = Some secret /\ (32 <= String.length secret)%nat)
             ["ACCESS_TOKEN_SECRET"; "REFRESH_TOKEN_SECRET"]
        /\ Forall (fun k => exists url, env !! k = Some url /\ URL_error url = None)
             EnvCheck.urlVars.
Proof.
  intros URL_error env. rewrite validateEnvironment_run. cbv zeta.
  assert (Hset :
    (filter (EnvCheck.is_missing env) EnvCheck.requiredEnvVars = []
     /\ filter (EnvCheck.is_placeholder env) EnvCheck.requiredEnvVars = [])
    <-> Forall (fun k => exists value,
                  env !! k = Some value /\ value <> ""
                  /\ EnvCheck.includes "your_" value = false) EnvCheck.requiredEnvVars).
  { rewrite !filter_nil_Forall, <- Forall_and. apply Forall_iff. intros k.
    unfold EnvCheck.is_missing, EnvCheck.is_placeholder.
    destruct (env !! k) as [value |]; simpl.
    - split.
      + intros [Hne Hno]. exists value. split; [done|]. split; [done|].
        destruct (EnvCheck.includes "your_" value); [|done]. exfalso. by apply Hno.
      + intros (v & [= <-] & Hne & Hinc). split; [done|]. intros [_ H]. congruence.
    - split; [intros [H _]; by destruct H | intros (v & ? & _); done]. }
  rewrite <- Hset. clear Hset.
  destruct (0 <? length (filter (EnvCheck.is_missing env) EnvCheck.requiredEnvVars))%nat
    eqn:Hm.
  { split; [done|]. intros [[Hnil _] _]. apply ltb_length_nil in Hnil. congruence. }
  destruct (0 <? length (filter (EnvCheck.is_placeholder env) EnvCheck.requiredEnvVars))%nat
    eqn:Hi.
  { split; [done|]. intros [[_ Hnil] _]. apply ltb_length_nil in Hnil. congruence. }
  apply ltb_length_nil in Hm, Hi.
  rewrite !Forall_cons, !Forall_nil.
  destruct (env !! "ACCESS_TOKEN_SECRET") as [access |] eqn:Ha.
  2: { split; [done|]. intros (_ & ((s & ? & _) & _) & _). done. }
  destruct (Nat.ltb_spec (String.length access) 32) as [Hla | Hla].
  { split; [done|]. intros (_ & ((s & [= <-] & ?) & _) & _). lia. }
  destruct (env !! "REFRESH_TOKEN_SECRET") as [refresh |] eqn:Hr.
  2: { split; [done|]. intros (_ & (_ & (s & ? & _) & _) & _). done. }
  destruct (Nat.ltb_spec (String.length refresh) 32) as [Hlr | Hlr].
  { split; [done|]. intros (_ & (_ & (s & [= <-] & ?) & _) & _). lia. }
  assert (Hurls :
    EnvCheck.first_thrown (map (EnvCheck.new_URL URL_error env) EnvCheck.urlVars) = None
    <-> Forall (fun k => exists url, env !! k = Some url /\ URL_error url = None)
          EnvCheck.urlVars).
  { rewrite first_thrown_None, Forall_fmap.
    split; intros H.
    - apply Forall_forall. intros k Hk.
      assert (Hurl : EnvCheck.new_URL URL_error env k = None).
      { revert k Hk. apply Forall_forall. exact H. }
      assert (Hreq : k ∈ EnvCheck.requiredEnvVars).
      { clear Hurl. revert k Hk. apply Forall_forall.
        unfold EnvCheck.urlVars, EnvCheck.requiredEnvVars.
        repeat (constructor; [set_solver|]). constructor. }
      assert (Hnm : ~ EnvCheck.is_missing env k).
      { clear Hk Hurl. revert k Hreq. apply Forall_forall.
        by apply (proj1 (filter_nil_Forall _ _)). }
      unfold EnvCheck.is_missing in Hnm. unfold EnvCheck.new_URL in Hurl.
      destruct (env !! k) as [v |]; [by exists v|]. by destruct Hnm.
    - eapply Forall_impl; [exact H|]. intros k (url & Hk & Hurl).
      unfold compose, EnvCheck.new_URL. by rewrite Hk. }
  rewrite <- Hurls.
  destruct (EnvCheck.first_thrown _) as [message |].
  - split; [done|]. intros (_ & _ & ?). done.
  - split; [|done]. intros _. split; [done|]. split; [|done].
    split; [by exists access|]. split; [by exists refresh | done].
Qed.

(** [validateEnvironment] returns exactly for an environment in which
    each of the sixteen required variables is set to a text that is not
    empty and does not contain ['your_'], both token secrets are at least
    32 characters long, and the four URL variables parse as URLs.  In
    every other case it throws. *)
Theorem validateEnvironment_accepts_exactly :
  forall (URL_error : string -> option string) (env : EnvCheck.ProcessEnv),
    EnvCheck.validateEnvironment URL_error env = Return tt
    <-> Forall (fun k => exists value,
                  env !! k = Some value /\ value <> ""
                  /\ EnvCheck.includes "your_" value = false) EnvCheck.requiredEnvVars
        /\ Forall (fun k => exists secret,
                     env !! k = Some secret /\ (32 <= String.length secret)%nat)
             ["ACCESS_TOKEN_SECRET"; "REFRESH_TOKEN_SECRET"]
        /\ Forall (fun k => exists url, env !! k = Some url /\ URL_error url = None)
             EnvCheck.urlVars.
Proof. exact validateEnvironment_returns_iff. Qed.

(** What is wrong with the environment is reported in a fixed order.  If
    any required variable is unset or empty, the error names all of those,
    in the order of [requiredEnvVars], and nothing else is looked at.
    Placeholder values are reported, again all of them, only when no
    variable is missing. *)
Theorem validateEnvironment_reports_missing_first :
  forall (URL_error : string -> option string) (env : EnvCheck.ProcessEnv),
    let missingVars := filter (EnvCheck.is_missing env) EnvCheck.requiredEnvVars in
    let invalidVars := filter (EnvCheck.is_placeholder env) EnvCheck.requiredEnvVars in
    (missingVars <> [] ->
     EnvCheck.validateEnvironment URL_error env =
       Throw (Error ("Missing required environment variables: "
                     +:+ AuthMiddleware.join ", " missingVars)))
    /\ (missingVars = [] -> invalidVars <> [] ->
        EnvCheck.validateEnvironment URL_error env =
          Throw (Error ("Invalid placeholder values in environment variables: "
                        +:+ AuthMiddleware.join ", " invalidVars))).
Proof.
  intros URL_error env missingVars invalidVars.
  rewrite validateEnvironment_run. cbv zeta. fold missingVars invalidVars. split.
  - intros Hne. destruct (0 <? length missingVars)%nat eqn:Hm; [done|].
    by apply ltb_length_nil in Hm.
  - intros -> Hne. simpl. destruct (0 <? length invalidVars)%nat eqn:Hi; [done|].
    by apply ltb_length_nil in Hi.
Qed.

(** The check does not compare the two token secrets: an environment it
    accepts is still accepted when the refresh-token secret is set to the
    value of the access-token secret. *)
Theorem validateEnvironment_allows_one_secret_for_both :
  forall (URL_error : string -> option string) (env : EnvCheck.ProcessEnv) (access : string),
    EnvCheck.validateEnvironment URL_error env = Return tt ->
    env !! "ACCESS_TOKEN_SECRET" = Some access ->
    EnvCheck.validateEnvironment URL_error (<["REFRESH_TOKEN_SECRET" := access]> env)
      = Return tt.
Proof.
  intros URL_error env access Hok Ha.
  apply validateEnvironment_returns_iff in Hok as (Hreq & Hsec & Hurl).
  apply validateEnvironment_returns_iff.
  assert (Haccess : access <> "" /\ EnvCheck.includes "your_" access = false
                    /\ (32 <= String.length access)%nat).
  { rewrite Forall_forall in Hreq.
    destruct (Hreq "ACCESS_TOKEN_SECRET") as (v & Hv & Hne & Hinc);
      [unfold EnvCheck.requiredEnvVars; set_solver|].
    apply Forall_cons in Hsec as [(s & Hs & Hlen) _]. by simplify_eq. }
  destruct Haccess as (Hne & Hinc & Hlen).
  unfold EnvCheck.ProcessEnv in *.
  split; [|split].
  - eapply Forall_impl; [exact Hreq|]. intros k (v & Hv & ? & ?).
    destruct (decide (k = "REFRESH_TOKEN_SECRET")) as [-> | Hk].
    + exists access. by rewrite lookup_insert_eq.
    + exists v. by rewrite lookup_insert_ne.
  - apply Forall_cons. split; [|apply Forall_cons; split; [|constructor]].
    + exists access. by rewrite lookup_insert_ne.
    + exists access. by rewrite lookup_insert_eq.
  - rewrite Forall_forall in Hurl. apply Forall_forall. intros k Hk.
    destruct (Hurl k Hk) as (url & Hu & Hok). exists url. split; [|done].
    rewrite lookup_insert_ne; [done|]. intros <-. unfold EnvCheck.urlVars in Hk.
    repeat (apply elem_of_cons in Hk as [Hk | Hk]; [discriminate|]).
    by apply elem_of_nil in Hk.
Qed.

(** ** The cap over a run of logins and requests *)







Section Visits.
Context (env : Env) (sch : UserModel.Schema) (cfg : LoginOrCreateUser.SessionConfig)
        (uid : ObjectId).

Let N := LoginOrCreateUser.MAX_SESSIONS_PER_USER cfg.






End Visits.




Section VisitsRun.
Context (env : Env) (sch : UserModel.Schema) (cfg : LoginOrCreateUser.SessionConfig)
        (uid : ObjectId) (t0 tN : Date).

Let N := LoginOrCreateUser.MAX_SESSIONS_PER_USER cfg.


End VisitsRun.


(** ** Runs on sample stores *)

Ltac by_computation := apply (bool_decide_unpack _); vm_compute; exact I.





(** Logout with the refresh-token cookie of the only session and no
    access-token cookie: the session is deleted, the counter stays 1. *)
Lemma C4_counterexample :
  ~ logout_current_as_specified Sample.env Sample.sch
      (Sample.with_cookies None (Sample.last_refreshToken Sample.after_first_login))
      2000 Sample.after_first_login.
Proof.
  intros H. red in H.
  destruct (last (sessions Sample.after_first_login)) as [s |] eqn:Hs;
    [|vm_compute in Hs; discriminate].
  destruct (head (users Sample.after_first_login)) as [u |] eqn:Hu;
    [|vm_compute in Hu; discriminate].
  specialize (H (Session.refreshToken s) s u).
  destruct H as [_ H].
  - unfold Sample.last_refreshToken. by rewrite Hs.
  - by apply last_Some_elem_of.
  - reflexivity.
  - by apply head_Some_elem_of.
  - vm_compute in Hs, Hu. by simplify_eq.
  - specialize (H u). vm_compute in Hs, Hu. simplify_eq.
    vm_compute in H.
    assert (1 = 0) as E; [apply H|discriminate].
    + repeat constructor.
    + reflexivity.
Qed.

(** Logout with both cookies after a single login: the session is gone
    and the counter goes from 1 to 0. *)
Lemma C4_logout_after_first_login_witness :
  sessions (Routes.post_logout Sample.env Sample.sch
              (Sample.with_cookies (Sample.last_accessToken Sample.after_first_login)
                 (Sample.last_refreshToken Sample.after_first_login))
              2000 Sample.after_first_login).2 = []
  /\ User.loginCount Sample.first_user = 1
  /\ users (Routes.post_logout Sample.env Sample.sch
              (Sample.with_cookies (Sample.last_accessToken Sample.after_first_login)
                 (Sample.last_refreshToken Sample.after_first_login))
              2000 Sample.after_first_login).2
     = [User.set_loginCount 0 Sample.first_user].
Proof.
  destruct (C4_logout_deletes_session_and_counts_down Sample.env Sample.sch
              (Sample.with_cookies (Sample.last_accessToken Sample.after_first_login)
                 (Sample.last_refreshToken Sample.after_first_login))
              2000 Sample.after_first_login
              (Session.refreshToken Sample.first_session) Sample.first_session)
    as (Hgone & _ & Hcount & _).
  - vm_compute. reflexivity.
  - vm_compute. reflexivity.
  - by_computation.
  - vm_compute. left.
  - reflexivity.
  - vm_compute. reflexivity.
  - split; [|split].
    + destruct (sessions _) as [| s' l] eqn:E; [reflexivity | exfalso].
      destruct (Hgone s') as [Hin Hne]; [left|].
      apply Hne. clear E Hne Hgone. revert s' Hin. apply Forall_forall.
      vm_compute. repeat constructor.
    + vm_compute. reflexivity.
    + rewrite (Hcount 0%nat Sample.first_user).
      * vm_compute. reflexivity.
      * vm_compute. reflexivity.
      * vm_compute. reflexivity.
      * vm_compute. reflexivity.
Defined.

(** A user created through Google with the address [a@x.com] logs in
    through GitHub, which gives the address in capitals and padded: still
    one user, now carrying the GitHub id, with the address as stored. *)
Lemma C6_github_login_witness :
  length (users (LoginOrCreateUser.loginOrCreateUser Sample.env Sample.sch Sample.cfg
                   Sample.github_login_mixed_case 5000 Sample.after_first_login).2) = 1%nat
  /\ User.githubId Sample.first_user = None
  /\ User.email Sample.first_user = "a@x.com"
  /\ exists u',
       u' ∈ users (LoginOrCreateUser.loginOrCreateUser Sample.env Sample.sch Sample.cfg
                     Sample.github_login_mixed_case 5000 Sample.after_first_login).2
       /\ User.githubId u' = Some "gh1"
       /\ User.email u' = "a@x.com".
Proof.
  destruct (C6_existing_user_gets_provider_id_backfilled Sample.env Sample.sch Sample.cfg
              Sample.github_login_mixed_case 5000 Sample.after_first_login
              Sample.first_user)
    as (Hmatch & _ & Hlen & (u' & Hin & Hid) & Hall).
  - discriminate.
  - discriminate.
  - vm_compute. reflexivity.
  - vm_compute. reflexivity.
  - vm_compute. reflexivity.
  - split; [|split; [|split]].
    + rewrite Hlen. vm_compute. reflexivity.
    + vm_compute. reflexivity.
    + rewrite Hmatch. vm_compute. reflexivity.
    + exists u'. destruct (Hall u' Hin Hid) as [Hp Hem].
      split; [exact Hin|]. split; [exact Hp|].
      rewrite Hem. vm_compute. reflexivity.
Defined.

(** A Google login with the stored email and another Google id: the user
    document changes in login time and count only. *)
Lemma C10_other_google_id_witness :
  User.googleId Sample.first_user = Some "g1"
  /\ users (LoginOrCreateUser.loginOrCreateUser Sample.env Sample.sch Sample.cfg
              Sample.google_login_other_id 5000 Sample.after_first_login).2
     = [User.set_loginCount 2 (User.set_lastLoginAt 5000 Sample.first_user)].
Proof.
  destruct (C10_stored_provider_id_is_kept Sample.env Sample.sch Sample.cfg
              Sample.google_login_other_id 5000 Sample.after_first_login Sample.first_user)
    as (Husers & _ & _).
  - discriminate.
  - discriminate.
  - vm_compute. reflexivity.
  - vm_compute. reflexivity.
  - vm_compute. reflexivity.
  - split.
    + vm_compute. reflexivity.
    + rewrite Husers. vm_compute. reflexivity.
Defined.

(** Three active sessions and a cap of 3: the call leaves two active. *)
Lemma deactivateOldSessions_leaves_room_witness :
  length (filter (SessionModel.active_unexpired 0%nat (3 * Sample.HOUR))
            (sessions Sample.after_three_logins)) = 3%nat
  /\ Z.of_nat (length (filter (SessionModel.active_unexpired 0%nat (3 * Sample.HOUR))
                         (sessions (SessionModel.deactivateOldSessions 0%nat 3
                                      (3 * Sample.HOUR) Sample.after_three_logins).2)))
       <= 3 - 1.
Proof.
  split; [vm_compute; reflexivity|].
  destruct (deactivateOldSessions_leaves_room 0%nat 3 (3 * Sample.HOUR)
              Sample.after_three_logins) as (H & _).
  - lia.
  - exact H.
Defined.

(** A fourth login after three: three sessions are active afterwards. *)
Lemma login_keeps_active_sessions_within_cap_witness :
  Z.of_nat (length (filter (SessionModel.active_unexpired 0%nat (3 * Sample.HOUR))
                      (sessions (LoginOrCreateUser.loginOrCreateUser Sample.env Sample.sch
                                   Sample.cfg (Sample.from_device "desktop" Sample.google_login)
                                   (3 * Sample.HOUR) Sample.after_three_logins).2)))
    <= 3.
Proof.
  apply (login_keeps_active_sessions_within_cap Sample.env Sample.sch Sample.cfg
           (Sample.from_device "desktop" Sample.google_login) (3 * Sample.HOUR)
           Sample.after_three_logins
           (LoginOrCreateUser.loginOrCreateUser Sample.env Sample.sch
              Sample.cfg (Sample.from_device "desktop" Sample.google_login)
              (3 * Sample.HOUR) Sample.after_three_logins).2
           (Sample.reply_of
              (LoginOrCreateUser.loginOrCreateUser Sample.env Sample.sch
                 Sample.cfg (Sample.from_device "desktop" Sample.google_login)
                 (3 * Sample.HOUR) Sample.after_three_logins).1)
           0%nat).
  - vm_compute. discriminate.
  - vm_compute. reflexivity.
  - vm_compute. reflexivity.
Defined.

(** Distinct secrets: an access token issued with [{ type: 'refresh' }]
    is refused by the refresh verifier. *)
Lemma cross_kind_refused_with_distinct_secrets_witness :
  exists e,
    verifyRefreshToken Sample.env
      (Some (Sample.issued
               (generateAccessToken Sample.env (JOid 7%nat)
                  {[ "type" := JStr "refresh" ]} 1000))) 2000 = Throw e.
Proof.
  apply (proj1 (cross_kind_refused_with_distinct_secrets Sample.env (JOid 7%nat)
                  {[ "type" := JStr "refresh" ]} 1000 2000 ltac:(discriminate))).
  vm_compute. reflexivity.
Defined.

(** One secret for both kinds, no additional payload: the access token is
    refused by the refresh verifier. *)
Lemma access_token_refused_as_refresh_witness :
  exists e,
    verifyRefreshToken Sample.shared_secret_env
      (Some (Sample.issued
               (generateAccessToken Sample.shared_secret_env (JOid 7%nat) ∅ 1000)))
      2000 = Throw e.
Proof.
  apply (access_token_refused_as_refresh Sample.shared_secret_env (JOid 7%nat) ∅ 1000 2000).
  - reflexivity.
  - vm_compute. reflexivity.
Defined.

Lemma refresh_token_refused_as_access_witness :
  exists e,
    verifyAccessToken Sample.shared_secret_env
      (Some (Sample.issued
               (generateRefreshToken Sample.shared_secret_env (JOid 7%nat) ∅ 1000)))
      2000 = Throw e.
Proof.
  apply (refresh_token_refused_as_access Sample.shared_secret_env (JOid 7%nat) ∅ 1000 2000).
  - reflexivity.
  - vm_compute. reflexivity.
Defined.

(** A login without a provider id into a store with one user. *)
Lemma login_rejects_missing_input_witness :
  LoginOrCreateUser.loginOrCreateUser Sample.env Sample.sch Sample.cfg
    Sample.login_without_id 5000 Sample.after_first_login
  = (Return (login_error Sample.env Sample.login_without_id "invalid_input"),
     Sample.after_first_login).
Proof.
  apply (login_rejects_missing_input Sample.env Sample.sch Sample.cfg
           Sample.login_without_id 5000 Sample.after_first_login).
  left. reflexivity.
Defined.

(** The first login into the empty store, with the address in mixed case
    and a padded name: one user, stored with the address in lower case
    and the name trimmed, and the success redirect. *)
Lemma first_login_creates_user_and_session_witness :
  length (users (LoginOrCreateUser.loginOrCreateUser Sample.env Sample.sch Sample.cfg
                   Sample.untidy_login 1000 Sample.empty_db).2) = 1%nat
  /\ first_login Sample.untidy_login 1000 0%nat
       ∈ users (LoginOrCreateUser.loginOrCreateUser Sample.env Sample.sch Sample.cfg
                  Sample.untidy_login 1000 Sample.empty_db).2
  /\ User.email (first_login Sample.untidy_login 1000 0%nat) = "bob@example.com"
  /\ User.name (first_login Sample.untidy_login 1000 0%nat) = "Bob"
  /\ User.loginCount (first_login Sample.untidy_login 1000 0%nat) = 1
  /\ exists tokens,
       (LoginOrCreateUser.loginOrCreateUser Sample.env Sample.sch Sample.cfg
          Sample.untidy_login 1000 Sample.empty_db).1
       = Return (login_success Sample.env Sample.cfg Sample.untidy_login tokens).
Proof.
  destruct (first_login_creates_user_and_session Sample.env Sample.sch Sample.cfg
              Sample.untidy_login 1000 Sample.empty_db)
    as (Hlen & Hin & _ & _ & Hemail & Hname & Hcount & tokens & _ & _ & Hfree).
  - discriminate.
  - discriminate.
  - vm_compute. reflexivity.
  - vm_compute. reflexivity.
  - split; [exact Hlen|]. split; [exact Hin|]. split; [exact Hemail|].
    split; [exact Hname|]. split; [exact Hcount|].
    exists tokens. apply Hfree. constructor.
Defined.

(** The access token of the first login, a second later. *)
Lemma login_token_passes_the_gate_witness :
  exists u ti db'',
    AuthMiddleware.verifyJwtToken Sample.env
      (Sample.caller_of Sample.first_session) 2000 Sample.after_first_login
      = (Return (AuthMiddleware.Proceed u ti), db'')
    /\ u ∈ users Sample.after_first_login /\ User._id u = 0%nat
    /\ AuthMiddleware.ti_accessToken ti = Session.accessToken Sample.first_session
    /\ AuthMiddleware.ti_userId ti = JOid 0%nat.
Proof.
  apply (login_token_passes_the_gate Sample.env Sample.sch Sample.cfg
           Sample.google_login 1000 Sample.empty_db Sample.after_first_login
           (Sample.reply_of
              (LoginOrCreateUser.loginOrCreateUser Sample.env Sample.sch Sample.cfg
                 Sample.google_login 1000 Sample.empty_db).1)
           0%nat (Session.accessToken Sample.first_session)
           (LoginOrCreateUser.ACCESS_TOKEN_EXPIRY_DAYS Sample.cfg * 24 * 60 * 60 * 1000)
           (Sample.caller_of Sample.first_session) 2000).
  - vm_compute. reflexivity.
  - vm_compute. reflexivity.
  - vm_compute. left.
  - vm_compute. reflexivity.
  - intros u Hu _. revert u Hu. apply Forall_forall. vm_compute. repeat constructor.
  - vm_compute. reflexivity.
  - vm_compute. reflexivity.
Defined.

(** Alice's account is deactivated; she logs in through Google, and the
    token of that login is refused a second later. *)
Lemma deactivated_account_logs_in_but_is_refused_witness :
  User.loginCount (logged_in Sample.google_login 1000 Sample.alice_deactivated) = 2
  /\ AuthMiddleware.verifyJwtToken Sample.env
       (Sample.with_cookies
          (Some (tp_accessToken
                   (Sample.issued_tokens (generateTokens Sample.env (JOid 0%nat) ∅ 1000))))
          None) 2000
       (LoginOrCreateUser.loginOrCreateUser Sample.env Sample.sch Sample.cfg
          Sample.google_login 1000 Sample.deactivated_db).2
     = (Return (AuthMiddleware.NextError
                  (ApiErr 401 "Account is deactivated"
                     [("auth", "User account has been deactivated")])),
        (LoginOrCreateUser.loginOrCreateUser Sample.env Sample.sch Sample.cfg
           Sample.google_login 1000 Sample.deactivated_db).2).
Proof.
  destruct (deactivated_account_logs_in_but_is_refused Sample.env Sample.sch Sample.cfg
              Sample.google_login 1000 Sample.deactivated_db Sample.alice_deactivated)
    as (tokens & Htok & _ & _ & Hcount & Hgate).
  - discriminate.
  - discriminate.
  - vm_compute. reflexivity.
  - vm_compute. reflexivity.
  - reflexivity.
  - assert (Heq : tokens
                  = Sample.issued_tokens (generateTokens Sample.env (JOid 0%nat) ∅ 1000)).
    { change (JOid 0%nat) with (JOid (User._id Sample.alice_deactivated)).
      by rewrite Htok. }
    subst tokens. split; [exact Hcount|].
    apply Hgate; vm_compute; reflexivity.
Defined.

(** After the logout of the only session, its access token is refused. *)
Lemma logout_revokes_the_access_token_witness :
  exists message errors,
    AuthMiddleware.verifyJwtToken Sample.env
      (Sample.caller_of Sample.first_session) 3000
      (Routes.post_logout Sample.env Sample.sch
         (Sample.with_cookies None (Sample.last_refreshToken Sample.after_first_login))
         2000 Sample.after_first_login).2
    = (Return (AuthMiddleware.NextError (ApiErr 401 message errors)),
       (Routes.post_logout Sample.env Sample.sch
          (Sample.with_cookies None (Sample.last_refreshToken Sample.after_first_login))
          2000 Sample.after_first_login).2).
Proof.
  apply (logout_revokes_the_access_token Sample.env Sample.sch
           (Sample.with_cookies None (Sample.last_refreshToken Sample.after_first_login))
           2000 Sample.after_first_login
           (Session.refreshToken Sample.first_session) Sample.first_session).
  - vm_compute. reflexivity.
  - vm_compute. reflexivity.
  - by_computation.
  - by_computation.
  - vm_compute. left.
  - reflexivity.
  - vm_compute. reflexivity.
  - reflexivity.
Defined.

(** Two sessions; after [logout-all-others] from the later one, the token
    of the earlier one is refused. *)
Lemma logout_others_revokes_the_other_tokens_witness :
  exists message errors,
    AuthMiddleware.verifyJwtToken Sample.env
      (Sample.caller_of (Sample.earliest_session Sample.after_two_logins)) 7000
      (Routes.post_logout_all_others Sample.env Sample.sch
         (Sample.latest_caller Sample.after_two_logins) 6000 Sample.after_two_logins).2
    = (Return (AuthMiddleware.NextError (ApiErr 401 message errors)),
       (Routes.post_logout_all_others Sample.env Sample.sch
          (Sample.latest_caller Sample.after_two_logins) 6000 Sample.after_two_logins).2).
Proof.
  destruct (logout_others_revokes_the_other_tokens Sample.env Sample.sch
              (Sample.latest_caller Sample.after_two_logins) 6000
              Sample.after_two_logins
              (AuthMiddleware.verifyJwtToken Sample.env
                 (Sample.latest_caller Sample.after_two_logins) 6000
                 Sample.after_two_logins).2
              (Routes.post_logout_all_others Sample.env Sample.sch
                 (Sample.latest_caller Sample.after_two_logins) 6000
                 Sample.after_two_logins).2
              (Sample.admitted_user
                 (AuthMiddleware.verifyJwtToken Sample.env
                    (Sample.latest_caller Sample.after_two_logins) 6000
                    Sample.after_two_logins).1)
              (Sample.admitted_tokenInfo
                 (AuthMiddleware.verifyJwtToken Sample.env
                    (Sample.latest_caller Sample.after_two_logins) 6000
                    Sample.after_two_logins).1)
              (Sample.reply_of
                 (Routes.post_logout_all_others Sample.env Sample.sch
                    (Sample.latest_caller Sample.after_two_logins) 6000
                    Sample.after_two_logins).1)
              (Sample.body_of
                 (Sample.reply_of
                    (Routes.post_logout_all_others Sample.env Sample.sch
                       (Sample.latest_caller Sample.after_two_logins) 6000
                       Sample.after_two_logins).1)))
    as (Hothers & _).
  - vm_compute. reflexivity.
  - by_computation.
  - vm_compute. reflexivity.
  - vm_compute. reflexivity.
  - apply (Hothers (Sample.earliest_session Sample.after_two_logins)).
    + vm_compute. left.
    + vm_compute. reflexivity.
    + by_computation.
    + reflexivity.
Defined.

(** A second login of the same user within the clock second of the
    first: no second session, and the counter stands at 2. *)
Lemma login_with_a_stored_refresh_token_fails_but_counts_witness :
  (LoginOrCreateUser.loginOrCreateUser Sample.env Sample.sch Sample.cfg
     Sample.google_login 1500 Sample.after_first_login).1
    = Return (login_error Sample.env Sample.google_login "email_exists")
  /\ User.loginCount (logged_in Sample.google_login 1500 Sample.first_user) = 2
  /\ (length (sessions (LoginOrCreateUser.loginOrCreateUser Sample.env Sample.sch Sample.cfg
                          Sample.google_login 1500%Z Sample.after_first_login).2)
      <= length (sessions Sample.after_first_login))%nat.
Proof.
  destruct (login_with_a_stored_refresh_token_fails_but_counts Sample.env Sample.sch
              Sample.cfg Sample.google_login 1500 Sample.after_first_login
              Sample.first_user
              (Sample.issued_tokens (generateTokens Sample.env (JOid 0%nat) ∅ 1500))
              Sample.first_session)
    as (Hreply & _ & Hcount & _ & Hlen).
  - discriminate.
  - discriminate.
  - vm_compute. reflexivity.
  - vm_compute. reflexivity.
  - vm_compute. reflexivity.
  - vm_compute. left.
  - vm_compute. reflexivity.
  - vm_compute. reflexivity.
  - vm_compute. discriminate.
  - split; [exact Hreply|]. split; [|exact Hlen].
    rewrite Hcount. vm_compute. reflexivity.
Defined.

(** Two sessions of one user, the cookie of the later one: both go. *)
Lemma logout_all_deletes_every_session_of_the_owner_witness :
  sessions (LogoutUser.logoutAllDevices Sample.env Sample.sch
              (Sample.with_cookies None (Sample.last_refreshToken Sample.after_two_logins))
              6000 Sample.after_two_logins).2 = [].
Proof.
  destruct (logout_all_deletes_every_session_of_the_owner Sample.env Sample.sch
              (Sample.with_cookies None (Sample.last_refreshToken Sample.after_two_logins))
              6000 Sample.after_two_logins
              (Session.refreshToken (Sample.latest_session Sample.after_two_logins))
              (Sample.latest_session Sample.after_two_logins))
    as (Hsessions & _).
  - vm_compute. reflexivity.
  - vm_compute. reflexivity.
  - by_computation.
  - vm_compute. right. left.
  - reflexivity.
  - rewrite Hsessions. vm_compute. reflexivity.
Defined.

(** The access token of a login at second 1, with the default lifetime of
    a day, two days later. *)
Lemma isTokenExpired_agrees_with_verification_witness :
  isTokenExpired Sample.ToNumber
    (Some (tp_accessToken
             (Sample.issued_tokens (generateTokens Sample.env (JOid 0%nat) ∅ 1000))))
    (2 * MS_PER_DAY) = true
  <-> verifyAccessToken Sample.env
        (Some (tp_accessToken
                 (Sample.issued_tokens (generateTokens Sample.env (JOid 0%nat) ∅ 1000))))
        (2 * MS_PER_DAY)
      = Throw (Error "Access token has expired").
Proof.
  apply (isTokenExpired_agrees_with_verification Sample.ToNumber Sample.env 0%nat 1000
           (2 * MS_PER_DAY)
           (Sample.issued_tokens (generateTokens Sample.env (JOid 0%nat) ∅ 1000))).
  - intros z. reflexivity.
  - vm_compute. discriminate.
  - vm_compute. reflexivity.
Defined.

(** Three active sessions trimmed to two. *)
Lemma cleanupUserSessions_keeps_the_most_recent_witness :
  Z.of_nat (length (filter (SessionModel.active_unexpired 0%nat (3 * Sample.HOUR))
                      (sessions (SessionCleanup.cleanupUserSessions 0%nat 2
                                   (3 * Sample.HOUR) Sample.after_three_logins).2)))
    <= 2.
Proof.
  destruct (cleanupUserSessions_keeps_the_most_recent 0%nat 2 (3 * Sample.HOUR)
              Sample.after_three_logins) as (H & _).
  - lia.
  - exact H.
Defined.

(** Four sessions, all expired twenty days on, in batches of three: two
    batches, four deleted. *)
Lemma batchCleanupSessions_agrees_with_one_sweep_witness :
  exists stats,
    SessionCleanup.batchCleanupSessions 5 Sample.batches_of_three (20 * MS_PER_DAY)
      Sample.after_four_logins
      = (Return (Some stats),
         (SessionModel.cleanExpiredSessions (20 * MS_PER_DAY) Sample.after_four_logins).2)
    /\ (SessionModel.cleanExpiredSessions (20 * MS_PER_DAY) Sample.after_four_logins).1
         = Return (SessionCleanup.totalDeleted stats)
    /\ SessionCleanup.totalProcessed stats = SessionCleanup.totalDeleted stats
    /\ SessionCleanup.batches stats
         = (SessionCleanup.totalDeleted stats
            + SessionCleanup.BATCH_SIZE Sample.batches_of_three - 1)
             / SessionCleanup.BATCH_SIZE Sample.batches_of_three.
Proof.
  apply (batchCleanupSessions_agrees_with_one_sweep Sample.batches_of_three
           (20 * MS_PER_DAY) 5 Sample.after_four_logins).
  - vm_compute. discriminate.
  - by_computation.
  - vm_compute. lia.
Defined.

(** The sample environment with the access-token secret used for the
    refresh tokens too. *)
Lemma validateEnvironment_allows_one_secret_for_both_witness :
  EnvCheck.validateEnvironment Sample.URL_error
    (<["REFRESH_TOKEN_SECRET" := "access-secret-0123456789abcdef0123456789"]>
       Sample.process_env)
  = Return tt.
Proof.
  apply (validateEnvironment_allows_one_secret_for_both Sample.URL_error
           Sample.process_env "access-secret-0123456789abcdef0123456789").
  - vm_compute. reflexivity.
  - vm_compute. reflexivity.
Defined.
